(** * Skill tree generator: a shallow embedding of [skill_tree_generator.py]

    The development follows the four stages of [SkillTreeGenerator]:
    text extraction ([extract_text_from_pdf]), classification
    ([analyze_resume_with_xai], [_fallback_skill_extraction]), tree
    building ([build_skill_tree]) and the two artifacts written by
    [generate_skill_tree] and [generate_html_visualization].

    Python values are modelled as follows.
    - A [str] is the list of its code points.
    - The dictionaries of the program (the skill record, the tree) are
      typed records and an inductive tree; the generic result of
      [json.loads] is a [json] value whose objects are association lists
      in insertion order.
    - Exceptions are an inductive [exn]; a call that may raise returns an
      [outcome].
    - The file system is a finite map from paths to the bytes of the
      files.
    - The Unicode tables behind [str.lower] and [str.title] are a
      parameter, [UnicodeData].
    - The PDF backends and the remote service are inputs of the model:
      what a backend does on a document is a [run], what the HTTP call
      does is a [remote_outcome].
    - The limits of the interpreter (recursion depth, memory, length of
      an integer literal) are not modelled.
    - The standard output encodes as UTF-8 does.  Of what the program
      prints, the model keeps the one text that is taken from the remote
      answer, [content[:500]]; the other texts are messages of the
      program, paths and messages of exceptions, which are taken to be
      text that the output encodes.

    [build_skill_tree] is modelled twice: on the decoded value as the
    interpreter sees it ([build_skill_tree_json]), which is what a run
    calls, and on records ([build_skill_tree]); the two are shown to
    agree on every value that reads as a record.  The two writers of the
    artifacts are modelled on the dictionary of the tree and on trees in
    the same way. *)

From Stdlib Require Import NArith List Bool Lia String Ascii.
From stdpp Require Import gmap.
Import ListNotations.

Unset Default Proof Using.
#[local] Set Warnings "-register-all".

(** ** Python strings *)

Definition str := list N.

(** [bs.decode('utf-8')] on well-formed bytes: the literals of this file
    and the files that the program wrote. *)
Fixpoint decode_utf8 (bs : list N) : str :=
  match bs with
  | [] => []
  | b0 :: r0 =>
      if (b0 <? 0x80)%N then b0 :: decode_utf8 r0
      else match r0 with
      | [] => [b0]
      | b1 :: r1 =>
          if (b0 <? 0xE0)%N then
            ((b0 mod 0x20) * 0x40 + b1 mod 0x40)%N :: decode_utf8 r1
          else match r1 with
          | [] => [b0; b1]
          | b2 :: r2 =>
              if (b0 <? 0xF0)%N then
                ((b0 mod 0x10) * 0x1000 + (b1 mod 0x40) * 0x40 + b2 mod 0x40)%N
                  :: decode_utf8 r2
              else match r2 with
              | [] => [b0; b1; b2]
              | b3 :: r3 =>
                  ((b0 mod 0x08) * 0x40000 + (b1 mod 0x40) * 0x1000
                   + (b2 mod 0x40) * 0x40 + b3 mod 0x40)%N :: decode_utf8 r3
              end
          end
      end
  end.

Fixpoint bytes_of (s : string) : list N :=
  match s with
  | EmptyString => []
  | String a s' => N_of_ascii a :: bytes_of s'
  end.

(** A Python string literal. *)
Definition py (s : string) : str := decode_utf8 (bytes_of s).

(** [s.encode('utf-8')] on text without surrogates. *)
Definition encode_utf8_char (c : N) : list N :=
  if (c <? 0x80)%N then [c]
  else if (c <? 0x800)%N then [0xC0 + c / 0x40; 0x80 + c mod 0x40]%N
  else if (c <? 0x10000)%N then
    [0xE0 + c / 0x1000; 0x80 + (c / 0x40) mod 0x40; 0x80 + c mod 0x40]%N
  else
    [0xF0 + c / 0x40000; 0x80 + (c / 0x1000) mod 0x40;
     0x80 + (c / 0x40) mod 0x40; 0x80 + c mod 0x40]%N.

Definition encode_utf8 (s : str) : list N := flat_map encode_utf8_char s.

(** A text file opened with [encoding='utf-8'] takes the code points
    that UTF-8 encodes: no surrogate, nothing above U+10FFFF. *)
Definition is_scalar (c : N) : bool :=
  ((c <? 0xD800) || (0xDFFF <? c) && (c <? 0x110000))%N.

Definition encodable (s : str) : bool := forallb is_scalar s.

(** A literal that holds double quotes, written with [@] in the place of
    each of them. *)
Definition pyq (s : string) : str :=
  map (fun c => if (c =? 0x40)%N then 0x22%N else c) (py s).

Fixpoint str_eqb (a b : str) : bool :=
  match a, b with
  | [], [] => true
  | x :: a', y :: b' => (x =? y)%N && str_eqb a' b'
  | _, _ => false
  end.

(** [s.startswith(prefix)] *)
Fixpoint startswith (s prefix : str) {struct prefix} : bool :=
  match prefix, s with
  | [], _ => true
  | _ :: _, [] => false
  | p :: prefix', c :: s' => (c =? p)%N && startswith s' prefix'
  end.

(** [sub in s]: [sub] occurs in [s] as a contiguous substring. *)
Fixpoint str_in (sub s : str) : bool :=
  startswith s sub ||
  match s with
  | [] => false
  | _ :: s' => str_in sub s'
  end.

(** [s.count(sub)] for a non-empty [sub]: the number of non-overlapping
    occurrences, scanning from the left.  [skip] is the number of
    characters of the current occurrence still to pass over. *)
Fixpoint count_from (sub : str) (skip : nat) (s : str) : nat :=
  match s with
  | [] => 0
  | _ :: s' =>
      match skip with
      | S k => count_from sub k s'
      | O => if startswith s sub
             then S (count_from sub (length sub - 1) s')
             else count_from sub 0 s'
      end
  end.

Definition count (s sub : str) : nat := count_from sub 0 s.

(** [s.replace(old, new)] for a non-empty [old] (the two call sites pass
    ["_"] and ["SKILL_TREE_DATA"]): every non-overlapping occurrence of
    [old], scanning from the left, is replaced; the replacement text is
    not scanned again. *)
Fixpoint replace_from (old new : str) (skip : nat) (s : str) : str :=
  match s with
  | [] => []
  | c :: s' =>
      match skip with
      | S k => replace_from old new k s'
      | O => if startswith s old
             then new ++ replace_from old new (length old - 1) s'
             else c :: replace_from old new 0 s'
      end
  end.

Definition replace (s old new : str) : str := replace_from old new 0 s.

(** [s.split(sep)] for a one-character separator: the pieces between the
    separators, at least one piece. *)
Fixpoint split (s : str) (sep : N) : list str :=
  match s with
  | [] => [[]]
  | c :: s' =>
      match split s' sep with
      | [] => [[]]
      | piece :: pieces =>
          if (c =? sep)%N then [] :: piece :: pieces
          else (c :: piece) :: pieces
      end
  end.

(** [sep.join(pieces)] *)
Fixpoint join (sep : str) (pieces : list str) : str :=
  match pieces with
  | [] => []
  | [p] => p
  | p :: ps => p ++ sep ++ join sep ps
  end.

(** [str.isspace] on one code point: the characters [str.strip] removes. *)
Definition is_space (c : N) : bool :=
  ((0x09 <=? c) && (c <=? 0x0D) || (0x1C <=? c) && (c <=? 0x20)
   || (c =? 0x85) || (c =? 0xA0) || (c =? 0x1680)
   || (0x2000 <=? c) && (c <=? 0x200A)
   || (c =? 0x2028) || (c =? 0x2029) || (c =? 0x202F) || (c =? 0x205F)
   || (c =? 0x3000))%N.

Fixpoint lstrip (s : str) : str :=
  match s with
  | [] => []
  | c :: s' => if is_space c then lstrip s' else s
  end.

Definition rstrip (s : str) : str := rev (lstrip (rev s)).

(** [s.strip()] *)
Definition strip (s : str) : str := rstrip (lstrip s).

(** A Python string is true when it is not empty. *)
Definition truthy {A} (l : list A) : bool :=
  match l with [] => false | _ :: _ => true end.

(** *** Case mapping

    [str.lower] and [str.title] read the Unicode character database of
    the interpreter, which is not part of the repository: its four
    per-character tables are the fields of [UnicodeData].  The two
    algorithms above the tables are those of the interpreter. *)

Class UnicodeData := {
  to_lower_full : N -> list N;
  to_title_full : N -> list N;
  is_cased : N -> bool;
  is_case_ignorable : N -> bool
}.

Definition ascii_upper_letter (c : N) : bool := ((0x41 <=? c) && (c <=? 0x5A))%N.
Definition ascii_lower_letter (c : N) : bool := ((0x61 <=? c) && (c <=? 0x7A))%N.
Definition ascii_letter (c : N) : bool :=
  ascii_upper_letter c || ascii_lower_letter c.
Definition ascii_lower (c : N) : N :=
  if ascii_upper_letter c then (c + 0x20)%N else c.
Definition ascii_upper (c : N) : N :=
  if ascii_lower_letter c then (c - 0x20)%N else c.

(** The rows of the database for the Basic Latin block; every other code
    point is listed as caseless.  Used to run the model on ASCII text. *)
Definition basic_latin_ucd : UnicodeData := {|
  to_lower_full c := [ascii_lower c];
  to_title_full c := [ascii_upper c];
  is_cased c := ascii_letter c;
  is_case_ignorable c :=
    ((c =? 0x27) || (c =? 0x2E) || (c =? 0x3A) || (c =? 0x5E) || (c =? 0x60))%N
|}.

Definition is_ascii (s : str) : bool := forallb (fun c => (c <? 0x80)%N) s.

(** A database agrees with the Basic Latin rows. *)
Definition basic_latin (U : UnicodeData) : Prop :=
  forall c, (c < 0x80)%N ->
    to_lower_full c = [ascii_lower c] /\
    to_title_full c = [ascii_upper c] /\
    is_cased c = ascii_letter c.

Section CaseMapping.
Context {U : UnicodeData}.

Fixpoint skip_ignorable (s : str) : str :=
  match s with
  | [] => []
  | c :: s' => if is_case_ignorable c then skip_ignorable s' else s
  end.

(** The capital sigma at the end of a word lowers to the final sigma.
    [before] holds the characters before it, nearest first. *)
Definition handle_capital_sigma (before after : str) : N :=
  let final_sigma :=
    match skip_ignorable before with
    | [] => false
    | c :: _ =>
        is_cased c &&
        match skip_ignorable after with
        | [] => true
        | c' :: _ => negb (is_cased c')
        end
    end in
  if final_sigma then 0x3C2%N else 0x3C3%N.

Definition lower_ucs4 (before : str) (c : N) (after : str) : list N :=
  if (c =? 0x3A3)%N then [handle_capital_sigma before after]
  else to_lower_full c.

Fixpoint do_lower (before s : str) : str :=
  match s with
  | [] => []
  | c :: s' => lower_ucs4 before c s' ++ do_lower (c :: before) s'
  end.

(** [s.lower()] *)
Definition lower (s : str) : str := do_lower [] s.

Fixpoint do_title (previous_is_cased : bool) (before s : str) : str :=
  match s with
  | [] => []
  | c :: s' =>
      (if previous_is_cased then lower_ucs4 before c s'
       else to_title_full c)
      ++ do_title (is_cased c) (c :: before) s'
  end.

(** [s.title()]: a cased character is title-cased when the character
    before it is not cased, and lowered otherwise. *)
Definition title (s : str) : str := do_title false [] s.
End CaseMapping.


(** ** JSON values, [json.dumps] and [json.loads]

    A JSON object is the association list of a Python [dict], in
    insertion order.  A number keeps the text it was read from: the
    program never computes with one. *)

Inductive json :=
| JNull
| JBool (b : bool)
| JNumber (literal : str)
| JString (s : str)
| JArray (items : list json)
| JObject (members : list (str * json)).

(** [d[k] = v] on a [dict]: an existing key keeps its place. *)
Fixpoint dict_set {A} (d : list (str * A)) (k : str) (v : A) : list (str * A) :=
  match d with
  | [] => [(k, v)]
  | (k', v') :: d' =>
      if str_eqb k' k then (k, v) :: d' else (k', v') :: dict_set d' k v
  end.

(** [d.get(k)] *)
Fixpoint dict_get {A} (d : list (str * A)) (k : str) : option A :=
  match d with
  | [] => None
  | (k', v) :: d' => if str_eqb k' k then Some v else dict_get d' k
  end.

(** [dict(pairs)] *)
Definition dict_of_pairs {A} (pairs : list (str * A)) : list (str * A) :=
  fold_left (fun d kv => dict_set d (fst kv) (snd kv)) pairs [].

(** *** Numbers

    A number of the decoded value keeps the literal it was read from;
    [json.loads] makes of it an [int] when the literal has neither a
    fraction nor an exponent, and the nearest [float] otherwise, and
    [json.dumps] writes the [repr] of that number. *)

Definition is_digit (c : N) : bool := ((0x30 <=? c) && (c <=? 0x39))%N.

(** [NUMBER_RE]: an optional minus sign, then a zero or a run of digits
    that does not start with a zero; then, optionally, a dot and digits;
    then, optionally, an exponent mark, a sign and digits. *)
Fixpoint span_digits (s : str) : str * str :=
  match s with
  | [] => ([], [])
  | c :: s' =>
      if is_digit c
      then let (ds, rest) := span_digits s' in (c :: ds, rest)
      else ([], s)
  end.

Definition match_integer (s : str) : option (str * str) :=
  let (sign, s1) :=
    match s with
    | c :: s' => if (c =? 0x2D)%N then ([c], s') else ([], s)
    | [] => ([], s)
    end in
  match s1 with
  | [] => None
  | d :: s2 =>
      if (d =? 0x30)%N then Some (sign ++ [d], s2)
      else if is_digit d
      then let (ds, rest) := span_digits s2 in Some (sign ++ d :: ds, rest)
      else None
  end.

Definition match_fraction (s : str) : str * str :=
  match s with
  | c :: s' =>
      if (c =? 0x2E)%N then
        match span_digits s' with
        | ([], _) => ([], s)
        | (ds, rest) => (c :: ds, rest)
        end
      else ([], s)
  | [] => ([], s)
  end.

Definition match_exponent (s : str) : str * str :=
  match s with
  | c :: s' =>
      if ((c =? 0x65) || (c =? 0x45))%N then
        let (sign, s1) :=
          match s' with
          | g :: s'' => if ((g =? 0x2D) || (g =? 0x2B))%N then ([g], s'') else ([], s')
          | [] => ([], s')
          end in
        match span_digits s1 with
        | ([], _) => ([], s)
        | (ds, rest) => (c :: sign ++ ds, rest)
        end
      else ([], s)
  | [] => ([], s)
  end.

(** The digits of a number literal as a natural number. *)
Definition digits_value (ds : str) : N :=
  fold_left (fun n d => (10 * n + (d - 0x30))%N) ds 0%N.

(** The parts of a literal of [NUMBER_RE]: its sign, whether it has a
    fraction or an exponent, and [digits] and [power] such that its
    absolute value is [digits * 10 ^ power]. *)
Record decimal := {
  literal_negative : bool;
  literal_is_float : bool;
  literal_digits : N;
  literal_power : Z
}.

Definition decimal_of_literal (literal : str) : option decimal :=
  match match_integer literal with
  | None => None
  | Some (i, s1) =>
      let (f, s2) := match_fraction s1 in
      let (e, _) := match_exponent s2 in
      let exponent :=
        match e with
        | _ :: sign :: ds =>
            if (sign =? 0x2D)%N then (- Z.of_N (digits_value ds))%Z
            else Z.of_N (digits_value (List.filter is_digit (sign :: ds)))
        | _ => 0%Z
        end in
      Some {| literal_negative := startswith i [0x2D%N];
              literal_is_float := truthy (f ++ e);
              literal_digits :=
                digits_value (List.filter is_digit i ++ List.filter is_digit f);
              literal_power :=
                (exponent - Z.of_nat (length (List.filter is_digit f)))%Z |}
  end.

(** [digits * 10 ^ power] as a fraction. *)
Definition fraction (digits : N) (power : Z) : N * N :=
  if (0 <=? power)%Z then (digits * 10 ^ Z.to_N power, 1)%N
  else (digits, 10 ^ Z.to_N (- power))%N.

(** [2 ^ k <= a / b] and [10 ^ k <= a / b] *)
Definition power_le (base : N) (k : Z) (a b : N) : bool :=
  if (0 <=? k)%Z then (b * base ^ Z.to_N k <=? a)%N
  else (b <=? a * base ^ Z.to_N (- k))%N.

(** The integer part of the logarithm of [a / b] in base 2, for positive
    [a] and [b]. *)
Definition floor_log2 (a b : N) : Z :=
  let l := (Z.of_N (N.log2 a) - Z.of_N (N.log2 b))%Z in
  if power_le 2 l a b then l else (l - 1)%Z.

(** The integer part of the logarithm of [a / b] in base 10. *)
Definition floor_log10 (a b : N) : Z :=
  let t := (floor_log2 a b * 30103 / 100000)%Z in
  if power_le 10 (t + 1) a b then (t + 1)%Z
  else if power_le 10 t a b then t
  else (t - 1)%Z.

(** [a / b] rounded to the nearest integer, a tie to the even one. *)
Definition round_half_even (a b : N) : N :=
  let q := (a / b)%N in
  let r := (a mod b)%N in
  if (b <? 2 * r)%N then (q + 1)%N
  else if (2 * r =? b)%N && N.odd q then (q + 1)%N
  else q.

(** The [float] nearest to the positive [a / b], as [m] and [p] with the
    value [m * 2 ^ p]: [m] has 53 bits, or fewer with [p = -1074] for a
    subnormal number and for zero.  [None] is the infinity that a number
    of [2 ^ 1024] or more rounds to. *)
Definition nearest_float (a b : N) : option (N * Z) :=
  let p := Z.max (floor_log2 a b - 52) (-1074) in
  let m :=
    if (0 <=? p)%Z then round_half_even a (b * 2 ^ Z.to_N p)
    else round_half_even (a * 2 ^ Z.to_N (- p)) b in
  let (m, p) := if (m =? 2 ^ 53)%N then ((2 ^ 52)%N, (p + 1)%Z) else (m, p) in
  if (971 <? p)%Z then None else Some (m, p).

(** Whether the decimal number [digits * 10 ^ power] reads as the float
    [m * 2 ^ p]. *)
Definition reads_as (digits : N) (power : Z) (m : N) (p : Z) : bool :=
  let (a, b) := fraction digits power in
  match nearest_float a b with
  | Some (m', p') => (m' =? m)%N && (p' =? p)%Z
  | None => false
  end.

(** The shortest decimal number that reads as the float [m * 2 ^ p], the
    nearest to the float when there are two: its digits and its power
    of ten.  [counts] are the numbers of digits to try, in order. *)
Fixpoint shortest (m : N) (p : Z) (counts : list Z) : N * Z :=
  let (a, b) := if (0 <=? p)%Z then (m * 2 ^ Z.to_N p, 1)%N
                else (m, 2 ^ Z.to_N (- p))%N in
  match counts with
  | [] => (m, 0%Z)
  | n :: counts' =>
      let k := (floor_log10 a b - n + 1)%Z in
      let (xa, xb) := if (0 <=? k)%Z then (a, b * 10 ^ Z.to_N k)%N
                      else (a * 10 ^ Z.to_N (- k), b)%N in
      let low := (xa / xb)%N in
      let r := (xa mod xb)%N in
      if (r =? 0)%N then (low, k)
      else
        let high := (low + 1)%N in
        match reads_as low k m p, reads_as high k m p with
        | true, true => if (xb <? 2 * r)%N then (high, k) else (low, k)
        | true, false => (low, k)
        | false, true => (high, k)
        | false, false => shortest m p counts'
        end
  end.

(** The decimal digits of a natural number, the first one first. *)
Fixpoint digits_of (fuel : nat) (n : N) (tail : str) : str :=
  match fuel with
  | O => tail
  | S fuel' =>
      if (n <? 10)%N then (0x30 + n)%N :: tail
      else digits_of fuel' (n / 10)%N ((0x30 + n mod 10)%N :: tail)
  end.

Definition decimal_digits (n : N) : str :=
  digits_of (S (N.to_nat (N.log2 n))) n [].

Fixpoint strip_zeros (reversed : str) : str :=
  match reversed with
  | [] => []
  | d :: ds => if (d =? 0x30)%N then strip_zeros ds else reversed
  end.

(** [float.__repr__] on a positive float: the shortest digits, written
    with an exponent when the decimal point would stand more than 16
    places after the first digit or more than 4 places before it. *)
Definition float_repr (m : N) (p : Z) : str :=
  let (d, k) := shortest m p (map Z.of_nat (seq 1 17)) in
  let all := decimal_digits d in
  let decpt := (Z.of_nat (length all) + k)%Z in
  let ds := match rev (strip_zeros (rev all)) with [] => [0x30%N] | ds => ds end in
  if ((decpt <=? -4) || (16 <? decpt))%Z then
    let exponent := (decpt - 1)%Z in
    let es := decimal_digits (Z.abs_N exponent) in
    firstn 1 ds
    ++ match skipn 1 ds with [] => [] | rest => 0x2E%N :: rest end
    ++ [0x65; if (exponent <? 0)%Z then 0x2D else 0x2B]%N
    ++ match es with [_] => 0x30%N :: es | _ => es end
  else if (decpt <=? 0)%Z then
    [0x30; 0x2E]%N ++ repeat 0x30%N (Z.to_nat (- decpt)) ++ ds
  else if (Z.of_nat (length ds) <=? decpt)%Z then
    ds ++ repeat 0x30%N (Z.to_nat decpt - length ds) ++ [0x2E; 0x30]%N
  else
    firstn (Z.to_nat decpt) ds ++ 0x2E%N :: skipn (Z.to_nat decpt) ds.

(** What [json.dumps] writes for the number read from a literal. *)
Definition number_text (literal : str) : str :=
  match decimal_of_literal literal with
  | None => literal
  | Some d =>
      if negb (literal_is_float d) then
        if (literal_digits d =? 0)%N then [0x30%N] else literal
      else
        let sign := if literal_negative d then [0x2D%N] else [] in
        if (literal_digits d =? 0)%N then sign ++ [0x30; 0x2E; 0x30]%N
        else
          let (a, b) := fraction (literal_digits d) (literal_power d) in
          match nearest_float a b with
          | None => sign ++ py "Infinity"
          | Some (m, p) =>
              if (m =? 0)%N then sign ++ [0x30; 0x2E; 0x30]%N
              else sign ++ float_repr m p
          end
  end.

(** *** Encoding *)

Definition hex_digit (n : N) : N :=
  if (n <? 10)%N then (0x30 + n)%N else (0x61 + (n - 10))%N.

(** ['\\u{0:04x}'.format(n)] *)
Definition u_escape (n : N) : str :=
  [0x5C; 0x75; hex_digit (n / 0x1000 mod 0x10); hex_digit (n / 0x100 mod 0x10);
   hex_digit (n / 0x10 mod 0x10); hex_digit (n mod 0x10)]%N.

(** The short escapes of [ESCAPE_DCT]. *)
Definition short_escape (c : N) : option str :=
  if (c =? 0x5C)%N then Some (py "\\")
  else if (c =? 0x22)%N then Some [0x5C; 0x22]%N
  else if (c =? 0x08)%N then Some (py "\b")
  else if (c =? 0x0C)%N then Some (py "\f")
  else if (c =? 0x0A)%N then Some (py "\n")
  else if (c =? 0x0D)%N then Some (py "\r")
  else if (c =? 0x09)%N then Some (py "\t")
  else None.

(** One character of [encode_basestring] ([ensure_ascii=False]): the
    quote, the backslash and the control characters are escaped. *)
Definition escape_char (c : N) : str :=
  match short_escape c with
  | Some e => e
  | None => if (c <? 0x20)%N then u_escape c else [c]
  end.

(** One character of [encode_basestring_ascii] ([ensure_ascii=True]):
    everything outside the printable ASCII range is escaped as well, a
    character above U+FFFF as a surrogate pair. *)
Definition escape_char_ascii (c : N) : str :=
  match short_escape c with
  | Some e => e
  | None =>
      if (0x20 <=? c)%N && (c <=? 0x7E)%N then [c]
      else if (c <? 0x10000)%N then u_escape c
      else
        let n := (c - 0x10000)%N in
        u_escape (N.lor 0xD800 (N.land (N.shiftr n 10) 0x3FF))
        ++ u_escape (N.lor 0xDC00 (N.land n 0x3FF))
  end.

Definition quote : N := 0x22%N.

Definition encode_string (ensure_ascii : bool) (s : str) : str :=
  quote :: flat_map (if ensure_ascii then escape_char_ascii else escape_char) s
  ++ [quote].

(** ['\n' + indent * level] with [indent=2] *)
Definition newline_indent (level : nat) : str :=
  0x0A%N :: repeat 0x20%N (2 * level).

(** [json.dumps(v, indent=2, ensure_ascii=...)] at a nesting level: the
    items of a list or of a dictionary come one per line, two spaces
    deeper than the bracket that closes them, with a comma after each one
    but the last. *)
Fixpoint encode (ensure_ascii : bool) (level : nat) (v : json) : str :=
  match v with
  | JNull => py "null"
  | JBool true => py "true"
  | JBool false => py "false"
  | JNumber literal => number_text literal
  | JString s => encode_string ensure_ascii s
  | JArray [] => py "[]"
  | JArray (x :: xs) =>
      py "[" ++ newline_indent (S level) ++ encode ensure_ascii (S level) x
      ++ flat_map (fun y => py "," ++ newline_indent (S level)
                            ++ encode ensure_ascii (S level) y) xs
      ++ newline_indent level ++ py "]"
  | JObject [] => py "{}"
  | JObject ((k, x) :: kxs) =>
      py "{" ++ newline_indent (S level)
      ++ encode_string ensure_ascii k ++ py ": " ++ encode ensure_ascii (S level) x
      ++ flat_map (fun ky => let '(k', y) := ky in
                             py "," ++ newline_indent (S level)
                             ++ encode_string ensure_ascii k' ++ py ": "
                             ++ encode ensure_ascii (S level) y) kxs
      ++ newline_indent level ++ py "}"
  end.

Definition dumps (ensure_ascii : bool) (v : json) : str :=
  encode ensure_ascii 0 v.

(** *** Decoding

    The scanner of [json.loads], in its default strict mode.  Every
    function returns the value read and the text that follows it, or
    [None] where the decoder raises [JSONDecodeError]. *)

Definition is_json_ws (c : N) : bool :=
  ((c =? 0x20) || (c =? 0x09) || (c =? 0x0A) || (c =? 0x0D))%N.

Fixpoint skip_ws (s : str) : str :=
  match s with
  | [] => []
  | c :: s' => if is_json_ws c then skip_ws s' else s
  end.

Definition hex_value (c : N) : option N :=
  if is_digit c then Some (c - 0x30)%N
  else if ((0x61 <=? c) && (c <=? 0x66))%N then Some (c - 0x61 + 10)%N
  else if ((0x41 <=? c) && (c <=? 0x46))%N then Some (c - 0x41 + 10)%N
  else None.

Definition hex4 (h1 h2 h3 h4 : N) : option N :=
  match hex_value h1, hex_value h2, hex_value h3, hex_value h4 with
  | Some a, Some b, Some c, Some d =>
      Some (a * 0x1000 + b * 0x100 + c * 0x10 + d)%N
  | _, _, _, _ => None
  end.

Definition is_high_surrogate (c : N) : bool := ((0xD800 <=? c) && (c <=? 0xDBFF))%N.
Definition is_low_surrogate (c : N) : bool := ((0xDC00 <=? c) && (c <=? 0xDFFF))%N.
Definition join_surrogates (hi lo : N) : N :=
  (0x10000 + (N.lor (N.shiftl (hi - 0xD800) 10) (lo - 0xDC00)))%N.

Definition unescape (e : N) : option N :=
  if ((e =? 0x22) || (e =? 0x5C) || (e =? 0x2F))%N then Some e
  else if (e =? 0x62)%N then Some 0x08%N
  else if (e =? 0x66)%N then Some 0x0C%N
  else if (e =? 0x6E)%N then Some 0x0A%N
  else if (e =? 0x72)%N then Some 0x0D%N
  else if (e =? 0x74)%N then Some 0x09%N
  else None.

Definition push {A B} (c : A) (r : option (list A * B)) : option (list A * B) :=
  match r with
  | Some (s, rest) => Some (c :: s, rest)
  | None => None
  end.

(** The string that follows an opening quote, up to its closing quote. *)
Fixpoint scanstring (s : str) : option (str * str) :=
  match s with
  | [] => None
  | c :: s1 =>
      if (c =? 0x22)%N then Some ([], s1)
      else if (c =? 0x5C)%N then
        match s1 with
        | [] => None
        | e :: s2 =>
            if (e =? 0x75)%N then
              match s2 with
              | h1 :: h2 :: h3 :: h4 :: s6 =>
                  match hex4 h1 h2 h3 h4 with
                  | None => None
                  | Some u =>
                      match s6 with
                      | b :: e' :: g1 :: g2 :: g3 :: g4 :: s12 =>
                          if is_high_surrogate u && (b =? 0x5C)%N && (e' =? 0x75)%N
                          then
                            match hex4 g1 g2 g3 g4 with
                            | None => None
                            | Some u2 =>
                                if is_low_surrogate u2
                                then push (join_surrogates u u2) (scanstring s12)
                                else push u (scanstring s6)
                            end
                          else push u (scanstring s6)
                      | _ => push u (scanstring s6)
                      end
                  end
              | _ => None
              end
            else
              match unescape e with
              | Some c' => push c' (scanstring s2)
              | None => None
              end
        end
      else if (c <? 0x20)%N then None
      else push c (scanstring s1)
  end.

Definition match_number (s : str) : option (json * str) :=
  match match_integer s with
  | None => None
  | Some (i, s1) =>
      let (f, s2) := match_fraction s1 in
      let (e, s3) := match_exponent s2 in
      Some (JNumber (i ++ f ++ e), s3)
  end.

(** A constant such as [null], when the text starts with it. *)
Definition match_constant (word : str) (v : json) (s : str) : option (json * str) :=
  if startswith s word then Some (v, skipn (length word) s) else None.

(** The elements of an array after the first [skip_ws]; [fuel] bounds
    their number. *)
Fixpoint scan_items (scan_once : str -> option (json * str)) (fuel : nat)
    (s : str) : option (list json * str) :=
  match fuel with
  | O => None
  | S fuel' =>
      match scan_once s with
      | None => None
      | Some (v, s1) =>
          match skip_ws s1 with
          | c :: s2 =>
              if (c =? 0x5D)%N then Some ([v], s2)
              else if (c =? 0x2C)%N then push v (scan_items scan_once fuel' (skip_ws s2))
              else None
          | [] => None
          end
      end
  end.

Definition scan_array (scan_once : str -> option (json * str)) (s : str)
    : option (json * str) :=
  match skip_ws s with
  | [] => None
  | c :: s1 =>
      if (c =? 0x5D)%N then Some (JArray [], s1)
      else match scan_items scan_once (length s) (c :: s1) with
           | Some (vs, rest) => Some (JArray vs, rest)
           | None => None
           end
  end.

(** The members of an object, from the quote of a key. *)
Fixpoint scan_pairs (scan_once : str -> option (json * str)) (fuel : nat)
    (s : str) : option (list (str * json) * str) :=
  match fuel with
  | O => None
  | S fuel' =>
      match s with
      | [] => None
      | q :: s0 =>
          if negb (q =? 0x22)%N then None
          else
            match scanstring s0 with
            | None => None
            | Some (key, s1) =>
                match skip_ws s1 with
                | [] => None
                | colon :: s2 =>
                    if negb (colon =? 0x3A)%N then None
                    else
                      match scan_once (skip_ws s2) with
                      | None => None
                      | Some (v, s3) =>
                          match skip_ws s3 with
                          | c :: s4 =>
                              if (c =? 0x7D)%N then Some ([(key, v)], s4)
                              else if (c =? 0x2C)%N
                              then push (key, v)
                                     (scan_pairs scan_once fuel' (skip_ws s4))
                              else None
                          | [] => None
                          end
                      end
                end
            end
      end
  end.

Definition scan_object (scan_once : str -> option (json * str)) (s : str)
    : option (json * str) :=
  match skip_ws s with
  | [] => None
  | c :: s1 =>
      if (c =? 0x7D)%N then Some (JObject [], s1)
      else match scan_pairs scan_once (length s) (c :: s1) with
           | Some (pairs, rest) => Some (JObject (dict_of_pairs pairs), rest)
           | None => None
           end
  end.

(** The value at the head of the text; [depth] bounds the nesting. *)
Fixpoint scan_once (depth : nat) (s : str) : option (json * str) :=
  match depth with
  | O => None
  | S depth' =>
      match s with
      | [] => None
      | c :: s1 =>
          if (c =? 0x22)%N then
            match scanstring s1 with
            | Some (x, rest) => Some (JString x, rest)
            | None => None
            end
          else if (c =? 0x7B)%N then scan_object (scan_once depth') s1
          else if (c =? 0x5B)%N then scan_array (scan_once depth') s1
          else if startswith s (py "null") then match_constant (py "null") JNull s
          else if startswith s (py "true") then match_constant (py "true") (JBool true) s
          else if startswith s (py "false") then match_constant (py "false") (JBool false) s
          else match match_number s with
               | Some r => Some r
               | None =>
                   if startswith s (py "NaN")
                   then match_constant (py "NaN") (JNumber (py "NaN")) s
                   else if startswith s (py "Infinity")
                   then match_constant (py "Infinity") (JNumber (py "Infinity")) s
                   else match_constant (py "-Infinity") (JNumber (py "-Infinity")) s
               end
      end
  end.

(** [json.loads(s)]: one value, with white space around it and nothing
    else.  A value nested deeper than the text is long does not exist, so
    the bounds never cut a parse short. *)
Definition loads (s : str) : option json :=
  if startswith s [0xFEFF%N] then None
  else
    match scan_once (S (length s)) (skip_ws s) with
    | Some (v, rest) =>
        match skip_ws rest with
        | [] => Some v
        | _ :: _ => None
        end
    | None => None
    end.

Definition string_of_json (v : json) : option str :=
  match v with JString s => Some s | _ => None end.

(** ** Exceptions *)

Inductive exn :=
| ImportError
| Exception            (* raise Exception(...) *)
| BackendError         (* what a PDF backend raises on a document *)
| RequestException     (* connection error or timeout of the HTTP call *)
| HTTPError            (* raise_for_status on a 4xx or 5xx answer *)
| JSONDecodeError
| AttributeError
| IndexError
| KeyError
| TypeError
| UnboundLocalError
| OSError
| UnicodeEncodeError.

Inductive outcome (A : Type) :=
| Return (a : A)
| Raise (e : exn).
Arguments Return {A} a.
Arguments Raise {A} e.

Definition bind {A B} (r : outcome A) (f : A -> outcome B) : outcome B :=
  match r with
  | Return a => f a
  | Raise e => Raise e
  end.

Notation "'let*' x := r 'in' k" := (bind r (fun x => k))
  (at level 10, x name, r at level 100, k at level 200).

(** [print(text)] on a standard output that encodes as UTF-8 does, with
    the strict handling of errors that the interpreter gives it: the
    call raises when the text holds a code point that UTF-8 does not
    encode. *)
Definition print (text : str) : outcome unit :=
  if encodable text then Return tt else Raise UnicodeEncodeError.

(** ** Text extraction *)

(** What a backend does on one document: it yields the text of the pages
    one after the other ([None] or an empty text for a page without
    text), and either reaches the end or raises, possibly before the
    first page when the document cannot be opened. *)
Inductive run :=
| Done
| Page (page_text : option str) (rest : run)
| Raises (e : exn).

(** The modules that could be imported, and the runs of the two backends
    on the document at [pdf_path]. *)
Record pdf_world := {
  pdfplumber : bool;
  PyPDF2 : bool;
  pdfplumber_open : str -> run;
  PyPDF2_open : str -> run
}.

(** The body of a [try] block of [extract_text_from_pdf]: [text] grows
    page by page; the exception that ends the run, if any, is caught by
    the [except] clause right after, which only prints. *)
Fixpoint read_pages (r : run) (text : str) : str :=
  match r with
  | Done => text
  | Raises _ => text
  | Page page_text rest =>
      match page_text with
      | Some t => if truthy t then read_pages rest (text ++ t ++ py "
") else read_pages rest text
      | None => read_pages rest text
      end
  end.

Definition extract_text_from_pdf (w : pdf_world) (pdf_path : str) : outcome str :=
  let text := [] in
  if negb (pdfplumber w) && negb (PyPDF2 w) then Raise ImportError
  else
    let text :=
      if pdfplumber w then read_pages (pdfplumber_open w pdf_path) text
      else text in
    let text :=
      if negb (truthy text) && PyPDF2 w
      then read_pages (PyPDF2_open w pdf_path) text
      else text in
    if negb (truthy text) then Raise Exception
    else Return (strip text).

(** The behaviour the specification words: a backend that raises counts
    as having produced no text. *)
Fixpoint run_raises (r : run) : bool :=
  match r with
  | Done => false
  | Raises _ => true
  | Page _ rest => run_raises rest
  end.

Definition backend_text (r : run) : str :=
  if run_raises r then [] else read_pages r [].

Definition extract_all_or_nothing (w : pdf_world) (pdf_path : str) : outcome str :=
  if negb (pdfplumber w) && negb (PyPDF2 w) then Raise ImportError
  else
    let text := if pdfplumber w then backend_text (pdfplumber_open w pdf_path) else [] in
    let text :=
      if negb (truthy text) && PyPDF2 w
      then backend_text (PyPDF2_open w pdf_path)
      else text in
    if negb (truthy (strip text)) then Raise Exception
    else Return (strip text).

(** ** The skill record *)

Inductive level := beginner | intermediate | advanced | expert.
Inductive relation_kind := prerequisite | related | specialization.

Record relationship := {
  parent : str;
  child : str;
  kind : relation_kind
}.

(** The value of the key ["skills"].  A field is [None] when the key is
    absent from the dictionary. *)
Record skills_record := {
  technical : option (list (str * list str));
  soft_skills : option (list str);
  domains : option (list str);
  certifications : option (list str)
}.

Record skill_data := {
  skills : option skills_record;
  experience_levels : option (list (str * level));
  skill_relationships : option (list relationship)
}.

(** The record as the dictionary it is in the program. *)
Definition json_of_strings (l : list str) : json := JArray (map JString l).

Definition json_of_level (l : level) : json :=
  JString (match l with
           | beginner => py "beginner"
           | intermediate => py "intermediate"
           | advanced => py "advanced"
           | expert => py "expert"
           end).

Definition json_of_relationship (r : relationship) : json :=
  JObject [(py "parent", JString (parent r)); (py "child", JString (child r));
           (py "type", JString (match kind r with
                                | prerequisite => py "prerequisite"
                                | related => py "related"
                                | specialization => py "specialization"
                                end))].

Definition member {A} (k : string) (f : A -> json) (field : option A)
    : list (str * json) :=
  match field with
  | Some a => [(py k, f a)]
  | None => []
  end.

Definition json_of_skills (s : skills_record) : json :=
  JObject (member "technical"
             (fun t => JObject (map (fun kv => (fst kv, json_of_strings (snd kv))) t))
             (technical s)
           ++ member "soft_skills" json_of_strings (soft_skills s)
           ++ member "domains" json_of_strings (domains s)
           ++ member "certifications" json_of_strings (certifications s)).

Definition json_of_skill_data (d : skill_data) : json :=
  JObject (member "skills" json_of_skills (skills d)
           ++ member "experience_levels"
                (fun e => JObject (map (fun kv => (fst kv, json_of_level (snd kv))) e))
                (experience_levels d)
           ++ member "skill_relationships"
                (fun r => JArray (map json_of_relationship r))
                (skill_relationships d)).

(** ** Classification *)

Definition tech_keywords : list (str * list str) :=
  [(py "programming_languages",
    map py ["Python"; "JavaScript"; "Java"; "C++"; "C#"; "Go"; "Rust";
            "TypeScript"; "SQL"; "R"; "Swift"; "Kotlin"]%string);
   (py "frameworks",
    map py ["React"; "Vue"; "Angular"; "Django"; "Flask"; "FastAPI"; "Spring";
            "Node.js"; "Express"; "TensorFlow"; "PyTorch"]%string);
   (py "tools",
    map py ["Git"; "Docker"; "Kubernetes"; "AWS"; "Azure"; "GCP"; "Jenkins";
            "CI/CD"; "Linux"; "MongoDB"; "PostgreSQL"; "Redis"]%string)].

(** [d[k].append(x)]; the key is present at the only call site. *)
Definition dict_append (d : list (str * list str)) (k x : str)
    : list (str * list str) :=
  match dict_get d k with
  | Some l => dict_set d k (l ++ [x])
  | None => d
  end.

(** [if self.api_key:] a key that is [None] or empty counts as absent. *)
Definition has_credential (api_key : option str) : bool :=
  match api_key with
  | Some k => truthy k
  | None => false
  end.

Section Classifier.
Context {U : UnicodeData}.

Definition _fallback_skill_extraction (resume_text : str) : skill_data :=
  let found_skills :=
    [(py "programming_languages", []); (py "frameworks", []); (py "tools", [])] in
  let resume_lower := lower resume_text in
  let found_skills :=
    fold_left
      (fun found_skills entry =>
         let category := fst entry in
         fold_left
           (fun found_skills keyword =>
              if str_in (lower keyword) resume_lower
              then dict_append found_skills category keyword
              else found_skills)
           (snd entry) found_skills)
      tech_keywords found_skills in
  {| skills := Some {| technical := Some found_skills;
                       soft_skills := Some [];
                       domains := Some [];
                       certifications := Some [] |};
     experience_levels := Some [];
     skill_relationships := Some [] |}.

(** [keyword.lower() in resume_lower] *)
Definition mentions (resume_text keyword : str) : bool :=
  str_in (lower keyword) (lower resume_text).

(** The list that the fallback returns for a category. *)
Definition found_skills (resume_text category : str) : list str :=
  match skills (_fallback_skill_extraction resume_text) with
  | Some s =>
      match technical s with
      | Some t => match dict_get t category with Some l => l | None => [] end
      | None => []
      end
  | None => []
  end.

(** What the HTTP call does: [requests.post] raises, or it returns an
    answer with a status code, whose [json()] method either raises or
    returns the decoded body. *)
Inductive remote_outcome :=
| PostRaises (e : exn)
| Answer (status_code : N) (body : outcome json).

(** [v.get(k, default)] *)
Definition get (v : json) (k : str) (default : json) : outcome json :=
  match v with
  | JObject d =>
      Return (match dict_get d k with Some x => x | None => default end)
  | _ => Raise AttributeError
  end.

(** [v[0]] *)
Definition first_item (v : json) : outcome json :=
  match v with
  | JArray (x :: _) => Return x
  | JArray [] => Raise IndexError
  | JString (c :: _) => Return (JString [c])
  | JString [] => Raise IndexError
  | JObject _ => Raise KeyError
  | _ => Raise TypeError
  end.

(** [response = requests.post(...); response.raise_for_status();
    result = response.json()] *)
Definition is_error_status (status_code : N) : bool :=
  ((400 <=? status_code) && (status_code <? 600))%N.

Definition request (remote : remote_outcome) : outcome json :=
  match remote with
  | PostRaises e => Raise e
  | Answer status_code body =>
      if is_error_status status_code then Raise HTTPError else body
  end.

(** [result.get('choices', [{}])[0].get('message', {}).get('content', '{}')] *)
Definition message_content (result : json) : outcome json :=
  let* choices := get result (py "choices") (JArray [JObject []]) in
  let* choice := first_item choices in
  let* message := get choice (py "message") (JObject []) in
  get message (py "content") (JString (py "{}")).

Definition fence : str := py "```".

(** The lines of a fenced answer that do not start with a fence. *)
Definition strip_fences (content : str) : str :=
  let content := strip content in
  if startswith content fence then
    let lines := split content 0x0A%N in
    join [0x0A%N]
      (List.filter (fun line => negb (startswith (strip line) fence)) lines)
  else content.

(** The [try] block of [analyze_resume_with_xai].  Beside its outcome it
    gives the text that the local variable [content] holds when the
    block is left: [None] when nothing was assigned to [content], or
    when it holds something else than a text, which is never given to
    the decoder. *)
Definition try_block (remote : remote_outcome) : outcome json * option str :=
  match request remote with
  | Raise e => (Raise e, None)
  | Return result =>
      match message_content result with
      | Raise e => (Raise e, None)
      | Return content =>
          match content with
          | JString content =>
              let content := strip_fences content in
              match loads content with
              | Some skill_data => (Return skill_data, Some content)
              | None => (Raise JSONDecodeError, Some content)
              end
          | _ => (Raise AttributeError, None)
          end
      end
  end.

(** The two [except] clauses.  The first one prints [content[:500]]:
    the read of [content] raises when nothing was assigned to it, and
    the print raises when the text cannot be encoded.  What is raised in
    the clause leaves the function. *)
Definition analyze_resume_with_xai (remote : remote_outcome) (resume_text : str)
    : outcome json :=
  match try_block remote with
  | (Return skill_data, _) => Return skill_data
  | (Raise JSONDecodeError, content) =>
      match content with
      | Some content =>
          let* _ := print (py "Response content: " ++ firstn 500 content) in
          Return (json_of_skill_data (_fallback_skill_extraction resume_text))
      | None => Raise UnboundLocalError
      end
  | (Raise _, _) =>
      Return (json_of_skill_data (_fallback_skill_extraction resume_text))
  end.

(** The remote outcomes that the specification lists as failures: a
    transport error, a status from 400 to 599, an answer without a text
    content, and a content that is not JSON once its fences are removed.
    The first 500 characters of such a content are printed, and are
    asked to be text that the standard output encodes. *)
Inductive degraded : remote_outcome -> Prop :=
| transport_error e :
    e <> JSONDecodeError -> degraded (PostRaises e)
| error_status status_code body :
    is_error_status status_code = true -> degraded (Answer status_code body)
| no_content status_code result e :
    is_error_status status_code = false ->
    message_content result = Raise e ->
    degraded (Answer status_code (Return result))
| content_not_text status_code result v :
    is_error_status status_code = false ->
    message_content result = Return v ->
    string_of_json v = None ->
    degraded (Answer status_code (Return result))
| content_not_json status_code result content :
    is_error_status status_code = false ->
    message_content result = Return (JString content) ->
    loads (strip_fences content) = None ->
    encodable (firstn 500 (strip_fences content)) = true ->
    degraded (Answer status_code (Return result)).

(** The choice made by [generate_skill_tree]: the remote analysis when a
    credential is set, the keyword matching otherwise. *)
Definition classify (api_key : option str) (remote : remote_outcome)
    (resume_text : str) : outcome json :=
  if has_credential api_key
  then analyze_resume_with_xai remote resume_text
  else Return (json_of_skill_data (_fallback_skill_extraction resume_text)).

End Classifier.

(** ** The skill tree *)

(** A node is a dictionary with the key ["name"] and, when they are
    present, the keys ["type"] and ["children"], in that order. *)
Inductive tree :=
| Node (name : str) (type : option str) (children : option (list tree)).

Fixpoint json_of_tree (t : tree) : json :=
  match t with
  | Node name type children =>
      JObject ((py "name", JString name)
               :: member "type" JString type
               ++ member "children" (fun l => JArray (map json_of_tree l)) children)
  end.

Section Builder.
Context {U : UnicodeData}.

(** [[{"name": skill, "type": tag} for skill in names]] *)
Definition leaves (tag : string) (names : list str) : list tree :=
  map (fun skill => Node skill (Some (py tag)) None) names.

Definition category_name (category : str) : str :=
  title (replace category (py "_") (py " ")).

(** The node of one technical category. *)
Definition category_node (entry : str * list str) : tree :=
  Node (category_name (fst entry)) None (Some (leaves "skill" (snd entry))).

Definition build_skill_tree (d : skill_data) : tree :=
  let children := [] in
  (* skill_data.get("skills", {}) *)
  let skills_d :=
    match skills d with
    | Some s => s
    | None => {| technical := None; soft_skills := None;
                 domains := None; certifications := None |}
    end in
  (* Add technical skills *)
  let children :=
    match technical skills_d with
    | Some tech_skills =>
        let tech_children :=
          fold_left
            (fun tech_children entry =>
               if truthy (snd entry)
               then tech_children ++ [category_node entry]
               else tech_children)
            tech_skills [] in
        if truthy tech_children
        then children ++ [Node (py "Technical Skills") None (Some tech_children)]
        else children
    | None => children
    end in
  (* Add soft skills *)
  let children :=
    match soft_skills skills_d with
    | Some l =>
        if truthy l
        then children ++ [Node (py "Soft Skills") None (Some (leaves "skill" l))]
        else children
    | None => children
    end in
  (* Add domains *)
  let children :=
    match domains skills_d with
    | Some l =>
        if truthy l
        then children ++ [Node (py "Domain Expertise") None (Some (leaves "skill" l))]
        else children
    | None => children
    end in
  (* Add certifications *)
  let children :=
    match certifications skills_d with
    | Some l =>
        if truthy l
        then children
             ++ [Node (py "Certifications") None (Some (leaves "certification" l))]
        else children
    | None => children
    end in
  Node (py "Skills") None (Some children).

End Builder.

(** The label as the specification words it: the key is cut at its
    underscores and each word is capitalized, its first character in
    upper case and the others in lower case. *)
Definition capitalize (word : str) : str :=
  match word with
  | [] => []
  | c :: rest => ascii_upper c :: map ascii_lower rest
  end.

Definition capitalize_each_word (category : str) : str :=
  join (py " ") (map capitalize (split (replace category (py "_") (py " ")) 0x20%N)).

(** ** The tree builder on the dictionary as it was decoded

    [build_skill_tree] takes what [json.loads] returned, of whatever
    shape.  The operations below are those of the interpreter on such a
    value. *)

(** [float(literal) == 0] or [int(literal) == 0] for a literal of
    [NUMBER_RE]: the digits are all zeros, or the literal has a fraction
    or an exponent and its value is at most [2^-1075], which the
    conversion rounds to zero. *)
Definition number_is_zero (literal : str) : bool :=
  match match_integer literal with
  | None => false
  | Some (i, s1) =>
      let (f, s2) := match_fraction s1 in
      let (e, _) := match_exponent s2 in
      let mantissa :=
        digits_value (List.filter is_digit i ++ List.filter is_digit f) in
      let exponent :=
        (match e with
         | _ :: sign :: ds =>
             if (sign =? 0x2D)%N then - Z.of_N (digits_value ds)
             else Z.of_N (digits_value (List.filter is_digit (sign :: ds)))
         | _ => 0
         end - Z.of_nat (length (List.filter is_digit f)))%Z in
      (mantissa =? 0)%N
      || (truthy (f ++ e) && (exponent <? 0)%Z
          && (Z.of_N mantissa * 2 ^ 1075 <=? 10 ^ (- exponent))%Z)
  end.

(** [bool(v)] *)
Definition truth (v : json) : bool :=
  match v with
  | JNull => false
  | JBool b => b
  | JNumber literal => negb (number_is_zero literal)
  | JString s => truthy s
  | JArray l => truthy l
  | JObject m => truthy m
  end.

(** [k in v] for a string [k]: a key of a dictionary, an element of a
    list, a substring of a string. *)
Definition contains (k : str) (v : json) : outcome bool :=
  match v with
  | JObject m => Return (match dict_get m k with Some _ => true | None => false end)
  | JArray l =>
      Return (existsb (fun x => match x with
                                | JString s => str_eqb s k
                                | _ => false
                                end) l)
  | JString s => Return (str_in k s)
  | _ => Raise TypeError
  end.

(** [v[k]] for a string [k] *)
Definition subscript (v : json) (k : str) : outcome json :=
  match v with
  | JObject m =>
      match dict_get m k with
      | Some x => Return x
      | None => Raise KeyError
      end
  | _ => Raise TypeError
  end.

(** [v.items()] *)
Definition items (v : json) : outcome (list (str * json)) :=
  match v with
  | JObject m => Return m
  | _ => Raise AttributeError
  end.

(** [for x in v]: the elements of a list, the characters of a string,
    the keys of a dictionary. *)
Definition iterate (v : json) : outcome (list json) :=
  match v with
  | JArray l => Return l
  | JString s => Return (map (fun c => JString [c]) s)
  | JObject m => Return (map (fun kv => JString (fst kv)) m)
  | _ => Raise TypeError
  end.

Section BuilderJson.
Context {U : UnicodeData}.

(** [build_skill_tree] on the decoded value.  The tree is the
    dictionary that the function returns. *)
Definition build_skill_tree_json (skill_data : json) : outcome json :=
  let children := [] in
  (* Add technical skills *)
  let* skills_d := get skill_data (py "skills") (JObject []) in
  let* has_technical := contains (py "technical") skills_d in
  let* children :=
    if has_technical then
      let* skills_d := subscript skill_data (py "skills") in
      let* tech_skills := subscript skills_d (py "technical") in
      let* entries := items tech_skills in
      let* tech_children :=
        fold_left
          (fun tech_children entry =>
             let* tech_children := tech_children in
             let (category, skills) := (entry : str * json) in
             if truth skills then
               let* skills := iterate skills in
               Return (tech_children
                       ++ [JObject [(py "name", JString (category_name category));
                                    (py "children",
                                     JArray (map (fun skill =>
                                                    JObject [(py "name", skill);
                                                             (py "type", JString (py "skill"))])
                                               skills))]])
             else Return tech_children)
          entries (Return []) in
      if truthy tech_children
      then Return (children
                   ++ [JObject [(py "name", JString (py "Technical Skills"));
                                (py "children", JArray tech_children)]])
      else Return children
    else Return children in
  (* Add soft skills *)
  let* skills_d := get skill_data (py "skills") (JObject []) in
  let* soft := get skills_d (py "soft_skills") JNull in
  let* children :=
    if truth soft then
      let* skills_d := subscript skill_data (py "skills") in
      let* soft := subscript skills_d (py "soft_skills") in
      let* soft := iterate soft in
      Return (children
              ++ [JObject [(py "name", JString (py "Soft Skills"));
                           (py "children",
                            JArray (map (fun skill =>
                                           JObject [(py "name", skill);
                                                    (py "type", JString (py "skill"))])
                                      soft))]])
    else Return children in
  (* Add domains *)
  let* skills_d := get skill_data (py "skills") (JObject []) in
  let* domain := get skills_d (py "domains") JNull in
  let* children :=
    if truth domain then
      let* skills_d := subscript skill_data (py "skills") in
      let* domain := subscript skills_d (py "domains") in
      let* domain := iterate domain in
      Return (children
              ++ [JObject [(py "name", JString (py "Domain Expertise"));
                           (py "children",
                            JArray (map (fun domain =>
                                           JObject [(py "name", domain);
                                                    (py "type", JString (py "skill"))])
                                      domain))]])
    else Return children in
  (* Add certifications *)
  let* skills_d := get skill_data (py "skills") (JObject []) in
  let* cert := get skills_d (py "certifications") JNull in
  let* children :=
    if truth cert then
      let* skills_d := subscript skill_data (py "skills") in
      let* cert := subscript skills_d (py "certifications") in
      let* cert := iterate cert in
      Return (children
              ++ [JObject [(py "name", JString (py "Certifications"));
                           (py "children",
                            JArray (map (fun cert =>
                                           JObject [(py "name", cert);
                                                    (py "type", JString (py "certification"))])
                                      cert))]])
    else Return children in
  Return (JObject [(py "name", JString (py "Skills"));
                   (py "children", JArray children)]).

End BuilderJson.

(** ** The artifacts *)

(** The visualization page, a constant of [generate_html_visualization].
    The page itself holds no [@], so [pyq] restores its quotes. *)
Definition html_template : str := pyq
"<!DOCTYPE html>
<html lang=@en@>
<head>
    <meta charset=@UTF-8@>
    <meta name=@viewport@ content=@width=device-width, initial-scale=1.0@>
    <title>Skill Tree Visualization</title>
    <script src=@https://d3js.org/d3.v7.min.js@></script>
    <style>
        body {
            font-family: 'Segoe UI', Tahoma, Geneva, Verdana, sans-serif;
            margin: 0;
            padding: 20px;
            background: linear-gradient(135deg, #667eea 0%, #764ba2 100%);
            min-height: 100vh;
        }
        .container {
            max-width: 1400px;
            margin: 0 auto;
            background: white;
            border-radius: 15px;
            padding: 30px;
            box-shadow: 0 10px 40px rgba(0,0,0,0.2);
        }
        h1 {
            text-align: center;
            color: #333;
            margin-bottom: 30px;
            font-size: 2.5em;
        }
        .skill-tree {
            width: 100%;
            height: 800px;
            border: 2px solid #e0e0e0;
            border-radius: 10px;
            overflow: auto;
        }
        .node circle {
            fill: #fff;
            stroke: #667eea;
            stroke-width: 3px;
            cursor: pointer;
            transition: all 0.3s;
        }
        .node circle:hover {
            stroke-width: 5px;
            fill: #f0f0ff;
        }
        .node--internal circle {
            fill: #764ba2;
            stroke: #667eea;
        }
        .node--leaf circle {
            fill: #4CAF50;
            stroke: #45a049;
        }
        .node--certification circle {
            fill: #FF9800;
            stroke: #F57C00;
        }
        .node text {
            font: 14px sans-serif;
            font-weight: 500;
            pointer-events: none;
        }
        .link {
            fill: none;
            stroke: #ccc;
            stroke-width: 2px;
        }
        .tooltip {
            position: absolute;
            background: rgba(0, 0, 0, 0.8);
            color: white;
            padding: 10px;
            border-radius: 5px;
            pointer-events: none;
            font-size: 12px;
            opacity: 0;
            transition: opacity 0.3s;
        }
        .controls {
            margin-bottom: 20px;
            text-align: center;
        }
        button {
            background: #667eea;
            color: white;
            border: none;
            padding: 10px 20px;
            margin: 5px;
            border-radius: 5px;
            cursor: pointer;
            font-size: 14px;
            transition: background 0.3s;
        }
        button:hover {
            background: #5568d3;
        }
    </style>
</head>
<body>
    <div class=@container@>
        <h1>🌳 Skill Tree Visualization</h1>
        <div class=@controls@>
            <button onclick=@zoomIn()@>Zoom In</button>
            <button onclick=@zoomOut()@>Zoom Out</button>
            <button onclick=@resetZoom()@>Reset</button>
            <button onclick=@expandAll()@>Expand All</button>
            <button onclick=@collapseAll()@>Collapse All</button>
        </div>
        <div class=@skill-tree@ id=@skill-tree@></div>
    </div>
    <div class=@tooltip@ id=@tooltip@></div>

    <script>
        const skillTreeData = SKILL_TREE_DATA;
        
        let svg, g, zoom, root, tooltip;
        let currentTransform = d3.zoomIdentity;
        
        function init() {
            tooltip = d3.select(@#tooltip@);
            
            svg = d3.select(@#skill-tree@)
                .append(@svg@)
                .attr(@width@, @100%@)
                .attr(@height@, @100%@);
            
            g = svg.append(@g@);
            
            zoom = d3.zoom()
                .scaleExtent([0.1, 3])
                .on(@zoom@, (event) => {
                    currentTransform = event.transform;
                    g.attr(@transform@, event.transform);
                });
            
            svg.call(zoom);
            
            root = d3.hierarchy(skillTreeData);
            root.x0 = 0;
            root.y0 = 0;
            root.descendants().forEach((d, i) => {
                d.id = i;
                d._children = d.children;
                if (d.depth > 2) d.children = null;
            });
            
            update(root);
        }
        
        function update(source) {
            const treeLayout = d3.tree().size([800, 1000]);
            treeLayout(root);
            
            const nodes = root.descendants();
            const links = root.links();
            
            const node = g.selectAll(@g.node@)
                .data(nodes, d => d.id);
            
            const nodeEnter = node.enter()
                .append(@g@)
                .attr(@class@, d => @node @ + (d.children ? @node--internal@ : d.data.type === @certification@ ? @node--certification@ : @node--leaf@))
                .attr(@transform@, d => `translate(${source.y0},${source.x0})`)
                .on(@click@, (event, d) => {
                    if (d.children) {
                        d._children = d.children;
                        d.children = null;
                    } else {
                        d.children = d._children;
                    }
                    update(d);
                })
                .on(@mouseover@, (event, d) => {
                    tooltip
                        .style(@opacity@, 1)
                        .html(`<strong>${d.data.name}</strong><br/>${d.depth > 0 ? @Click to expand/collapse@ : @@}`)
                        .style(@left@, (event.pageX + 10) + @px@)
                        .style(@top@, (event.pageY - 10) + @px@);
                })
                .on(@mouseout@, () => {
                    tooltip.style(@opacity@, 0);
                });
            
            nodeEnter.append(@circle@)
                .attr(@r@, d => d.depth === 0 ? 15 : d.depth === 1 ? 12 : 8)
                .style(@fill@, d => {
                    if (d.depth === 0) return @#667eea@;
                    if (d.data.type === @certification@) return @#FF9800@;
                    return d.children ? @#764ba2@ : @#4CAF50@;
                });
            
            nodeEnter.append(@text@)
                .attr(@dy@, @.35em@)
                .attr(@x@, d => d.children || d._children ? -13 : 13)
                .style(@text-anchor@, d => d.children || d._children ? @end@ : @start@)
                .text(d => d.data.name)
                .style(@font-size@, d => d.depth === 0 ? @16px@ : d.depth === 1 ? @14px@ : @12px@);
            
            const nodeUpdate = nodeEnter.merge(node);
            
            nodeUpdate.transition()
                .duration(300)
                .attr(@transform@, d => `translate(${d.y},${d.x})`);
            
            nodeUpdate.select(@circle@)
                .attr(@r@, d => d.depth === 0 ? 15 : d.depth === 1 ? 12 : 8);
            
            const nodeExit = node.exit()
                .transition()
                .duration(300)
                .attr(@transform@, d => `translate(${source.y},${source.x})`)
                .remove();
            
            const link = g.selectAll(@path.link@)
                .data(links, d => d.target.id);
            
            const linkEnter = link.enter()
                .insert(@path@, @g@)
                .attr(@class@, @link@)
                .attr(@d@, d => {
                    const o = {x: source.x0, y: source.y0};
                    return diagonal(o, o);
                });
            
            linkEnter.merge(link)
                .transition()
                .duration(300)
                .attr(@d@, d => diagonal(d.source, d.target));
            
            link.exit()
                .transition()
                .duration(300)
                .attr(@d@, d => {
                    const o = {x: source.x, y: source.y};
                    return diagonal(o, o);
                })
                .remove();
            
            nodes.forEach(d => {
                d.x0 = d.x;
                d.y0 = d.y;
            });
        }
        
        function diagonal(s, d) {
            return `M ${s.y} ${s.x}
                    C ${(s.y + d.y) / 2} ${s.x},
                      ${(s.y + d.y) / 2} ${d.x},
                      ${d.y} ${d.x}`;
        }
        
        function zoomIn() {
            svg.transition().call(zoom.scaleBy, 1.5);
        }
        
        function zoomOut() {
            svg.transition().call(zoom.scaleBy, 0.67);
        }
        
        function resetZoom() {
            svg.transition().call(zoom.transform, d3.zoomIdentity);
        }
        
        function expandAll() {
            root.descendants().forEach(d => {
                if (d._children) {
                    d.children = d._children;
                    d._children = null;
                }
            });
            update(root);
        }
        
        function collapseAll() {
            root.descendants().forEach(d => {
                if (d.children && d.depth > 1) {
                    d._children = d.children;
                    d.children = null;
                }
            });
            update(root);
        }
        
        init();
    </script>
</body>
</html>".

Definition marker : str := py "SKILL_TREE_DATA".

(** A file holds bytes, or is left [Torn] by a write that raised in the
    middle. *)
Inductive file :=
| Bytes (content : list N)
| Torn.

(** The file that holds a text, in UTF-8. *)
Definition Text (s : str) : file := Bytes (encode_utf8 s).

(** [open(path, encoding='utf-8').read()] *)
Definition read_text (f : file) : option str :=
  match f with
  | Bytes content => Some (decode_utf8 content)
  | Torn => None
  end.

(** [json.load(open(path, encoding='utf-8'))] *)
Definition load_file (fs : gmap str file) (path : str) : option json :=
  match fs !! path with
  | Some f =>
      match read_text f with
      | Some text => loads text
      | None => None
      end
  | None => None
  end.

(** [with open(path, 'w', encoding='utf-8') as f: f.write(text)].
    [writable] tells the paths that can be opened for writing. *)
Definition write_text (writable : str -> bool) (path text : str)
    (fs : gmap str file) : outcome unit * gmap str file :=
  if negb (writable path) then (Raise OSError, fs)
  else if encodable text then (Return tt, <[path := Text text]> fs)
  else (Raise UnicodeEncodeError, <[path := Torn]> fs).

Definition generate_html_visualization (writable : str -> bool)
    (skill_tree : tree) (output_path : str) (fs : gmap str file)
    : outcome unit * gmap str file :=
  (* Inject the skill tree data into the HTML *)
  let skill_tree_json := dumps true (json_of_tree skill_tree) in
  let html_content := replace html_template marker skill_tree_json in
  write_text writable output_path html_content fs.

(** The artifact writer, which is the last lines of
    [generate_skill_tree]: [json.dump(skill_tree, f, indent=2,
    ensure_ascii=False)] into the JSON file, then the page. *)
Definition save (writable : str -> bool) (skill_tree : tree)
    (output_json output_html : str) (fs : gmap str file)
    : outcome tree * gmap str file :=
  (* Save JSON *)
  match write_text writable output_json
          (dumps false (json_of_tree skill_tree)) fs with
  | (Raise e, fs) => (Raise e, fs)
  | (Return _, fs) =>
      (* Generate HTML visualization *)
      match generate_html_visualization writable skill_tree output_html fs with
      | (Raise e, fs) => (Raise e, fs)
      | (Return _, fs) => (Return skill_tree, fs)
      end
  end.

(** The same two writers on the dictionary that [build_skill_tree]
    returned, whatever its names are. *)
Definition generate_html_visualization_json (writable : str -> bool)
    (skill_tree : json) (output_path : str) (fs : gmap str file)
    : outcome unit * gmap str file :=
  (* Inject the skill tree data into the HTML *)
  let skill_tree_json := dumps true skill_tree in
  let html_content := replace html_template marker skill_tree_json in
  write_text writable output_path html_content fs.

Definition save_json (writable : str -> bool) (skill_tree : json)
    (output_json output_html : str) (fs : gmap str file)
    : outcome json * gmap str file :=
  (* Save JSON *)
  match write_text writable output_json (dumps false skill_tree) fs with
  | (Raise e, fs) => (Raise e, fs)
  | (Return _, fs) =>
      (* Generate HTML visualization *)
      match generate_html_visualization_json writable skill_tree output_html fs with
      | (Raise e, fs) => (Raise e, fs)
      | (Return _, fs) => (Return skill_tree, fs)
      end
  end.

(** ** The record of a dictionary *)

(** The typed reading of a dictionary: the record that a dictionary of
    the shape of the schema holds, [None] for any other value. *)
Fixpoint traverse {A B} (f : A -> option B) (l : list A) : option (list B) :=
  match l with
  | [] => Some []
  | a :: l' =>
      match f a, traverse f l' with
      | Some b, Some bs => Some (b :: bs)
      | _, _ => None
      end
  end.

Definition field {A} (d : list (str * json)) (k : string)
    (read : json -> option A) : option (option A) :=
  match dict_get d (py k) with
  | None => Some None
  | Some v =>
      match read v with
      | Some a => Some (Some a)
      | None => None
      end
  end.

Definition strings_of_json (v : json) : option (list str) :=
  match v with JArray l => traverse string_of_json l | _ => None end.

Definition members_of_json {A} (read : json -> option A) (v : json)
    : option (list (str * A)) :=
  match v with
  | JObject m =>
      traverse (fun kv => match read (snd kv) with
                          | Some a => Some (fst kv, a)
                          | None => None
                          end) m
  | _ => None
  end.

Definition level_of_json (v : json) : option level :=
  match v with
  | JString s =>
      if str_eqb s (py "beginner") then Some beginner
      else if str_eqb s (py "intermediate") then Some intermediate
      else if str_eqb s (py "advanced") then Some advanced
      else if str_eqb s (py "expert") then Some expert
      else None
  | _ => None
  end.

Definition kind_of_json (v : json) : option relation_kind :=
  match v with
  | JString s =>
      if str_eqb s (py "prerequisite") then Some prerequisite
      else if str_eqb s (py "related") then Some related
      else if str_eqb s (py "specialization") then Some specialization
      else None
  | _ => None
  end.

Definition relationship_of_json (v : json) : option relationship :=
  match v with
  | JObject m =>
      match dict_get m (py "parent"), dict_get m (py "child"), dict_get m (py "type") with
      | Some (JString p), Some (JString c), Some k =>
          match kind_of_json k with
          | Some k => Some {| parent := p; child := c; kind := k |}
          | None => None
          end
      | _, _, _ => None
      end
  | _ => None
  end.

Definition skills_of_json (v : json) : option skills_record :=
  match v with
  | JObject m =>
      match field m "technical" (members_of_json strings_of_json),
            field m "soft_skills" strings_of_json,
            field m "domains" strings_of_json,
            field m "certifications" strings_of_json with
      | Some t, Some s, Some d, Some c =>
          Some {| technical := t; soft_skills := s; domains := d; certifications := c |}
      | _, _, _, _ => None
      end
  | _ => None
  end.

Definition skill_data_of_json (v : json) : option skill_data :=
  match v with
  | JObject m =>
      match field m "skills" skills_of_json,
            field m "experience_levels" (members_of_json level_of_json),
            field m "skill_relationships"
              (fun v => match v with
                        | JArray l => traverse relationship_of_json l
                        | _ => None
                        end) with
      | Some s, Some e, Some r =>
          Some {| skills := s; experience_levels := e; skill_relationships := r |}
      | _, _, _ => None
      end
  | _ => None
  end.

(** ** The whole run *)

(** What surrounds one run of the program. *)
Record world := {
  pdf : pdf_world;
  remote : remote_outcome;
  writable : str -> bool
}.

Section Run.
Context {U : UnicodeData}.

(** [generate_skill_tree]: the outcome of the call, which is the
    dictionary of the tree when it returns, and the files it leaves. *)
Definition generate_skill_tree (w : world) (api_key : option str)
    (pdf_path output_json output_html : str) (fs : gmap str file)
    : outcome json * gmap str file :=
  match extract_text_from_pdf (pdf w) pdf_path with
  | Raise e => (Raise e, fs)
  | Return resume_text =>
      match classify api_key (remote w) resume_text with
      | Raise e => (Raise e, fs)
      | Return skill_data =>
          match build_skill_tree_json skill_data with
          | Raise e => (Raise e, fs)
          | Return skill_tree =>
              save_json (writable w) skill_tree output_json output_html fs
          end
      end
  end.

End Run.

(** ** Predicates of the statements *)

Definition empty_field {A} (f : option (list A)) : bool :=
  match f with
  | None => true
  | Some l => negb (truthy l)
  end.

(** The technical categories that hold at least one skill. *)
Definition filled_categories (s : skills_record) : list (str * list str) :=
  match technical s with
  | None => []
  | Some t => List.filter (fun entry => truthy (snd entry)) t
  end.

(** The branch of a list field, when the field holds something. *)
Definition group (label tag : string) (field : option (list str)) : list tree :=
  match field with
  | Some (x :: l) => [Node (py label) None (Some (leaves tag (x :: l)))]
  | _ => []
  end.

(** Title-casing of ASCII text: a letter is put in upper case when the
    character before it is not a letter, and in lower case when it is. *)
Fixpoint title_case (previous_is_letter : bool) (s : str) : str :=
  match s with
  | [] => []
  | c :: s' =>
      (if previous_is_letter then ascii_lower c else ascii_upper c)
      :: title_case (ascii_letter c) s'
  end.

(** A key made of ASCII letters, underscores and spaces. *)
Definition letter_words (category : str) : bool :=
  forallb (fun c => ascii_letter c || (c =? 0x5F)%N || (c =? 0x20)%N) category.

(** Every field of the record is absent or empty. *)
Definition all_empty (d : skill_data) : bool :=
  match skills d with
  | None => true
  | Some s =>
      negb (truthy (filled_categories s)) && empty_field (soft_skills s)
      && empty_field (domains s) && empty_field (certifications s)
  end
  && empty_field (experience_levels d) && empty_field (skill_relationships d).

(** [l1] holds some of the elements of [l2], in the order of [l2]. *)
Fixpoint in_order (l1 l2 : list str) : bool :=
  match l1, l2 with
  | [], _ => true
  | _ :: _, [] => false
  | x :: l1', y :: l2' =>
      if str_eqb x y then in_order l1' l2' else in_order l1 l2'
  end.

Fixpoint distinct (keys : list str) : bool :=
  match keys with
  | [] => true
  | k :: keys' => negb (existsb (str_eqb k) keys') && distinct keys'
  end.

(** A value without a number, whose objects have distinct keys. *)
Fixpoint plain (v : json) : bool :=
  match v with
  | JNumber _ => false
  | JNull | JBool _ | JString _ => true
  | JArray l => forallb plain l
  | JObject m => distinct (map fst m) && forallb (fun kv => plain (snd kv)) m
  end.

(** The strings of a value: the keys of its objects and its texts. *)
Fixpoint json_strings (v : json) : list str :=
  match v with
  | JNull | JBool _ => []
  | JNumber literal => [literal]
  | JString s => [s]
  | JArray l => flat_map json_strings l
  | JObject m => flat_map (fun kv => fst kv :: json_strings (snd kv)) m
  end.

(** The first character of an encoded value. *)
Definition starts_value (c : N) : bool :=
  ((c =? 0x22) || (c =? 0x7B) || (c =? 0x5B) || (c =? 0x6E) || (c =? 0x74)
   || (c =? 0x66))%N.

(** A text that [ensure_ascii] leaves as it is. *)
Definition printable (s : str) : bool := forallb (fun c => (c <=? 0x7E)%N) s.

(** A string that is decoded as it was before it was encoded. *)
Definition readable (ensure_ascii : bool) (s : str) : bool :=
  if ensure_ascii then encodable s else true.

(** The strings of a tree. *)
Fixpoint tree_strings (t : tree) : list str :=
  match t with
  | Node name type children =>
      name :: match type with Some ty => [ty] | None => [] end
      ++ match children with
         | Some l => flat_map tree_strings l
         | None => []
         end
  end.

(** The text of the page before and after the marker. *)
Fixpoint find_from (sub s : str) (i : nat) : nat :=
  if startswith s sub then i
  else match s with
       | [] => i
       | _ :: s' => find_from sub s' (S i)
       end.

Definition marker_position : nat := find_from marker html_template 0.
Definition page_before : str := firstn marker_position html_template.
Definition page_after : str :=
  skipn (marker_position + length marker) html_template.

(** ** The generator and the entry point *)

(** [SkillTreeGenerator.__init__]: [self.api_key = api_key or
    os.getenv('XAI_API_KEY')].  [environ] is the environment of the
    process. *)
Definition __init__ (api_key : option str) (environ : gmap str str) : option str :=
  if has_credential api_key then api_key
  else environ !! py "XAI_API_KEY".

Section Main.
Context {U : UnicodeData}.

(** [main]: [argv] is [sys.argv] and [path_exists] is [os.path.exists].
    The generator is made without an argument. *)
Definition main (argv : list str) (path_exists : str -> bool)
    (environ : gmap str str) (w : world) (fs : gmap str file)
    : outcome unit * gmap str file :=
  let pdf_path := py "AlbertoMejiaResume.pdf" in
  let pdf_path :=
    if (1 <? length argv)%nat then nth 1 argv [] else pdf_path in
  if negb (path_exists pdf_path) then (Return tt, fs)
  else
    let generator := __init__ None environ in
    match generate_skill_tree w generator pdf_path
            (py "skill_tree.json") (py "skill_tree.html") fs with
    | (Raise e, fs) => (Raise e, fs)
    | (Return skill_tree, fs) => (Return tt, fs)
    end.

End Main.

(** ** Predicates of the statements on the pages *)

(** The texts of the pages that a run gives before it ends or raises,
    without the pages that have no text. *)
Fixpoint page_texts (r : run) : list str :=
  match r with
  | Done => []
  | Raises _ => []
  | Page page_text rest =>
      match page_text with
      | Some (c :: t) => (c :: t) :: page_texts rest
      | _ => page_texts rest
      end
  end.

(** A text with no white space at its two ends. *)
Definition trimmed (s : str) : bool :=
  match s with
  | [] => true
  | c :: _ => negb (is_space c) && negb (is_space (List.last s c))
  end.

(** ** Predicates of the statements on the tree *)

(** The leaves of a tree from left to right, each with its type. *)
Fixpoint tree_leaves (t : tree) : list (str * option str) :=
  match t with
  | Node name type None => [(name, type)]
  | Node _ _ (Some l) => flat_map tree_leaves l
  end.

(** The skills of a record in the order of its fields, each with the
    type of its leaf. *)
Definition record_leaves (d : skill_data) : list (str * option str) :=
  match skills d with
  | None => []
  | Some s =>
      map (fun skill => (skill, Some (py "skill")))
        (match technical s with Some t => flat_map snd t | None => [] end
         ++ match soft_skills s with Some l => l | None => [] end
         ++ match domains s with Some l => l | None => [] end)
      ++ map (fun cert => (cert, Some (py "certification")))
           (match certifications s with Some l => l | None => [] end)
  end.

Definition node_name (t : tree) : str :=
  match t with Node name _ _ => name end.

(** A node below the root: a typed node without children, or an untyped
    node with at least one child, all of them such nodes. *)
Fixpoint proper (t : tree) : bool :=
  match t with
  | Node _ (Some _) None => true
  | Node _ None (Some l) => truthy l && forallb proper l
  | _ => false
  end.

(** ** Predicates of the statements on the remote answer *)

(** An answer in which one of the keys on the way to the content is
    missing: ["choices"], or ["message"] in the first choice, or
    ["content"] in the message. *)
Inductive lacks_content : json -> Prop :=
| missing_choices result :
    dict_get result (py "choices") = None ->
    lacks_content (JObject result)
| missing_message result choice rest :
    dict_get result (py "choices") = Some (JArray (JObject choice :: rest)) ->
    dict_get choice (py "message") = None ->
    lacks_content (JObject result)
| missing_content result choice rest message :
    dict_get result (py "choices") = Some (JArray (JObject choice :: rest)) ->
    dict_get choice (py "message") = Some (JObject message) ->
    dict_get message (py "content") = None ->
    lacks_content (JObject result).

(** A text between two fences, the first one with a language tag. *)
Definition fenced (tag body : str) : str :=
  fence ++ tag ++ [0x0A%N] ++ body ++ [0x0A%N] ++ fence.

(** ** Predicates of the statements on the artifacts *)

(** A text that JSON writes between two quotes as it is: printable ASCII
    without the quote and the backslash. *)
Definition literal (s : str) : bool :=
  forallb (fun c => (0x20 <=? c)%N && (c <=? 0x7E)%N
                    && negb (c =? 0x22)%N && negb (c =? 0x5C)%N) s.

(** A character at which a JSON text can start: white space, the first
    character of a value, or the byte order mark that the decoder
    rejects by name. *)
Definition starts_json (c : N) : bool :=
  is_json_ws c || is_digit c
  || existsb (N.eqb c) [0x22; 0x7B; 0x5B; 0x2D; 0x6E; 0x74; 0x66; 0x4E; 0x49; 0xFEFF]%N.

(** * Properties *)

(** ** Strings *)

Lemma str_eqb_eq (a b : str) : str_eqb a b = true <-> a = b.
Proof.
  revert b. induction a as [|x a IH]; intros [|y b]; simpl; split;
    try congruence; try reflexivity.
  - rewrite andb_true_iff, N.eqb_eq, IH. intros [-> ->]. reflexivity.
  - intros [= -> ->]. rewrite N.eqb_refl. simpl. apply IH. reflexivity.
Qed.

Lemma str_eqb_refl (a : str) : str_eqb a a = true.
Proof. apply str_eqb_eq. reflexivity. Qed.

Lemma str_eqb_neq (a b : str) : str_eqb a b = false <-> a <> b.
Proof.
  split.
  - intros H E. apply str_eqb_eq in E. congruence.
  - intros H. destruct (str_eqb a b) eqn:E; [|reflexivity].
    apply str_eqb_eq in E. contradiction.
Qed.

Lemma startswith_app (p r : str) : startswith (p ++ r) p = true.
Proof.
  induction p as [|c p IH]; simpl; [reflexivity|].
  rewrite N.eqb_refl. exact IH.
Qed.

Lemma startswith_spec (s p : str) :
  startswith s p = true <-> exists r, s = p ++ r.
Proof.
  split.
  - revert s. induction p as [|c p IH]; intros s H.
    + exists s. reflexivity.
    + destruct s as [|d s]; simpl in H; [discriminate|].
      apply andb_true_iff in H as [Hc Hp]. apply N.eqb_eq in Hc as ->.
      destruct (IH _ Hp) as [r ->]. exists r. reflexivity.
  - intros [r ->]. apply startswith_app.
Qed.

Lemma str_in_unfold (sub s : str) :
  str_in sub s =
  startswith s sub || match s with [] => false | _ :: s' => str_in sub s' end.
Proof. destruct s; reflexivity. Qed.

(** [sub in s] holds exactly when [s] is [sub] between two texts. *)
Lemma str_in_spec (sub s : str) :
  str_in sub s = true <-> exists a b, s = a ++ sub ++ b.
Proof.
  split.
  - induction s as [|c s IH]; rewrite str_in_unfold; intros H;
      apply orb_true_iff in H as [H|H].
    + apply startswith_spec in H as [r ->]. exists [], r. reflexivity.
    + discriminate.
    + apply startswith_spec in H as [r ->]. exists [], r. reflexivity.
    + destruct (IH H) as (a & b & ->). exists (c :: a), b. reflexivity.
  - intros (a & b & ->). induction a as [|c a IH].
    + simpl. rewrite str_in_unfold, startswith_app. reflexivity.
    + simpl "++". rewrite str_in_unfold, IH. apply orb_true_r.
Qed.

(** Enumeration of the code points below a bound. *)
Lemma below_forallb (P : N -> bool) (n : nat) :
  forallb P (map N.of_nat (seq 0 n)) = true ->
  forall c, (c < N.of_nat n)%N -> P c = true.
Proof.
  intros H c Hc. rewrite forallb_forall in H. apply H.
  apply in_map_iff. exists (N.to_nat c). split; [apply N2Nat.id|].
  apply in_seq. lia.
Qed.

(** ** Case mapping on ASCII text *)

Section CaseMappingFacts.
Context {U : UnicodeData}.
Hypothesis HU : basic_latin U.

Lemma lower_ucs4_ascii before c after :
  (c < 0x80)%N -> lower_ucs4 before c after = [ascii_lower c].
Proof.
  intros Hc. unfold lower_ucs4.
  destruct (N.eqb_spec c 0x3A3) as [->|_]; [lia|]. apply HU, Hc.
Qed.

Lemma do_lower_ascii before s :
  is_ascii s = true -> do_lower before s = map ascii_lower s.
Proof.
  revert before. induction s as [|c s IH]; intros before H; [reflexivity|].
  simpl in H. apply andb_true_iff in H as [Hc Hs]. apply N.ltb_lt in Hc.
  simpl. rewrite lower_ucs4_ascii, IH by assumption. reflexivity.
Qed.

(** An ASCII word inside any text is lowered character by character. *)
Lemma do_lower_around before a k b :
  is_ascii k = true ->
  exists a' b', do_lower before (a ++ k ++ b) = a' ++ map ascii_lower k ++ b'.
Proof.
  intros Hk. revert before. induction a as [|c a IH]; intros before.
  - exists []. simpl "++". revert before.
    induction k as [|c k IHk]; intros before.
    + exists (do_lower before b). reflexivity.
    + simpl in Hk. apply andb_true_iff in Hk as [Hc Hk]. apply N.ltb_lt in Hc.
      destruct (IHk Hk (c :: before)) as [b' E].
      exists b'. simpl. rewrite lower_ucs4_ascii, E by assumption. reflexivity.
  - destruct (IH (c :: before)) as (a' & b' & E).
    exists (lower_ucs4 before c (a ++ k ++ b) ++ a'), b'.
    simpl. rewrite E, <- app_assoc. reflexivity.
Qed.

Lemma do_title_ascii previous before before' s :
  is_ascii s = true ->
  do_title previous before s = @do_title basic_latin_ucd previous before' s.
Proof.
  revert previous before before'.
  induction s as [|c s IH]; intros previous before before' H; [reflexivity|].
  simpl in H. apply andb_true_iff in H as [Hc Hs]. apply N.ltb_lt in Hc.
  simpl. destruct (HU c Hc) as (_ & Ht & Hcased).
  rewrite Ht, Hcased, (IH _ _ (c :: before')) by assumption.
  destruct previous; [|reflexivity].
  rewrite lower_ucs4_ascii by assumption.
  unfold lower_ucs4. destruct (N.eqb_spec c 0x3A3) as [->|_]; [lia|reflexivity].
Qed.

Lemma title_ascii s : is_ascii s = true -> title s = @title basic_latin_ucd s.
Proof. apply do_title_ascii. Qed.

Lemma lower_ascii s : is_ascii s = true -> lower s = map ascii_lower s.
Proof. apply do_lower_ascii. Qed.

End CaseMappingFacts.

Lemma basic_latin_ucd_ok : basic_latin basic_latin_ucd.
Proof. intros c _. repeat split. Qed.

(** ** The tree builder *)

Section BuilderFacts.
Context {U : UnicodeData}.

Lemma technical_fold (t : list (str * list str)) (acc : list tree) :
  fold_left
    (fun tech_children entry =>
       if truthy (snd entry) then tech_children ++ [category_node entry]
       else tech_children) t acc
  = acc ++ map category_node (List.filter (fun entry => truthy (snd entry)) t).
Proof.
  revert acc. induction t as [|e t IH]; intros acc; simpl.
  - rewrite app_nil_r. reflexivity.
  - rewrite IH. destruct (truthy (snd e)); simpl; [|reflexivity].
    rewrite <- app_assoc. reflexivity.
Qed.

(** The tree is the root over at most four branches, in a fixed order. *)
Lemma build_skill_tree_shape (d : skill_data) (s : skills_record) :
  skills d = Some s ->
  build_skill_tree d =
  Node (py "Skills") None
    (Some (match filled_categories s with
           | [] => []
           | cats => [Node (py "Technical Skills") None (Some (map category_node cats))]
           end
           ++ group "Soft Skills" "skill" (soft_skills s)
           ++ group "Domain Expertise" "skill" (domains s)
           ++ group "Certifications" "certification" (certifications s))).
Proof.
  intros Hs. unfold build_skill_tree, filled_categories. rewrite Hs.
  destruct s as [t so do ce]. cbn [technical soft_skills domains certifications].
  assert (G : forall label tag (f : option (list str)) (pre : list tree),
             match f with
             | Some l => if truthy l
                         then pre ++ [Node (py label) None (Some (leaves tag l))]
                         else pre
             | None => pre
             end = pre ++ group label tag f).
  { intros label tag [[|x l]|] pre; simpl; rewrite ?app_nil_r; reflexivity. }
  rewrite (G "Certifications" "certification")%string,
    (G "Domain Expertise" "skill")%string, (G "Soft Skills" "skill")%string.
  rewrite <- !app_assoc. f_equal. f_equal. f_equal.
  destruct t as [t|]; [|reflexivity].
  rewrite technical_fold. simpl.
  destruct (List.filter _ t); reflexivity.
Qed.

Lemma group_empty label tag (f : option (list str)) :
  empty_field f = true -> group label tag f = [].
Proof. destruct f as [[|x l]|]; simpl; congruence. Qed.

(** C6. [build_skill_tree] is a total function, and on a record whose
    fields are all absent or empty it returns the root ["Skills"] with an
    empty list of children. *)
Theorem build_all_empty (d : skill_data) :
  all_empty d = true ->
  build_skill_tree d = Node (py "Skills") None (Some []).
Proof.
  unfold all_empty. intros H.
  destruct (skills d) as [s|] eqn:Hs.
  - rewrite (build_skill_tree_shape d s Hs).
    apply andb_true_iff in H as [H _]. apply andb_true_iff in H as [H _].
    apply andb_true_iff in H as [H Hc]. apply andb_true_iff in H as [H Hd].
    apply andb_true_iff in H as [Ht Hso].
    rewrite !group_empty by assumption.
    destruct (filled_categories s); [reflexivity|discriminate].
  - unfold build_skill_tree. rewrite Hs. reflexivity.
Qed.

Lemma replace_from_ascii (k : str) (skip : nat) :
  is_ascii k = true -> is_ascii (replace_from (py "_") (py " ") skip k) = true.
Proof.
  revert skip. induction k as [|c k IH]; intros skip Ha; [reflexivity|].
  simpl in Ha. apply andb_true_iff in Ha as [Hc Hk].
  cbn [replace_from]. destruct skip; [|auto].
  destruct (startswith (c :: k) (py "_")).
  - apply (IH 0 Hk).
  - simpl. rewrite Hc. apply (IH 0 Hk).
Qed.

Lemma category_name_ascii (category : str) :
  basic_latin U -> is_ascii category = true ->
  category_name category = @category_name basic_latin_ucd category.
Proof.
  intros HU Ha. unfold category_name. apply (title_ascii HU).
  apply replace_from_ascii, Ha.
Qed.

(** C7. A record whose only filled field is the technical category
    [programming_languages] with the one skill ["Python"] builds the
    chain "Skills", "Technical Skills", "Programming Languages", and the
    leaf "Python" of type "skill", and nothing else. *)
Theorem build_only_python (d : skill_data) (s : skills_record) :
  basic_latin U ->
  skills d = Some s ->
  filled_categories s = [(py "programming_languages", [py "Python"])] ->
  empty_field (soft_skills s) = true ->
  empty_field (domains s) = true ->
  empty_field (certifications s) = true ->
  build_skill_tree d =
  Node (py "Skills") None
    (Some [Node (py "Technical Skills") None
             (Some [Node (py "Programming Languages") None
                      (Some [Node (py "Python") (Some (py "skill")) None])])]).
Proof.
  intros HU Hs Ht Hso Hd Hc.
  rewrite (build_skill_tree_shape d s Hs), Ht, !group_empty by assumption.
  unfold category_node. cbn [map fst snd app].
  rewrite (category_name_ascii _ HU) by reflexivity.
  reflexivity.
Qed.

Lemma join_cons_head (sep : str) (x : N) (a : str) (l : list str) :
  join sep ((x :: a) :: l) = x :: join sep (a :: l).
Proof. destruct l; reflexivity. Qed.

Lemma replace_letter_words (k : str) (skip : nat) :
  letter_words k = true ->
  forallb (fun c => ascii_letter c || (c =? 0x20)%N)
    (replace_from (py "_") (py " ") skip k) = true.
Proof.
  revert skip. induction k as [|c k IH]; intros skip Hk; [reflexivity|].
  simpl in Hk. apply andb_true_iff in Hk as [Hc Hk].
  cbn [replace_from]. destruct skip; [|auto].
  change (startswith (c :: k) (py "_")) with ((c =? 0x5F)%N && true).
  destruct (N.eqb_spec c 0x5F) as [->|Hne]; cbn [andb].
  - apply (IH 0 Hk).
  - simpl. rewrite (IH 0 Hk), andb_true_r.
    destruct (ascii_letter c); simpl in *; [reflexivity|exact Hc].
Qed.

(** On letters and spaces the title-casing machine capitalizes the words
    between the spaces. *)
Lemma do_title_words (s : str) (previous : bool) (before : str) :
  forallb (fun c => ascii_letter c || (c =? 0x20)%N) s = true ->
  match split s 0x20 with
  | [] => False
  | w :: ws =>
      @do_title basic_latin_ucd previous before s =
      join (py " ") ((if previous then map ascii_lower w else capitalize w)
                     :: map capitalize ws)
  end.
Proof.
  revert previous before. induction s as [|c s IH]; intros previous before H.
  - simpl. destruct previous; reflexivity.
  - simpl in H. apply andb_true_iff in H as [Hc Hs].
    cbn [split do_title].
    specialize (IH (@is_cased basic_latin_ucd c) (c :: before) Hs).
    destruct (split s 32) as [|w ws]; [contradiction|].
    rewrite IH. clear IH.
    destruct (N.eqb_spec c 0x20) as [->|Hne].
    + destruct previous; reflexivity.
    + rewrite orb_false_r in Hc.
      assert (Hsig : (c =? 0x3A3)%N = false).
      { apply N.eqb_neq. intros ->. discriminate. }
      unfold lower_ucs4. rewrite Hsig.
      cbn [is_cased to_lower_full to_title_full basic_latin_ucd].
      rewrite Hc.
      destruct previous; cbn [capitalize map app]; rewrite join_cons_head;
        reflexivity.
Qed.

Lemma category_name_words (category : str) :
  letter_words category = true ->
  @category_name basic_latin_ucd category = capitalize_each_word category.
Proof.
  intros H. unfold category_name, capitalize_each_word, title, replace.
  pose proof (do_title_words _ false [] (replace_letter_words category 0 H)) as E.
  destruct (split _ 32) as [|w ws]; [contradiction|]. exact E.
Qed.

Lemma letter_words_ascii (category : str) :
  letter_words category = true -> is_ascii category = true.
Proof.
  unfold letter_words, is_ascii. rewrite !forallb_forall. intros H c Hc.
  specialize (H c Hc). unfold ascii_letter, ascii_upper_letter, ascii_lower_letter in H.
  apply N.ltb_lt.
  repeat match type of H with
         | context [(?a <=? ?b)%N] => destruct (N.leb_spec a b)
         | context [(?a =? ?b)%N] => destruct (N.eqb_spec a b)
         end; simpl in H; try discriminate; lia.
Qed.

Lemma do_title_title_case (s : str) (previous : bool) (before : str) :
  is_ascii s = true ->
  @do_title basic_latin_ucd previous before s = title_case previous s.
Proof.
  revert previous before. induction s as [|c s IH]; intros previous before H;
    [reflexivity|].
  simpl in H. apply andb_true_iff in H as [Hc Hs]. apply N.ltb_lt in Hc.
  cbn [do_title title_case]. rewrite IH by exact Hs.
  unfold lower_ucs4. destruct (N.eqb_spec c 0x3A3) as [->|_]; [lia|].
  destruct previous; reflexivity.
Qed.

(** C8, as the program has it.  The node of a filled technical category
    is named by [str.title] of its key with the underscores turned into
    spaces.  On an ASCII key a letter is put in upper case when no letter
    comes right before it and in lower case otherwise.  For a key made of
    letters, underscores and spaces this is the capitalization of each
    word, and the key ["cloud_platforms"] gives the label
    ["Cloud Platforms"]. *)
Theorem category_label (d : skill_data) (s : skills_record) :
  basic_latin U ->
  skills d = Some s ->
  filled_categories s <> [] ->
  (exists others,
     build_skill_tree d =
     Node (py "Skills") None
       (Some (Node (py "Technical Skills") None
                (Some (map (fun entry =>
                              Node (title (replace (fst entry) (py "_") (py " ")))
                                None (Some (leaves "skill" (snd entry))))
                         (filled_categories s)))
              :: others)))
  /\ (forall category,
        is_ascii category = true ->
        title (replace category (py "_") (py " "))
        = title_case false (replace category (py "_") (py " ")))
  /\ (forall category,
        letter_words category = true ->
        title (replace category (py "_") (py " ")) = capitalize_each_word category)
  /\ title (replace (py "cloud_platforms") (py "_") (py " ")) = py "Cloud Platforms".
Proof.
  intros HU Hs Hne. split; [|split; [|split]].
  - rewrite (build_skill_tree_shape d s Hs).
    destruct (filled_categories s) as [|e cats]; [contradiction|].
    eexists. reflexivity.
  - intros category H.
    rewrite (title_ascii HU) by apply replace_from_ascii, H.
    apply do_title_title_case, replace_from_ascii, H.
  - intros category H.
    change (category_name category = capitalize_each_word category).
    rewrite (category_name_ascii _ HU (letter_words_ascii _ H)).
    apply category_name_words, H.
  - change (category_name (py "cloud_platforms") = py "Cloud Platforms").
    rewrite (category_name_ascii _ HU) by reflexivity. reflexivity.
Qed.

End BuilderFacts.


Lemma build_only_python_witness :
  @build_skill_tree basic_latin_ucd
    {| skills := Some {| technical := Some [(py "programming_languages", [py "Python"]);
                                            (py "frameworks", [])];
                         soft_skills := Some [];
                         domains := None;
                         certifications := Some [] |};
       experience_levels := None;
       skill_relationships := Some [] |} =
  Node (py "Skills") None
    (Some [Node (py "Technical Skills") None
             (Some [Node (py "Programming Languages") None
                      (Some [Node (py "Python") (Some (py "skill")) None])])]).
Proof.
  eapply (@build_only_python basic_latin_ucd _ _ basic_latin_ucd_ok);
    reflexivity.
Defined.

Lemma build_all_empty_witness :
  @build_skill_tree basic_latin_ucd
    {| skills := Some {| technical := Some [(py "tools", [])];
                         soft_skills := Some [];
                         domains := None;
                         certifications := Some [] |};
       experience_levels := None;
       skill_relationships := Some [] |} =
  Node (py "Skills") None (Some []).
Proof. apply build_all_empty. reflexivity. Defined.

Lemma category_label_witness :
  let s := {| technical := Some [(py "cloud_platforms", [py "AWS"])];
              soft_skills := None; domains := None; certifications := None |} in
  let d := {| skills := Some s; experience_levels := None;
              skill_relationships := None |} in
  (exists others,
     @build_skill_tree basic_latin_ucd d =
     Node (py "Skills") None
       (Some (Node (py "Technical Skills") None
                (Some (map (fun entry =>
                              Node (@title basic_latin_ucd
                                      (replace (fst entry) (py "_") (py " ")))
                                None (Some (leaves "skill" (snd entry))))
                         (filled_categories s)))
              :: others)))
  /\ (forall category,
        is_ascii category = true ->
        @title basic_latin_ucd (replace category (py "_") (py " "))
        = title_case false (replace category (py "_") (py " ")))
  /\ (forall category,
        letter_words category = true ->
        @title basic_latin_ucd (replace category (py "_") (py " "))
        = capitalize_each_word category)
  /\ @title basic_latin_ucd (replace (py "cloud_platforms") (py "_") (py " "))
     = py "Cloud Platforms".
Proof.
  intros s d.
  apply (@category_label basic_latin_ucd d s basic_latin_ucd_ok eq_refl).
  discriminate.
Defined.

(** C8 as the specification words it fails on the key ["e2e_testing"]:
    capitalizing its two words gives ["E2e Testing"], while the program
    also puts in upper case the letter that follows the digit. *)
Lemma label_differs_from_capitalized_words :
  let d := {| skills := Some {| technical := Some [(py "e2e_testing", [py "Cypress"])];
                                soft_skills := None; domains := None;
                                certifications := None |};
              experience_levels := None; skill_relationships := None |} in
  @build_skill_tree basic_latin_ucd d =
  Node (py "Skills") None
    (Some [Node (py "Technical Skills") None
             (Some [Node (py "E2E Testing") None
                      (Some [Node (py "Cypress") (Some (py "skill")) None])])])
  /\ capitalize_each_word (py "e2e_testing") = py "E2e Testing"
  /\ @category_name basic_latin_ucd (py "e2e_testing")
     <> capitalize_each_word (py "e2e_testing").
Proof. repeat split. discriminate. Qed.

(** ** The keyword fallback *)

Lemma dict_get_set {A} (d : list (str * A)) (k : str) (v : A) :
  dict_get (dict_set d k v) k = Some v.
Proof.
  induction d as [|[k' v'] d IH]; simpl.
  - rewrite str_eqb_refl. reflexivity.
  - destruct (str_eqb k' k) eqn:E; simpl.
    + rewrite str_eqb_refl. reflexivity.
    + rewrite E. exact IH.
Qed.

Lemma dict_set_set {A} (d : list (str * A)) (k : str) (v v' : A) :
  dict_set (dict_set d k v) k v' = dict_set d k v'.
Proof.
  induction d as [|[k' w] d IH]; simpl.
  - rewrite str_eqb_refl. reflexivity.
  - destruct (str_eqb k' k) eqn:E; simpl.
    + rewrite str_eqb_refl. reflexivity.
    + rewrite E, IH. reflexivity.
Qed.

Lemma dict_set_same {A} (d : list (str * A)) (k : str) (v : A) :
  dict_get d k = Some v -> dict_set d k v = d.
Proof.
  induction d as [|[k' w] d IH]; simpl; [discriminate|].
  destruct (str_eqb k' k) eqn:E.
  - apply str_eqb_eq in E as ->. intros [= ->]. reflexivity.
  - intros H. rewrite IH by assumption. reflexivity.
Qed.

(** The inner loop appends to one list the keywords that match, in the
    order of the table. *)
Lemma keywords_fold (P : str -> bool) (category : str) (keywords : list str)
    (d : list (str * list str)) (l : list str) :
  dict_get d category = Some l ->
  fold_left
    (fun found keyword =>
       if P keyword then dict_append found category keyword else found)
    keywords d
  = dict_set d category (l ++ List.filter P keywords).
Proof.
  revert d l. induction keywords as [|k keywords IH]; intros d l Hd; simpl.
  - rewrite app_nil_r. symmetry. apply dict_set_same, Hd.
  - destruct (P k).
    + unfold dict_append at 2. rewrite Hd.
      rewrite (IH _ (l ++ [k])) by apply dict_get_set.
      rewrite dict_set_set, <- app_assoc. reflexivity.
    + apply IH, Hd.
Qed.

Lemma in_order_tail (x : str) (f l : list str) :
  in_order (x :: f) l = true -> in_order f l = true.
Proof.
  revert x f. induction l as [|y l IH]; intros x f H; [discriminate|].
  simpl in H. destruct f as [|z f]; [reflexivity|].
  simpl. destruct (str_eqb x y).
  - destruct (str_eqb z y); [apply (IH z f), H|exact H].
  - destruct (str_eqb z y); [|apply (IH x (z :: f)), H].
    apply (IH z f), (IH x (z :: f)), H.
Qed.

Lemma in_order_filter (P : str -> bool) (l : list str) :
  in_order (List.filter P l) l = true.
Proof.
  induction l as [|x l IH]; [reflexivity|]. simpl.
  destruct (P x); simpl.
  - rewrite str_eqb_refl. exact IH.
  - destruct (List.filter P l) as [|y f] eqn:E; [reflexivity|].
    destruct (str_eqb y x); [apply (in_order_tail y), IH|exact IH].
Qed.

(** The two loops over a table of three categories. *)
Lemma categories_fold (P : str -> bool) (k1 k2 k3 : str) (l1 l2 l3 : list str) :
  str_eqb k1 k2 = false -> str_eqb k1 k3 = false -> str_eqb k2 k3 = false ->
  fold_left
    (fun found entry =>
       fold_left
         (fun found keyword =>
            if P keyword then dict_append found (fst entry) keyword else found)
         (snd entry) found)
    [(k1, l1); (k2, l2); (k3, l3)]
    [(k1, []); (k2, []); (k3, [])]
  = [(k1, List.filter P l1); (k2, List.filter P l2); (k3, List.filter P l3)].
Proof.
  intros H12 H13 H23. cbn [fold_left fst snd].
  rewrite (keywords_fold P k1 l1 _ []) by (simpl; rewrite str_eqb_refl; reflexivity).
  cbn [dict_set app]. rewrite str_eqb_refl.
  rewrite (keywords_fold P k2 l2 _ [])
    by (simpl; rewrite H12, str_eqb_refl; reflexivity).
  cbn [dict_set app]. rewrite H12, str_eqb_refl.
  rewrite (keywords_fold P k3 l3 _ [])
    by (simpl; rewrite H13, H23, str_eqb_refl; reflexivity).
  cbn [dict_set app]. rewrite H13, H23, str_eqb_refl. reflexivity.
Qed.

Section ClassifierFacts.
Context {U : UnicodeData}.

(** The record of the fallback, in closed form. *)
Lemma fallback_record (resume_text : str) :
  _fallback_skill_extraction resume_text =
  {| skills :=
       Some {| technical :=
                 Some (map (fun entry =>
                              (fst entry,
                               List.filter (mentions resume_text) (snd entry)))
                         tech_keywords);
               soft_skills := Some [];
               domains := Some [];
               certifications := Some [] |};
     experience_levels := Some [];
     skill_relationships := Some [] |}.
Proof.
  unfold _fallback_skill_extraction, mentions. cbv zeta. unfold tech_keywords.
  rewrite (categories_fold
             (fun keyword => str_in (lower keyword) (lower resume_text))
             (py "programming_languages") (py "frameworks") (py "tools"))
    by (vm_compute; reflexivity).
  cbn [map fst snd]. reflexivity.
Qed.

Lemma dict_get_map {A B} (f : A -> B) (t : list (str * A)) (k : str) :
  dict_get (map (fun entry => (fst entry, f (snd entry))) t) k
  = option_map f (dict_get t k).
Proof.
  induction t as [|[k' v] t IH]; simpl; [reflexivity|].
  destruct (str_eqb k' k); [reflexivity|exact IH].
Qed.

Lemma tech_keywords_get (category : str) (keywords : list str) :
  In (category, keywords) tech_keywords ->
  dict_get tech_keywords category = Some keywords.
Proof.
  intros [H|[H|[H|[]]]]; injection H as <- <-; vm_compute; reflexivity.
Qed.

Lemma found_skills_filter (resume_text category : str) (keywords : list str) :
  In (category, keywords) tech_keywords ->
  found_skills resume_text category = List.filter (mentions resume_text) keywords.
Proof.
  intros H. unfold found_skills. rewrite fallback_record.
  cbn [skills technical]. rewrite dict_get_map, (tech_keywords_get _ _ H).
  reflexivity.
Qed.

(** C5. Without a credential the classification is the record of the
    keyword fallback, whatever the remote service would have answered:
    each technical list holds the keywords of its category that the text
    mentions, in the order of the table; a category without a match is
    empty, and so are all the other fields.  Two runs on the same text
    give the same record. *)
Theorem classify_without_credential (api_key : option str)
    (remote remote' : remote_outcome) (resume_text : str) :
  has_credential api_key = false ->
  classify api_key remote resume_text
  = Return (json_of_skill_data (_fallback_skill_extraction resume_text))
  /\ _fallback_skill_extraction resume_text =
     {| skills :=
          Some {| technical :=
                    Some (map (fun entry =>
                                 (fst entry, found_skills resume_text (fst entry)))
                            tech_keywords);
                  soft_skills := Some [];
                  domains := Some [];
                  certifications := Some [] |};
        experience_levels := Some [];
        skill_relationships := Some [] |}
  /\ (forall category keywords,
        In (category, keywords) tech_keywords ->
        in_order (found_skills resume_text category) keywords = true
        /\ (forall keyword, In keyword (found_skills resume_text category) ->
                            In keyword keywords)
        /\ ((forall keyword, In keyword keywords ->
                             mentions resume_text keyword = false) ->
            found_skills resume_text category = []))
  /\ classify api_key remote' resume_text = classify api_key remote resume_text.
Proof.
  intros Hk. unfold classify. rewrite Hk. repeat split.
  - rewrite fallback_record at 1. do 4 f_equal.
    apply map_ext_in. intros [category keywords] Hin.
    cbn [fst snd]. rewrite (found_skills_filter _ _ _ Hin). reflexivity.
  - rewrite (found_skills_filter _ _ _ H). apply in_order_filter.
  - rewrite (found_skills_filter _ _ _ H). intros keyword Hin.
    apply filter_In in Hin. tauto.
  - rewrite (found_skills_filter _ _ _ H). intros Hno.
    induction keywords as [|k keywords IH]; [reflexivity|].
    simpl. rewrite Hno by (left; reflexivity).
    assert (G : forall l : list str,
               (forall x, In x l -> mentions resume_text x = false) ->
               List.filter (mentions resume_text) l = []).
    { induction l as [|x l IHl]; intros Hl; [reflexivity|].
      simpl. rewrite Hl by (left; reflexivity). apply IHl.
      intros y Hy. apply Hl. right. exact Hy. }
    apply G. intros x Hx. apply Hno. right. exact Hx.
Qed.

(** C9. A keyword of the table is reported for its category exactly when
    its lowered name occurs somewhere in the lowered text, inside a word
    or not: a text with the letter [r] in it reports the language ["R"],
    and a text that mentions ["JavaScript"] reports ["Java"] as well. *)
Theorem keyword_substring_match (resume_text category keyword : str)
    (keywords : list str) :
  basic_latin U ->
  In (category, keywords) tech_keywords ->
  (In keyword (found_skills resume_text category) <->
   In keyword keywords /\ str_in (lower keyword) (lower resume_text) = true)
  /\ (str_in (py "r") resume_text = true ->
      In (py "R") (found_skills resume_text (py "programming_languages")))
  /\ (str_in (py "JavaScript") resume_text = true ->
      In (py "Java") (found_skills resume_text (py "programming_languages"))).
Proof.
  intros HU Hin.
  assert (Hpl : forall k sub,
             is_ascii sub = true ->
             str_in (lower k) (map ascii_lower sub) = true ->
             In k (map py ["Python"; "JavaScript"; "Java"; "C++"; "C#"; "Go";
                           "Rust"; "TypeScript"; "SQL"; "R"; "Swift";
                           "Kotlin"]%string) ->
             str_in sub resume_text = true ->
             In k (found_skills resume_text (py "programming_languages"))).
  { intros k sub Hsub Hk Hmem Htext.
    rewrite (found_skills_filter _ _ _ (or_introl eq_refl)).
    apply filter_In. split; [exact Hmem|].
    apply str_in_spec in Htext as (a & b & ->).
    destruct (do_lower_around HU [] a sub b Hsub) as (a' & b' & E).
    unfold mentions, lower at 2. rewrite E.
    apply str_in_spec in Hk as (x & y & ->).
    apply str_in_spec. exists (a' ++ x), (y ++ b').
    rewrite <- !app_assoc. reflexivity. }
  split; [|split].
  - rewrite (found_skills_filter _ _ _ Hin), filter_In. reflexivity.
  - apply Hpl; [reflexivity| |vm_compute; tauto].
    rewrite (lower_ascii HU) by reflexivity. reflexivity.
  - apply Hpl; [reflexivity| |vm_compute; tauto].
    rewrite (lower_ascii HU) by reflexivity. reflexivity.
Qed.

End ClassifierFacts.

Lemma classify_without_credential_witness :
  @classify basic_latin_ucd None (PostRaises RequestException)
    (py "Built React dashboards")
  = Return (json_of_skill_data
              (@_fallback_skill_extraction basic_latin_ucd
                 (py "Built React dashboards")))
  /\ @found_skills basic_latin_ucd (py "Built React dashboards") (py "frameworks")
     = [py "React"].
Proof.
  split; [|reflexivity].
  exact (proj1 (@classify_without_credential basic_latin_ucd None
                  (PostRaises RequestException) (PostRaises RequestException)
                  (py "Built React dashboards") eq_refl)).
Defined.

Lemma keyword_substring_match_witness :
  In (py "R") (@found_skills basic_latin_ucd (py "Worked in a bakery")
                 (py "programming_languages")).
Proof.
  exact (proj1 (proj2 (@keyword_substring_match basic_latin_ucd
                         (py "Worked in a bakery") (py "programming_languages")
                         (py "R") _ basic_latin_ucd_ok (or_introl eq_refl)))
           eq_refl).
Defined.

(** ** Text extraction *)

(** What [extract_text_from_pdf] returns is the trimmed text that the
    pages gave, and that text was not empty before it was trimmed. *)
Lemma extract_text_cases (w : pdf_world) (pdf_path : str) :
  match extract_text_from_pdf w pdf_path with
  | Raise e =>
      (e = ImportError /\ pdfplumber w = false /\ PyPDF2 w = false)
      \/ (e = Exception /\ (pdfplumber w = true \/ PyPDF2 w = true))
  | Return t => exists text, text <> [] /\ t = strip text
  end.
Proof.
  unfold extract_text_from_pdf.
  destruct (pdfplumber w), (PyPDF2 w); simpl; auto;
    repeat match goal with
           | |- context [truthy ?t] => destruct t eqn:?; simpl
           end;
    try (right; split; [reflexivity|auto]);
    eexists; (split; [|reflexivity]); discriminate.
Qed.

(** C2. The specification asks that a backend that raises in the middle
    of a document counts for nothing.  The program keeps the pages read
    before the exception: when [pdfplumber] gives the first page and then
    raises, the text of that page alone is returned and [PyPDF2], which
    reads both pages, is never tried. *)
Theorem partial_text_is_returned :
  let w := {| pdfplumber := true;
              PyPDF2 := true;
              pdfplumber_open := fun _ =>
                Page (Some (py "Alice")) (Raises BackendError);
              PyPDF2_open := fun _ =>
                Page (Some (py "Alice")) (Page (Some (py "Bob")) Done) |} in
  extract_text_from_pdf w (py "resume.pdf") = Return (py "Alice")
  /\ extract_all_or_nothing w (py "resume.pdf") = Return (py "Alice
Bob").
Proof. split; reflexivity. Qed.

(** C3. The specification asks for a failure when the text is empty
    after trimming.  The program tests the text before it trims it: a
    document whose only page holds a space is a success that returns the
    empty string. *)
Theorem blank_page_returns_empty_string :
  let w := {| pdfplumber := true;
              PyPDF2 := false;
              pdfplumber_open := fun _ => Page (Some (py " ")) Done;
              PyPDF2_open := fun _ => Done |} in
  extract_text_from_pdf w (py "resume.pdf") = Return []
  /\ extract_all_or_nothing w (py "resume.pdf") = Raise Exception.
Proof. split; reflexivity. Qed.

(** ** Remote analysis *)

Lemma get_raises (v : json) (k : str) (default : json) (e : exn) :
  get v k default = Raise e -> e = AttributeError.
Proof. destruct v; simpl; congruence. Qed.

Lemma first_item_raises (v : json) (e : exn) :
  first_item v = Raise e -> e = IndexError \/ e = KeyError \/ e = TypeError.
Proof.
  destruct v as [| | |[|c s]|[|x l]|m]; simpl; intros [= <-]; auto.
Qed.

(** Reading the content out of the answer never raises the exception of
    the decoder. *)
Lemma message_content_raises (result : json) (e : exn) :
  message_content result = Raise e -> e <> JSONDecodeError.
Proof.
  unfold message_content, bind. intros H.
  destruct (get result _ _) as [choices|e1] eqn:E1.
  - destruct (first_item choices) as [choice|e2] eqn:E2.
    + destruct (get choice _ _) as [message|e3] eqn:E3.
      * apply get_raises in H as ->. discriminate.
      * injection H as <-. apply get_raises in E3 as ->. discriminate.
    + injection H as <-.
      apply first_item_raises in E2 as [->|[->| ->]]; discriminate.
  - injection H as <-. apply get_raises in E1 as ->. discriminate.
Qed.

(** The print of the handler raises exactly when the content cannot be
    encoded. *)
Lemma print_content (content : str) :
  print (py "Response content: " ++ firstn 500 content)
  = if encodable (firstn 500 content) then Return tt else Raise UnicodeEncodeError.
Proof.
  unfold print, encodable. rewrite forallb_app.
  change (forallb is_scalar (py "Response content: ")) with true. reflexivity.
Qed.

Section AnalysisFacts.
Context {U : UnicodeData}.

(** C4, as the program has it.  With a credential, on a transport error,
    on a status from 400 to 599, on an answer without a text content and
    on a content that is not JSON once its fences are removed and whose
    first 500 characters can be printed, the classification raises
    nothing and is the record of the keyword fallback.  A content that
    is JSON is returned as it was decoded: nothing compares it with the
    schema. *)
Theorem analyze_degrades_to_fallback (api_key : option str)
    (remote : remote_outcome) (resume_text : str) :
  has_credential api_key = true ->
  degraded remote ->
  classify api_key remote resume_text
  = Return (json_of_skill_data (_fallback_skill_extraction resume_text))
  /\ (forall status_code result content v,
        is_error_status status_code = false ->
        message_content result = Return (JString content) ->
        loads (strip_fences content) = Some v ->
        classify api_key (Answer status_code (Return result)) resume_text
        = Return v).
Proof.
  intros Hk H. unfold classify. rewrite Hk. split.
  - unfold analyze_resume_with_xai, try_block, request.
    destruct H as [e He|s body Hs|s result e Hs Hm|s result v Hs Hm Hv
                  |s result content Hs Hm Hl Hp].
    + destruct e; try reflexivity. contradiction.
    + rewrite Hs. reflexivity.
    + rewrite Hs, Hm. apply message_content_raises in Hm.
      destruct e; try reflexivity. contradiction.
    + rewrite Hs, Hm. destruct v; try reflexivity. discriminate.
    + rewrite Hs, Hm. cbv zeta. rewrite Hl, print_content, Hp. reflexivity.
  - intros s result content v Hs Hm Hl.
    unfold analyze_resume_with_xai, try_block, request.
    rewrite Hs, Hm. cbv zeta. rewrite Hl. reflexivity.
Qed.

End AnalysisFacts.

Lemma analyze_degrades_to_fallback_witness :
  @classify basic_latin_ucd (Some (py "xai-key"))
    (Answer 500 (Return (JString (py "Internal Server Error"))))
    (py "Python developer")
  = Return (json_of_skill_data
              (@_fallback_skill_extraction basic_latin_ucd (py "Python developer"))).
Proof.
  exact (proj1 (@analyze_degrades_to_fallback basic_latin_ucd
                  (Some (py "xai-key")) _ (py "Python developer") eq_refl
                  (error_status 500 _ eq_refl))).
Defined.

(** C4 as the specification words it fails on an answer whose content is
    JSON of another shape: the decoded value is returned as the skill
    record, and it is not the record of the keyword fallback. *)
Lemma unchecked_answer_is_returned :
  let answer :=
    JObject [(py "choices",
              JArray [JObject [(py "message",
                                JObject [(py "content",
                                          JString (pyq "{@languages@: [@Python@]}"))])]])] in
  let content := JObject [(py "languages", JArray [JString (py "Python")])] in
  @classify basic_latin_ucd (Some (py "xai-key")) (Answer 200 (Return answer))
    (py "Python developer")
  = Return content
  /\ content <> json_of_skill_data
                  (@_fallback_skill_extraction basic_latin_ucd (py "Python developer")).
Proof. split; [vm_compute; reflexivity|discriminate]. Qed.

(** ** The artifacts *)

Section RunFacts.
Context {U : UnicodeData}.


End RunFacts.


(** ** The JSON codec *)

Lemma hex_digit_value (d : N) :
  (d < 16)%N -> hex_value (hex_digit d) = Some d.
Proof.
  intros H. 
  assert (G : (match hex_value (hex_digit d) with Some x => x =? d | None => false end)%N = true).
  { revert d H. apply (below_forallb _ 16). vm_compute. reflexivity. }
  destruct (hex_value (hex_digit d)); [|discriminate].
  apply N.eqb_eq in G as ->. reflexivity.
Qed.

Lemma hex4_u_escape (n : N) :
  (n < 0x10000)%N ->
  hex4 (hex_digit (n / 0x1000 mod 0x10)) (hex_digit (n / 0x100 mod 0x10))
       (hex_digit (n / 0x10 mod 0x10)) (hex_digit (n mod 0x10)) = Some n.
Proof.
  intros H. unfold hex4.
  rewrite !hex_digit_value by (apply N.mod_lt; discriminate).
  f_equal.
  replace (n / 0x100)%N with (n / 0x10 / 0x10)%N by (rewrite N.Div0.div_div; reflexivity).
  replace (n / 0x1000)%N with (n / 0x10 / 0x10 / 0x10)%N
    by (rewrite !N.Div0.div_div; reflexivity).
  pose proof (N.div_mod n 0x10 ltac:(discriminate)) as E1.
  pose proof (N.div_mod (n / 0x10) 0x10 ltac:(discriminate)) as E2.
  pose proof (N.div_mod (n / 0x10 / 0x10) 0x10 ltac:(discriminate)) as E3.
  pose proof (N.mod_lt n 0x10 ltac:(discriminate)).
  pose proof (N.mod_lt (n / 0x10) 0x10 ltac:(discriminate)).
  pose proof (N.mod_lt (n / 0x10 / 0x10) 0x10 ltac:(discriminate)).
  assert (n / 0x10 / 0x10 / 0x10 < 0x10)%N
    by (rewrite !N.Div0.div_div; apply N.Div0.div_lt_upper_bound; exact H).
  rewrite (N.mod_small (n / 0x10 / 0x10 / 0x10) 0x10) in * by assumption.
  generalize dependent (n / 0x10 / 0x10 / 0x10)%N.
  generalize dependent ((n / 0x10 / 0x10) mod 0x10)%N.
  generalize dependent (n / 0x10 / 0x10)%N.
  generalize dependent ((n / 0x10) mod 0x10)%N.
  generalize dependent (n / 0x10)%N.
  generalize dependent (n mod 0x10)%N.
  intros. lia.
Qed.

Lemma scanstring_u_escape (n : N) (rest : str) :
  (n < 0x10000)%N -> is_high_surrogate n = false ->
  scanstring (u_escape n ++ rest) = push n (scanstring rest).
Proof.
  intros Hn Hh. unfold u_escape. cbn [app].
  cbn [scanstring]. change (92 =? 34)%N with false. change (92 =? 92)%N with true.
  change (117 =? 117)%N with true. cbv iota. rewrite (hex4_u_escape n Hn), Hh.
  destruct rest as [|b [|e' [|g1 [|g2 [|g3 [|g4 s12]]]]]]; reflexivity.
Qed.

Lemma scanstring_escape_char (c : N) (rest : str) :
  scanstring (escape_char c ++ rest) = push c (scanstring rest).
Proof.
  unfold escape_char, short_escape.
  destruct (N.eqb_spec c 0x5C) as [->|H1]; [reflexivity|].
  destruct (N.eqb_spec c 0x22) as [->|H2]; [reflexivity|].
  destruct (N.eqb_spec c 0x08) as [->|H3]; [reflexivity|].
  destruct (N.eqb_spec c 0x0C) as [->|H4]; [reflexivity|].
  destruct (N.eqb_spec c 0x0A) as [->|H5]; [reflexivity|].
  destruct (N.eqb_spec c 0x0D) as [->|H6]; [reflexivity|].
  destruct (N.eqb_spec c 0x09) as [->|H7]; [reflexivity|].
  destruct (N.ltb_spec c 0x20) as [Hlt|Hge].
  - apply scanstring_u_escape; [lia|].
    unfold is_high_surrogate. apply andb_false_iff. left. apply N.leb_gt. lia.
  - cbn [app scanstring].
    apply N.eqb_neq in H1, H2. rewrite H1, H2.
    apply N.ltb_ge in Hge. rewrite Hge. reflexivity.
Qed.

Lemma lor_shifted (a b : N) :
  (b < 2 ^ 10)%N -> N.lor (N.shiftl a 10) b = (a * 2 ^ 10 + b)%N.
Proof.
  intros Hb.
  assert (Hl : N.land (N.shiftl a 10) b = 0%N).
  { apply N.bits_inj. intros m. rewrite N.land_spec, N.bits_0.
    destruct (N.lt_ge_cases m 10) as [Hm|Hm].
    - rewrite N.shiftl_spec_low by exact Hm. reflexivity.
    - rewrite <- (N.mod_small b (2 ^ 10)) by exact Hb.
      rewrite N.mod_pow2_bits_high by exact Hm. apply andb_false_r. }
  rewrite <- N.lxor_lor, <- N.add_nocarry_lxor by exact Hl.
  rewrite N.shiftl_mul_pow2. reflexivity.
Qed.

(** The two halves of a character above U+FFFF, and their joining. *)
Lemma surrogate_pair (c : N) :
  (0x10000 <= c < 0x110000)%N ->
  let n := (c - 0x10000)%N in
  let hi := N.lor 0xD800 (N.land (N.shiftr n 10) 0x3FF) in
  let lo := N.lor 0xDC00 (N.land n 0x3FF) in
  (hi < 0x10000)%N /\ (lo < 0x10000)%N /\
  is_high_surrogate hi = true /\ is_low_surrogate lo = true /\
  join_surrogates hi lo = c.
Proof.
  intros Hc n hi lo.
  assert (Hor : forall base x, (base = 0xD800 \/ base = 0xDC00)%N -> (x < 0x400)%N ->
                N.lor base x = (base + x)%N).
  { intros base x Hbase Hx.
    assert (G : (N.lor 0xD800 x =? 0xD800 + x)%N && (N.lor 0xDC00 x =? 0xDC00 + x)%N
                = true).
    { revert x Hx. apply (below_forallb _ 1024). vm_compute. reflexivity. }
    apply andb_true_iff in G as [G1 G2]. apply N.eqb_eq in G1, G2.
    destruct Hbase as [->| ->]; assumption. }
  assert (Hn : (n < 0x100000)%N) by (subst n; lia).
  assert (Hhi : N.land (N.shiftr n 10) 0x3FF = (n / 0x400)%N).
  { change 0x3FF%N with (N.ones 10). rewrite N.land_ones, N.shiftr_div_pow2.
    apply N.mod_small. change (2 ^ 10)%N with 0x400%N.
    apply N.Div0.div_lt_upper_bound. exact Hn. }
  assert (Hlo : N.land n 0x3FF = (n mod 0x400)%N).
  { change 0x3FF%N with (N.ones 10). apply N.land_ones. }
  assert (Hq : (n / 0x400 < 0x400)%N)
    by (apply N.Div0.div_lt_upper_bound; exact Hn).
  assert (Hr : (n mod 0x400 < 0x400)%N) by (apply N.mod_lt; discriminate).
  subst hi lo. rewrite Hhi, Hlo, !Hor by (auto; assumption).
  unfold is_high_surrogate, is_low_surrogate, join_surrogates.
  replace (0xD800 + n / 0x400 - 0xD800)%N with (n / 0x400)%N by lia.
  replace (0xDC00 + n mod 0x400 - 0xDC00)%N with (n mod 0x400)%N by lia.
  rewrite lor_shifted by exact Hr. change (2 ^ 10)%N with 0x400%N.
  pose proof (N.div_mod n 0x400 ltac:(discriminate)) as E.
  repeat split; try lia;
    apply andb_true_iff; split; apply N.leb_le; lia.
Qed.

Lemma scanstring_surrogate_pair (hi lo : N) (rest : str) :
  (hi < 0x10000)%N -> (lo < 0x10000)%N ->
  is_high_surrogate hi = true -> is_low_surrogate lo = true ->
  scanstring (u_escape hi ++ u_escape lo ++ rest)
  = push (join_surrogates hi lo) (scanstring rest).
Proof.
  intros Hh Hl Hhi Hlo. unfold u_escape. cbn [app].
  cbn [scanstring]. change (92 =? 34)%N with false. change (92 =? 92)%N with true.
  change (117 =? 117)%N with true. cbv iota.
  rewrite (hex4_u_escape hi Hh), Hhi, (hex4_u_escape lo Hl), Hlo. reflexivity.
Qed.

Lemma scanstring_escape_char_ascii (c : N) (rest : str) :
  is_scalar c = true ->
  scanstring (escape_char_ascii c ++ rest) = push c (scanstring rest).
Proof.
  intros Hc. unfold escape_char_ascii, short_escape.
  destruct (N.eqb_spec c 0x5C) as [->|H1]; [reflexivity|].
  destruct (N.eqb_spec c 0x22) as [->|H2]; [reflexivity|].
  destruct (N.eqb_spec c 0x08) as [->|H3]; [reflexivity|].
  destruct (N.eqb_spec c 0x0C) as [->|H4]; [reflexivity|].
  destruct (N.eqb_spec c 0x0A) as [->|H5]; [reflexivity|].
  destruct (N.eqb_spec c 0x0D) as [->|H6]; [reflexivity|].
  destruct (N.eqb_spec c 0x09) as [->|H7]; [reflexivity|].
  destruct (N.leb_spec 0x20 c) as [Hge|Hlt]; cbn [andb].
  - destruct (N.leb_spec c 0x7E) as [Hle|Hgt].
    + cbn [app scanstring].
      apply N.eqb_neq in H1, H2. rewrite H1, H2.
      apply N.ltb_ge in Hge. rewrite Hge. reflexivity.
    + unfold is_scalar in Hc.
      destruct (N.ltb_spec c 0x10000) as [Hw|Hw].
      * apply scanstring_u_escape; [exact Hw|].
        unfold is_high_surrogate.
        destruct (N.ltb_spec c 0xD800), (N.ltb_spec 0xDFFF c); cbn in Hc;
          try discriminate; apply andb_false_iff;
          [left|left|right]; apply N.leb_gt; lia.
      * assert (Hr : (0x10000 <= c < 0x110000)%N).
        { destruct (N.ltb_spec c 0xD800), (N.ltb_spec 0xDFFF c),
            (N.ltb_spec c 0x110000); cbn in Hc; try discriminate; lia. }
        destruct (surrogate_pair c Hr) as (Ha & Hb & Hhi & Hlo & E).
        rewrite <- app_assoc, scanstring_surrogate_pair by assumption.
        rewrite E. reflexivity.
  - assert (Hw : (c <? 0x10000)%N = true) by (apply N.ltb_lt; lia).
    rewrite Hw. apply scanstring_u_escape; [lia|].
    unfold is_high_surrogate. apply andb_false_iff. left. apply N.leb_gt. lia.
Qed.

(** The decoder reads back the characters of an encoded string; with
    [ensure_ascii] this asks that the string holds no surrogate, as two
    of them in a row are read back as one character. *)
Lemma scanstring_encode (ensure_ascii : bool) (s rest : str) :
  readable ensure_ascii s = true ->
  scanstring (flat_map (if ensure_ascii then escape_char_ascii else escape_char) s
              ++ quote :: rest) = Some (s, rest).
Proof.
  intros H. induction s as [|c s IH]; [reflexivity|].
  cbn [flat_map]. rewrite <- app_assoc. destruct ensure_ascii.
  - cbn [readable encodable forallb] in H. apply andb_true_iff in H as [Hc Hs].
    rewrite scanstring_escape_char_ascii, IH by assumption. reflexivity.
  - rewrite scanstring_escape_char, IH by reflexivity. reflexivity.
Qed.

Lemma skip_ws_newline_indent (level : nat) (rest : str) :
  skip_ws (newline_indent level ++ rest) = skip_ws rest.
Proof.
  unfold newline_indent. cbn [app skip_ws]. change (is_json_ws 10) with true.
  cbv iota. induction (2 * level) as [|n IH]; [reflexivity|exact IH].
Qed.

Lemma encode_head (ensure_ascii : bool) (level : nat) (v : json) :
  plain v = true ->
  exists c tl, encode ensure_ascii level v = c :: tl /\ starts_value c = true.
Proof.
  destruct v as [|[|]|l|s|[|x xs]|[|[k x] kxs]]; intros H; try discriminate;
    cbn [encode]; unfold encode_string; cbn [py decode_utf8 bytes_of app];
    eexists _, _; (split; [reflexivity|reflexivity]).
Qed.

Lemma json_ind' (P : json -> Prop) :
  P JNull -> (forall b, P (JBool b)) -> (forall l, P (JNumber l)) ->
  (forall s, P (JString s)) ->
  (forall l, Forall P l -> P (JArray l)) ->
  (forall m, Forall (fun kv => P (snd kv)) m -> P (JObject m)) ->
  forall v, P v.
Proof.
  intros Hn Hb Hnum Hs Ha Ho. fix IH 1.
  intros [|b|l|s|l|m]; [exact Hn|apply Hb|apply Hnum|apply Hs| |].
  - apply Ha. induction l as [|x l IHl]; constructor; [apply IH|exact IHl].
  - apply Ho. induction m as [|[k x] m IHm]; constructor; [apply IH|exact IHm].
Qed.

Lemma starts_value_not_ws (c : N) :
  starts_value c = true ->
  is_json_ws c = false /\ (c =? 0x5D)%N = false /\ (c =? 0x7D)%N = false.
Proof.
  unfold starts_value. intros H.
  repeat (apply orb_true_iff in H as [H|H]);
    apply N.eqb_eq in H; subst; repeat split; reflexivity.
Qed.

Lemma skip_ws_value (ensure_ascii : bool) (level : nat) (v : json) (rest : str) :
  plain v = true ->
  skip_ws (encode ensure_ascii level v ++ rest) = encode ensure_ascii level v ++ rest.
Proof.
  intros H. destruct (encode_head ensure_ascii level v H) as (c & tl & -> & Hc).
  apply starts_value_not_ws in Hc as (Hw & _). cbn [app skip_ws].
  rewrite Hw. reflexivity.
Qed.

Lemma Forall_flat_map_in {A B} (P : B -> Prop) (f : A -> list B) (l : list A)
    (x : A) :
  Forall P (flat_map f l) -> In x l -> Forall P (f x).
Proof.
  rewrite !List.Forall_forall. intros H Hx y Hy. apply H.
  apply in_flat_map. exists x. split; assumption.
Qed.

Lemma scan_items_encode (ensure_ascii : bool)
    (scan : str -> option (json * str)) (level : nat)
    (xs : list json) :
  forall (x : json) (fuel : nat) (rest : str),
    length xs < fuel ->
    Forall (fun y => plain y = true /\
                     forall rest', scan (encode ensure_ascii (S level) y ++ rest')
                                   = Some (y, rest')) (x :: xs) ->
    scan_items scan fuel
      (encode ensure_ascii (S level) x
       ++ flat_map (fun y => py "," ++ newline_indent (S level)
                             ++ encode ensure_ascii (S level) y) xs
       ++ newline_indent level ++ py "]" ++ rest)
    = Some (x :: xs, rest).
Proof.
  induction xs as [|y ys IH]; intros x fuel rest Hf HF;
    (destruct fuel as [|fuel]; [simpl in Hf; lia|]);
    inversion HF as [|? ? [Hp Hx] HF']; subst; cbn [scan_items flat_map].
  - cbn [app]. rewrite Hx, skip_ws_newline_indent. reflexivity.
  - rewrite <- !app_assoc, Hx.
    change (py ",") with [0x2C%N]. cbn [app skip_ws].
    change (is_json_ws 0x2C) with false. cbv iota.
    change (0x2C =? 0x5D)%N with false. change (0x2C =? 0x2C)%N with true.
    cbv iota.
    rewrite skip_ws_newline_indent.
    inversion HF' as [|? ? [Hpy _] _]; subst.
    rewrite skip_ws_value by assumption.
    rewrite IH; [reflexivity|simpl in Hf; lia|assumption].
Qed.

(** One member of an object, whatever follows it. *)
Lemma scan_pairs_member (ensure_ascii : bool)
    (scan : str -> option (json * str)) (level fuel : nat)
    (k : str) (x : json) (tail : str) :
  readable ensure_ascii k = true ->
  plain x = true ->
  (forall rest', scan (encode ensure_ascii (S level) x ++ rest') = Some (x, rest')) ->
  scan_pairs scan (S fuel)
    (encode_string ensure_ascii k ++ py ": " ++ encode ensure_ascii (S level) x ++ tail)
  = match skip_ws tail with
    | c :: s4 =>
        if (c =? 0x7D)%N then Some ([(k, x)], s4)
        else if (c =? 0x2C)%N
        then push (k, x) (scan_pairs scan fuel (skip_ws s4))
        else None
    | [] => None
    end.
Proof.
  intros Hk Hp Hx. unfold encode_string. cbn [scan_pairs app].
  change (quote =? 0x22)%N with true. cbn [negb].
  rewrite <- app_assoc. cbn [app]. rewrite scanstring_encode by exact Hk.
  change (py ": ") with [0x3A%N; 0x20%N]. cbn [app skip_ws].
  change (is_json_ws 0x3A) with false. cbv iota.
  change (0x3A =? 0x3A)%N with true. cbn [negb skip_ws].
  change (is_json_ws 0x20) with true. cbv iota.
  rewrite skip_ws_value by assumption. rewrite Hx. reflexivity.
Qed.

Lemma skip_ws_comma (t : str) : skip_ws (py "," ++ t) = 0x2C%N :: t.
Proof. reflexivity. Qed.

Lemma skip_ws_string (ensure_ascii : bool) (k t : str) :
  skip_ws (encode_string ensure_ascii k ++ t) = encode_string ensure_ascii k ++ t.
Proof. reflexivity. Qed.

Lemma scan_pairs_encode (ensure_ascii : bool)
    (scan : str -> option (json * str)) (level : nat)
    (kxs : list (str * json)) :
  forall (k : str) (x : json) (fuel : nat) (rest : str),
    length kxs < fuel ->
    Forall (fun ky => readable ensure_ascii (fst ky) = true /\
                      plain (snd ky) = true /\
                      forall rest', scan (encode ensure_ascii (S level) (snd ky) ++ rest')
                                    = Some (snd ky, rest')) ((k, x) :: kxs) ->
    scan_pairs scan fuel
      (encode_string ensure_ascii k ++ py ": " ++ encode ensure_ascii (S level) x
       ++ flat_map (fun ky => let '(k', y) := ky in
                              py "," ++ newline_indent (S level)
                              ++ encode_string ensure_ascii k' ++ py ": "
                              ++ encode ensure_ascii (S level) y) kxs
       ++ newline_indent level ++ py "}" ++ rest)
    = Some ((k, x) :: kxs, rest).
Proof.
  induction kxs as [|[k' y] kys IH]; intros k x fuel rest Hf HF;
    (destruct fuel as [|fuel]; [simpl in Hf; lia|]);
    inversion HF as [|? ? (Hk & Hp & Hx) HF']; subst; cbn [fst snd] in *;
    rewrite scan_pairs_member by assumption; cbn [flat_map].
  - cbn [app]. rewrite skip_ws_newline_indent. reflexivity.
  - rewrite <- !app_assoc, skip_ws_comma.
    change (0x2C =? 0x7D)%N with false. change (0x2C =? 0x2C)%N with true.
    cbv iota. rewrite skip_ws_newline_indent, skip_ws_string.
    rewrite IH; [reflexivity|simpl in Hf; lia|assumption].
Qed.

Lemma dict_set_fresh {A} (d m : list (str * A)) (k : str) (v : A) :
  distinct (map fst (d ++ (k, v) :: m)) = true ->
  dict_set d k v = d ++ [(k, v)].
Proof.
  induction d as [|[k' v'] d IH]; intros H; [reflexivity|].
  cbn [app map fst distinct] in H. apply andb_true_iff in H as [Hk Hd].
  cbn [dict_set app]. rewrite (IH Hd).
  rewrite map_app, existsb_app in Hk. cbn [map fst existsb] in Hk.
  destruct (str_eqb k' k); [|reflexivity].
  rewrite orb_true_r in Hk. discriminate.
Qed.

(** A list of pairs with distinct keys is the dictionary of its pairs. *)
Lemma dict_of_pairs_distinct {A} (m : list (str * A)) :
  distinct (map fst m) = true -> dict_of_pairs m = m.
Proof.
  unfold dict_of_pairs.
  assert (G : forall acc : list (str * A),
             distinct (map fst (acc ++ m)) = true ->
             fold_left (fun d kv => dict_set d (fst kv) (snd kv)) m acc = acc ++ m).
  { induction m as [|[k v] m IH]; intros acc H; cbn [fold_left fst snd].
    - rewrite app_nil_r. reflexivity.
    - rewrite (dict_set_fresh acc m k v H), IH, <- app_assoc; [reflexivity|].
      rewrite <- app_assoc. exact H. }
  apply (G []).
Qed.

Lemma length_flat_map_in {A} (f : A -> str) (y : A) (xs : list A) :
  In y xs -> length (f y) <= length (flat_map f xs).
Proof.
  induction xs as [|x xs IH]; intros H; [destruct H|].
  cbn [flat_map]. rewrite length_app. destruct H as [<-|H]; [lia|].
  specialize (IH H). lia.
Qed.

Lemma length_flat_map_ge {A} (f : A -> str) (xs : list A) :
  (forall y, 1 <= length (f y)) -> length xs <= length (flat_map f xs).
Proof.
  intros Hf. induction xs as [|x xs IH]; [reflexivity|].
  cbn [flat_map length]. rewrite length_app. specialize (Hf x). lia.
Qed.

Lemma scan_array_encode (ensure_ascii : bool)
    (scan : str -> option (json * str)) (level : nat)
    (x : json) (xs : list json) (rest : str) :
  Forall (fun y => plain y = true /\
                   forall rest', scan (encode ensure_ascii (S level) y ++ rest')
                                 = Some (y, rest')) (x :: xs) ->
  scan_array scan
    (newline_indent (S level) ++ encode ensure_ascii (S level) x
     ++ flat_map (fun y => py "," ++ newline_indent (S level)
                           ++ encode ensure_ascii (S level) y) xs
     ++ newline_indent level ++ py "]" ++ rest)
  = Some (JArray (x :: xs), rest).
Proof.
  intros HF. unfold scan_array.
  inversion HF as [|? ? [Hp _] _]; subst.
  rewrite skip_ws_newline_indent, skip_ws_value by assumption.
  destruct (encode_head ensure_ascii (S level) x Hp) as (c & tl & E & Hc).
  apply starts_value_not_ws in Hc as (_ & Hc & _).
  rewrite E at 1. cbn [app]. rewrite Hc.
  change (c :: tl ++ ?t) with ((c :: tl) ++ t). rewrite <- E.
  rewrite scan_items_encode; [reflexivity| |assumption].
  rewrite !length_app.
  pose proof (length_flat_map_ge
                (fun y => py "," ++ newline_indent (S level)
                          ++ encode ensure_ascii (S level) y) xs) as G.
  cbn [newline_indent length]. 
  assert (length xs <= length (flat_map (fun y => py "," ++ newline_indent (S level)
                          ++ encode ensure_ascii (S level) y) xs)).
  { apply G. intros y. change (py ",") with [0x2C%N]. cbn [app length]. lia. }
  lia.
Qed.

Lemma scan_object_encode (ensure_ascii : bool)
    (scan : str -> option (json * str)) (level : nat)
    (k : str) (x : json) (kxs : list (str * json)) (rest : str) :
  distinct (map fst ((k, x) :: kxs)) = true ->
  Forall (fun ky => readable ensure_ascii (fst ky) = true /\
                    plain (snd ky) = true /\
                    forall rest', scan (encode ensure_ascii (S level) (snd ky) ++ rest')
                                  = Some (snd ky, rest')) ((k, x) :: kxs) ->
  scan_object scan
    (newline_indent (S level) ++ encode_string ensure_ascii k ++ py ": "
     ++ encode ensure_ascii (S level) x
     ++ flat_map (fun ky => let '(k', y) := ky in
                            py "," ++ newline_indent (S level)
                            ++ encode_string ensure_ascii k' ++ py ": "
                            ++ encode ensure_ascii (S level) y) kxs
     ++ newline_indent level ++ py "}" ++ rest)
  = Some (JObject ((k, x) :: kxs), rest).
Proof.
  intros Hk HF. unfold scan_object.
  rewrite skip_ws_newline_indent, skip_ws_string.
  unfold encode_string at 1. cbn [app].
  change (quote =? 0x7D)%N with false. cbv iota.
  change (quote :: (flat_map (if ensure_ascii then escape_char_ascii
                                else escape_char) k ++ [quote]) ++ ?t)
    with (encode_string ensure_ascii k ++ t).
  rewrite scan_pairs_encode; [|rewrite !length_app|assumption].
  - rewrite (dict_of_pairs_distinct _ Hk). reflexivity.
  - assert (length kxs <= length (flat_map (fun ky => let '(k', y) := ky in
                            py "," ++ newline_indent (S level)
                            ++ encode_string ensure_ascii k' ++ py ": "
                            ++ encode ensure_ascii (S level) y) kxs)).
    { apply length_flat_map_ge. intros [k' y]. change (py ",") with [0x2C%N].
      cbn [app length]. lia. }
    cbn [newline_indent length]. lia.
Qed.

(** The decoder reads back an encoded value and leaves what follows. *)
Lemma scan_once_encode (ensure_ascii : bool) (v : json) :
  plain v = true ->
  Forall (fun s => readable ensure_ascii s = true) (json_strings v) ->
  forall (level depth : nat) (rest : str),
    length (encode ensure_ascii level v) <= depth ->
    scan_once depth (encode ensure_ascii level v ++ rest) = Some (v, rest).
Proof.
  induction v as [|b|l|s|l IH|m IH] using json_ind';
    intros Hp Hs level depth rest Hd;
    (destruct depth as [|depth];
     [destruct (encode_head ensure_ascii level _ Hp) as (c & tl & E & _);
      rewrite E in Hd; simpl in Hd; lia|]).
  - reflexivity.
  - destruct b; reflexivity.
  - discriminate.
  - cbn [encode]. unfold encode_string. cbn [app scan_once].
    change (quote =? 0x22)%N with true. cbv iota.
    rewrite <- app_assoc. cbn [app]. rewrite scanstring_encode; [reflexivity|].
    inversion Hs; assumption.
  - destruct l as [|x xs]; [reflexivity|].
    cbn [encode] in *. change (py "[") with [0x5B%N] in *.
    rewrite <- !app_assoc. cbn [app scan_once].
    change (0x5B =? 0x22)%N with false. change (0x5B =? 0x7B)%N with false.
    change (0x5B =? 0x5B)%N with true. cbv iota.
    apply scan_array_encode.
    cbn [plain] in Hp. rewrite forallb_forall in Hp.
    rewrite List.Forall_forall in IH. apply List.Forall_forall. intros y Hy.
    split; [apply Hp, Hy|]. intros rest'.
    apply IH; [exact Hy|apply Hp, Hy|apply (Forall_flat_map_in _ _ _ _ Hs Hy)|].
    cbn [app length] in Hd. rewrite !length_app in Hd.
    destruct Hy as [<-|Hy]; [lia|].
    pose proof (length_flat_map_in
                  (fun y => py "," ++ newline_indent (S level)
                            ++ encode ensure_ascii (S level) y) y xs Hy) as G.
    cbn beta in G. rewrite !length_app in G. lia.
  - destruct m as [|[k x] kxs]; [reflexivity|].
    cbn [encode] in *. change (py "{") with [0x7B%N] in *.
    rewrite <- !app_assoc. cbn [app scan_once].
    change (0x7B =? 0x22)%N with false. change (0x7B =? 0x7B)%N with true.
    cbv iota.
    cbn [plain] in Hp. apply andb_true_iff in Hp as [Hk Hp].
    apply scan_object_encode; [exact Hk|].
    rewrite forallb_forall in Hp.
    rewrite List.Forall_forall in IH. apply List.Forall_forall. intros [k' y] Hy.
    cbn [json_strings] in Hs.
    pose proof (Forall_flat_map_in _ _ _ _ Hs Hy) as F. cbn [fst snd] in F.
    inversion F as [|? ? Fk Fv]; subst.
    cbn [fst snd]. split; [exact Fk|]. split; [apply (Hp _ Hy)|]. intros rest'.
    apply (IH _ Hy); [apply (Hp _ Hy)|exact Fv|].
    cbn [app length] in Hd. rewrite !length_app in Hd.
    cbn [snd]. destruct Hy as [[= <- <-]|Hy]; [lia|].
    match type of Hd with
    | context [length (flat_map ?f kxs)] =>
        pose proof (length_flat_map_in f (k', y) kxs Hy) as G
    end.
    cbn beta iota in G. rewrite !length_app in G. lia.
Qed.

(** Round trip: an encoded value without a number, whose objects have
    distinct keys, decodes to itself; with [ensure_ascii] its strings
    must hold no surrogate. *)
Lemma loads_dumps (ensure_ascii : bool) (v : json) :
  plain v = true ->
  Forall (fun s => readable ensure_ascii s = true) (json_strings v) ->
  loads (dumps ensure_ascii v) = Some v.
Proof.
  intros Hp Hr. unfold loads, dumps.
  destruct (encode_head ensure_ascii 0 v Hp) as (c & tl & E & Hc).
  assert (Hb : startswith (encode ensure_ascii 0 v) [0xFEFF%N] = false).
  { rewrite E. cbn [startswith]. unfold starts_value in Hc.
    destruct (N.eqb_spec c 0xFEFF) as [->|_]; [discriminate|reflexivity]. }
  rewrite Hb.
  pose proof (skip_ws_value ensure_ascii 0 v [] Hp) as Hs. rewrite app_nil_r in Hs.
  rewrite Hs.
  pose proof (scan_once_encode ensure_ascii v Hp Hr 0
                (S (length (encode ensure_ascii 0 v))) []) as R.
  rewrite app_nil_r in R. rewrite R by lia. reflexivity.
Qed.

Lemma forallb_flat_map {A} (P : N -> bool) (f : A -> str) (xs : list A) :
  (forall y, In y xs -> forallb P (f y) = true) ->
  forallb P (flat_map f xs) = true.
Proof.
  induction xs as [|x xs IH]; intros H; [reflexivity|].
  cbn [flat_map]. rewrite forallb_app, H, IH; [reflexivity| |left; reflexivity].
  intros y Hy. apply H. right. exact Hy.
Qed.

Lemma hex_digit_ascii (n : N) : (n < 16)%N -> (hex_digit n <? 0x80)%N = true.
Proof.
  intros H. unfold hex_digit. apply N.ltb_lt.
  destruct (N.ltb_spec n 10); lia.
Qed.

Lemma u_escape_ascii (n : N) : is_ascii (u_escape n) = true.
Proof.
  unfold u_escape, is_ascii. cbn [forallb].
  rewrite !hex_digit_ascii by (apply N.mod_lt; discriminate). reflexivity.
Qed.

Lemma escape_char_ascii_ascii (c : N) : is_ascii (escape_char_ascii c) = true.
Proof.
  unfold escape_char_ascii, short_escape.
  repeat match goal with
         | |- context [(c =? ?b)%N] => destruct (N.eqb_spec c b); [reflexivity|]
         end.
  destruct ((0x20 <=? c)%N && (c <=? 0x7E)%N) eqn:E.
  - apply andb_true_iff in E as [_ E]. apply N.leb_le in E.
    unfold is_ascii. cbn [forallb]. rewrite andb_true_r. apply N.ltb_lt. lia.
  - destruct (c <? 0x10000)%N; [apply u_escape_ascii|].
    pose proof (u_escape_ascii (N.lor 0xD800
                  (N.land (N.shiftr (c - 0x10000) 10) 0x3FF))) as H1.
    pose proof (u_escape_ascii (N.lor 0xDC00 (N.land (c - 0x10000) 0x3FF))) as H2.
    unfold is_ascii in *. rewrite forallb_app, H1, H2. reflexivity.
Qed.

Lemma is_ascii_scalar (s : str) : is_ascii s = true -> encodable s = true.
Proof.
  unfold is_ascii, encodable. rewrite !forallb_forall. intros H c Hc.
  specialize (H c Hc). apply N.ltb_lt in H. unfold is_scalar.
  apply orb_true_iff. left. apply N.ltb_lt. lia.
Qed.

Lemma escape_char_scalar (c : N) :
  is_scalar c = true -> encodable (escape_char c) = true.
Proof.
  intros H. unfold escape_char, short_escape.
  repeat match goal with
         | |- context [(c =? ?b)%N] => destruct (N.eqb_spec c b); [reflexivity|]
         end.
  destruct (c <? 0x20)%N; [apply is_ascii_scalar, u_escape_ascii|].
  unfold encodable. cbn [forallb]. rewrite H. reflexivity.
Qed.

Lemma escape_char_printable (c : N) :
  (c <=? 0x7E)%N = true -> escape_char_ascii c = escape_char c.
Proof.
  intros H. unfold escape_char_ascii, escape_char.
  destruct (short_escape c) eqn:E; [reflexivity|].
  rewrite H, andb_true_r.
  destruct (N.leb_spec 0x20 c) as [Hc|Hc].
  - apply N.ltb_ge in Hc. rewrite Hc. reflexivity.
  - assert (Hlt : (c <? 0x20)%N = true) by (apply N.ltb_lt; exact Hc).
    rewrite Hlt. assert (Hw : (c <? 0x10000)%N = true) by (apply N.ltb_lt; lia).
    rewrite Hw. reflexivity.
Qed.

(** The text of a string under the two settings of [ensure_ascii]. *)
Lemma encode_string_encodable (ensure_ascii : bool) (s : str) :
  (if ensure_ascii then true else encodable s) = true ->
  encodable (encode_string ensure_ascii s) = true.
Proof.
  intros H. unfold encode_string, encodable. cbn [forallb].
  change (is_scalar quote) with true. cbn [andb].
  rewrite forallb_app. cbn [forallb]. change (is_scalar quote) with true.
  rewrite !andb_true_r. apply forallb_flat_map. intros c Hc.
  destruct ensure_ascii.
  - apply is_ascii_scalar, escape_char_ascii_ascii.
  - apply escape_char_scalar. unfold encodable in H.
    rewrite forallb_forall in H. apply H, Hc.
Qed.

Lemma encode_string_printable (s : str) :
  printable s = true -> encode_string true s = encode_string false s.
Proof.
  intros H. unfold encode_string. do 2 f_equal.
  unfold printable in H. rewrite forallb_forall in H.
  induction s as [|c s IH]; [reflexivity|]. cbn [flat_map].
  rewrite escape_char_printable, IH; [reflexivity| |].
  - intros x Hx. apply H. right. exact Hx.
  - apply H. left. reflexivity.
Qed.

Lemma flat_map_ext_in {A B} (f g : A -> list B) (l : list A) :
  (forall x, In x l -> f x = g x) -> flat_map f l = flat_map g l.
Proof.
  induction l as [|x l IH]; intros H; [reflexivity|].
  cbn [flat_map]. rewrite H, IH; [reflexivity| |left; reflexivity].
  intros y Hy. apply H. right. exact Hy.
Qed.

Lemma newline_indent_encodable (level : nat) :
  encodable (newline_indent level) = true.
Proof.
  unfold newline_indent, encodable. cbn [forallb].
  change (is_scalar 10) with true. cbn [andb].
  induction (2 * level) as [|n IH]; [reflexivity|exact IH].
Qed.

Lemma encodable_app (a b : str) :
  encodable (a ++ b) = encodable a && encodable b.
Proof. apply forallb_app. Qed.

(** The text of a value is made of code points that a UTF-8 file takes,
    always with [ensure_ascii], and without it when the strings of the
    value are. *)
Lemma encode_encodable (ensure_ascii : bool) (v : json) :
  plain v = true ->
  (ensure_ascii = true \/ Forall (fun s => encodable s = true) (json_strings v)) ->
  forall level, encodable (encode ensure_ascii level v) = true.
Proof.
  induction v as [|b|l|s|l IH|m IH] using json_ind'; intros Hp Hs level.
  - reflexivity.
  - destruct b; reflexivity.
  - discriminate.
  - cbn [encode]. apply encode_string_encodable.
    destruct Hs as [->|Hs]; [reflexivity|].
    destruct ensure_ascii; [reflexivity|]. inversion Hs; assumption.
  - destruct l as [|x xs]; [reflexivity|].
    cbn [plain] in Hp. rewrite forallb_forall in Hp.
    rewrite List.Forall_forall in IH.
    assert (G : forall y lvl, In y (x :: xs) ->
                encodable (encode ensure_ascii lvl y) = true).
    { intros y lvl Hy. apply IH; [exact Hy|apply Hp, Hy|].
      destruct Hs as [->|Hs]; [left; reflexivity|right].
      apply (Forall_flat_map_in _ _ _ _ Hs Hy). }
    cbn [encode]. rewrite !encodable_app, !newline_indent_encodable.
    rewrite G by (left; reflexivity).
    unfold encodable at 2. rewrite forallb_flat_map; [reflexivity|].
    intros y Hy. fold (encodable (py "," ++ newline_indent (S level)
                                  ++ encode ensure_ascii (S level) y)).
    rewrite !encodable_app, newline_indent_encodable, G by (right; exact Hy).
    reflexivity.
  - destruct m as [|[k x] kxs]; [reflexivity|].
    cbn [plain] in Hp. apply andb_true_iff in Hp as [_ Hp].
    rewrite forallb_forall in Hp. rewrite List.Forall_forall in IH.
    assert (G : forall ky lvl, In ky ((k, x) :: kxs) ->
                encodable (encode_string ensure_ascii (fst ky)) = true /\
                encodable (encode ensure_ascii lvl (snd ky)) = true).
    { intros ky lvl Hy. split.
      - apply encode_string_encodable.
        destruct Hs as [->|Hs]; [reflexivity|].
        destruct ensure_ascii; [reflexivity|].
        cbn [json_strings] in Hs.
        pose proof (Forall_flat_map_in _ _ _ _ Hs Hy) as F.
        inversion F; assumption.
      - apply (IH _ Hy); [apply (Hp _ Hy)|].
        destruct Hs as [->|Hs]; [left; reflexivity|right].
        cbn [json_strings] in Hs.
        pose proof (Forall_flat_map_in _ _ _ _ Hs Hy) as F.
        inversion F; assumption. }
    cbn [encode]. rewrite !encodable_app, !newline_indent_encodable.
    destruct (G (k, x) (S level) (or_introl eq_refl)) as [G1 G2].
    cbn [fst snd] in G1, G2. rewrite G1, G2.
    unfold encodable at 3. rewrite forallb_flat_map; [reflexivity|].
    intros [k' y] Hy.
    fold (encodable (py "," ++ newline_indent (S level)
                     ++ encode_string ensure_ascii k' ++ py ": "
                     ++ encode ensure_ascii (S level) y)).
    destruct (G (k', y) (S level) (or_intror Hy)) as [G3 G4].
    cbn [fst snd] in G3, G4.
    rewrite !encodable_app, newline_indent_encodable, G3, G4. reflexivity.
Qed.

(** The two settings of [ensure_ascii] give the same text when no string
    of the value holds a character above U+007E. *)
Lemma encode_printable (v : json) :
  Forall (fun s => printable s = true) (json_strings v) ->
  forall level, encode true level v = encode false level v.
Proof.
  induction v as [|b|l|s|l IH|m IH] using json_ind'; intros Hs level;
    try reflexivity.
  - cbn [encode]. apply encode_string_printable. inversion Hs; assumption.
  - destruct l as [|x xs]; [reflexivity|].
    rewrite List.Forall_forall in IH.
    assert (G : forall y lvl, In y (x :: xs) ->
                encode true lvl y = encode false lvl y).
    { intros y lvl Hy. apply IH; [exact Hy|].
      apply (Forall_flat_map_in _ _ _ _ Hs Hy). }
    cbn [encode]. rewrite G by (left; reflexivity). do 4 f_equal.
    apply flat_map_ext_in. intros y Hy. rewrite G by (right; exact Hy).
    reflexivity.
  - destruct m as [|[k x] kxs]; [reflexivity|].
    rewrite List.Forall_forall in IH.
    assert (G : forall ky lvl, In ky ((k, x) :: kxs) ->
                encode_string true (fst ky) = encode_string false (fst ky) /\
                encode true lvl (snd ky) = encode false lvl (snd ky)).
    { intros ky lvl Hy. cbn [json_strings] in Hs.
      pose proof (Forall_flat_map_in _ _ _ _ Hs Hy) as F.
      inversion F; subst. split.
      - apply encode_string_printable. assumption.
      - apply (IH _ Hy). assumption. }
    cbn [encode].
    destruct (G (k, x) (S level) (or_introl eq_refl)) as [G1 G2].
    cbn [fst snd] in G1, G2. rewrite G1, G2. do 6 f_equal.
    apply flat_map_ext_in. intros [k' y] Hy.
    destruct (G (k', y) (S level) (or_intror Hy)) as [G3 G4].
    cbn [fst snd] in G3, G4. rewrite G3, G4. reflexivity.
Qed.

(** ** UTF-8 *)

(** Quotients and remainders are named before [lia] is called. *)
Ltac name_quotients :=
  repeat match goal with
         | |- context [N.div ?a ?b] =>
             let q := fresh "q" in set (q := N.div a b) in *; clearbody q
         | |- context [N.modulo ?a ?b] =>
             let r := fresh "r" in set (r := N.modulo a b) in *; clearbody r
         | H : context [N.div ?a ?b] |- _ =>
             let q := fresh "q" in set (q := N.div a b) in *; clearbody q
         | H : context [N.modulo ?a ?b] |- _ =>
             let r := fresh "r" in set (r := N.modulo a b) in *; clearbody r
         end.

Lemma mod_add_small (k m r : N) : (r < m)%N -> ((k * m + r) mod m = r)%N.
Proof.
  intros H. rewrite N.add_comm, N.Div0.mod_add. apply N.mod_small, H.
Qed.

Lemma div_div_mod (c a b : N) :
  a <> 0%N -> b <> 0%N ->
  c = (c / (a * b) * (a * b) + (c / a) mod b * a + c mod a)%N.
Proof.
  intros Ha Hb.
  pose proof (N.div_mod c a Ha) as E1.
  pose proof (N.div_mod (c / a) b Hb) as E2.
  rewrite N.Div0.div_div in E2. name_quotients. nia.
Qed.

(** A character is read back from its UTF-8 bytes. *)
Lemma decode_encode_utf8_char (c : N) (rest : list N) :
  is_scalar c = true ->
  decode_utf8 (encode_utf8_char c ++ rest) = c :: decode_utf8 rest.
Proof.
  intros Hc. unfold encode_utf8_char.
  assert (Hm : forall x, (x mod 0x40 < 0x40)%N) by (intros; apply N.mod_lt; discriminate).
  destruct (N.ltb_spec c 0x80) as [H1|H1].
  { cbn [app decode_utf8]. apply N.ltb_lt in H1. rewrite H1. reflexivity. }
  destruct (N.ltb_spec c 0x800) as [H2|H2].
  { assert (Hq : (c / 0x40 < 0x20)%N) by (apply N.Div0.div_lt_upper_bound; exact H2).
    cbn [app decode_utf8].
    assert (E0 : (0xC0 + c / 0x40 <? 0x80)%N = false) by (apply N.ltb_ge; name_quotients; lia).
    assert (E1 : (0xC0 + c / 0x40 <? 0xE0)%N = true) by (apply N.ltb_lt; name_quotients; lia).
    rewrite E0, E1. f_equal.
    change 0xC0%N with (6 * 0x20)%N. change 0x80%N with (2 * 0x40)%N.
    rewrite !mod_add_small by auto.
    pose proof (N.div_mod c 0x40 ltac:(discriminate)).
    pose proof (Hm c). name_quotients. lia. }
  destruct (N.ltb_spec c 0x10000) as [H3|H3].
  { assert (Hq : (c / 0x1000 < 0x10)%N) by (apply N.Div0.div_lt_upper_bound; exact H3).
    cbn [app decode_utf8].
    assert (E0 : (0xE0 + c / 0x1000 <? 0x80)%N = false) by (apply N.ltb_ge; name_quotients; lia).
    assert (E1 : (0xE0 + c / 0x1000 <? 0xE0)%N = false) by (apply N.ltb_ge; name_quotients; lia).
    assert (E2 : (0xE0 + c / 0x1000 <? 0xF0)%N = true) by (apply N.ltb_lt; name_quotients; lia).
    rewrite E0, E1, E2. f_equal.
    change 0xE0%N with (14 * 0x10)%N. change 0x80%N with (2 * 0x40)%N.
    rewrite !mod_add_small by auto.
    pose proof (div_div_mod c 0x40 0x40 ltac:(discriminate) ltac:(discriminate)) as E.
    change (0x40 * 0x40)%N with 0x1000%N in E.
    pose proof (Hm c). pose proof (Hm (c / 0x40)%N). name_quotients. lia. }
  assert (Hr : (c < 0x110000)%N).
  { unfold is_scalar in Hc.
    destruct (N.ltb_spec c 0xD800), (N.ltb_spec 0xDFFF c), (N.ltb_spec c 0x110000);
      cbn in Hc; try discriminate; lia. }
  assert (Hq : (c / 0x40000 < 0x08)%N) by (apply N.Div0.div_lt_upper_bound; lia).
  cbn [app decode_utf8].
  assert (E0 : (0xF0 + c / 0x40000 <? 0x80)%N = false) by (apply N.ltb_ge; name_quotients; lia).
  assert (E1 : (0xF0 + c / 0x40000 <? 0xE0)%N = false) by (apply N.ltb_ge; name_quotients; lia).
  assert (E2 : (0xF0 + c / 0x40000 <? 0xF0)%N = false) by (apply N.ltb_ge; name_quotients; lia).
  rewrite E0, E1, E2. f_equal.
  change 0xF0%N with (30 * 0x08)%N. change 0x80%N with (2 * 0x40)%N.
  rewrite !mod_add_small by auto.
  pose proof (div_div_mod c 0x40 0x40 ltac:(discriminate) ltac:(discriminate)) as E.
  change (0x40 * 0x40)%N with 0x1000%N in E.
  pose proof (div_div_mod (c / 0x1000) 0x40 1 ltac:(discriminate) ltac:(discriminate)) as E'.
  pose proof (N.div_mod c 0x1000 ltac:(discriminate)) as Ea.
  pose proof (N.div_mod (c / 0x1000) 0x40 ltac:(discriminate)) as Eb.
  rewrite N.Div0.div_div in Eb. change (0x1000 * 0x40)%N with 0x40000%N in Eb.
  pose proof (Hm c). pose proof (Hm (c / 0x40)%N). pose proof (Hm (c / 0x1000)%N).
  name_quotients. lia.
Qed.

(** The text of a file that the program wrote is the text it wrote. *)
Lemma read_text_written (s : str) :
  encodable s = true -> read_text (Text s) = Some s.
Proof.
  intros H. unfold read_text, Text, encode_utf8. f_equal.
  induction s as [|c s IH]; [reflexivity|].
  cbn [encodable forallb] in H. apply andb_true_iff in H as [Hc Hs].
  cbn [flat_map]. rewrite decode_encode_utf8_char, (IH Hs) by exact Hc.
  reflexivity.
Qed.

(** ** Trees *)

Lemma tree_ind' (P : tree -> Prop) :
  (forall name type children,
     match children with Some l => Forall P l | None => True end ->
     P (Node name type children)) ->
  forall t, P t.
Proof.
  intros H. fix IH 1. intros [name type [l|]]; apply H; [|exact I].
  induction l as [|x l IHl]; constructor; [apply IH|exact IHl].
Qed.

Lemma plain_json_of_tree (t : tree) : plain (json_of_tree t) = true.
Proof.
  induction t as [name type children IH] using tree_ind'.
  assert (G : forall l, Forall (fun t => plain (json_of_tree t) = true) l ->
              forallb plain (map json_of_tree l) = true).
  { intros l Hl. induction Hl as [|x l Hx _ IHl]; [reflexivity|].
    cbn [map forallb]. rewrite Hx, IHl. reflexivity. }
  destruct type as [ty|], children as [l|]; cbn [json_of_tree member app plain];
    cbn [map fst snd forallb plain]; rewrite ?(G l IH), ?andb_true_r;
    vm_compute; reflexivity.
Qed.

Lemma json_strings_of_tree (P : str -> Prop) (t : tree) :
  P (py "name") -> P (py "type") -> P (py "children") ->
  Forall P (tree_strings t) -> Forall P (json_strings (json_of_tree t)).
Proof.
  intros Hn Ht Hc.
  induction t as [name type children IH] using tree_ind'. intros H.
  assert (G : forall l, Forall (fun t => Forall P (tree_strings t) ->
                                          Forall P (json_strings (json_of_tree t))) l ->
              Forall P (flat_map tree_strings l) ->
              Forall P (flat_map json_strings (map json_of_tree l))).
  { intros l Hl. induction Hl as [|x l Hx _ IHl]; intros F; [constructor|].
    cbn [flat_map map] in *. apply Forall_app in F as [F1 F2].
    apply Forall_app. split; [apply Hx, F1|apply IHl, F2]. }
  cbn [tree_strings] in H. inversion H as [|? ? Hname H']; subst.
  destruct type as [ty|], children as [l|];
    cbn [json_of_tree member app json_strings flat_map fst snd] in *;
    rewrite ?app_nil_r in *;
    repeat match goal with
           | H : Forall P (_ :: _) |- _ => inversion H; subst; clear H
           | |- Forall P (_ :: _) => constructor
           | |- Forall P [] => constructor
           end; try assumption; apply (G l IH); assumption.
Qed.

(** ** The page *)

(** The marker occurs once in the page, and [replace] puts the text of
    the tree in its place. *)
Lemma replace_template (text : str) :
  replace html_template marker text = page_before ++ text ++ page_after.
Proof. vm_compute. reflexivity. Qed.

Lemma template_marker_once :
  html_template = page_before ++ marker ++ page_after
  /\ count html_template marker = 1.
Proof. split; vm_compute; reflexivity. Qed.

Lemma template_encodable :
  encodable page_before = true /\ encodable page_after = true.
Proof. split; vm_compute; reflexivity. Qed.

(** ** The two artifacts *)

Lemma page_encodable (t : tree) :
  encodable (page_before ++ dumps true (json_of_tree t) ++ page_after) = true.
Proof.
  rewrite !encodable_app. destruct template_encodable as [-> ->].
  unfold dumps. rewrite encode_encodable;
    [reflexivity|apply plain_json_of_tree|left; reflexivity].
Qed.

Lemma json_text_encodable (t : tree) :
  Forall (fun s => encodable s = true) (tree_strings t) ->
  encodable (dumps false (json_of_tree t)) = true.
Proof.
  intros H. unfold dumps. apply encode_encodable; [apply plain_json_of_tree|].
  right. apply json_strings_of_tree; try reflexivity. exact H.
Qed.

(** When both files can be written, [save] leaves the text of the tree
    in the first one and the page around the escaped text in the other. *)
Lemma save_writes (writable : str -> bool) (t : tree)
    (output_json output_html : str) (fs : gmap str file) :
  writable output_json = true ->
  writable output_html = true ->
  Forall (fun s => encodable s = true) (tree_strings t) ->
  save writable t output_json output_html fs
  = (Return t,
     <[output_html := Text (page_before ++ dumps true (json_of_tree t) ++ page_after)]>
       (<[output_json := Text (dumps false (json_of_tree t))]> fs)).
Proof.
  intros Hj Hh Hs.
  unfold save, generate_html_visualization, write_text.
  rewrite Hj, Hh. cbn [negb].
  rewrite (json_text_encodable t Hs), replace_template, page_encodable.
  reflexivity.
Qed.

(** On the dictionary of a tree, the writers of the run are the writers
    on trees. *)
Lemma save_json_of_tree (writable : str -> bool) (t : tree)
    (output_json output_html : str) (fs : gmap str file) :
  save_json writable (json_of_tree t) output_json output_html fs
  = (match fst (save writable t output_json output_html fs) with
     | Return _ => Return (json_of_tree t)
     | Raise e => Raise e
     end,
     snd (save writable t output_json output_html fs)).
Proof.
  unfold save_json, save, generate_html_visualization_json,
    generate_html_visualization.
  destruct (write_text writable output_json _ fs) as [[u|e] fs1]; [|reflexivity].
  destruct (write_text writable output_html _ fs1) as [[u'|e] fs2]; reflexivity.
Qed.

(** C1, as the program has it.  When both files can be written and the
    strings of the tree are text that UTF-8 encodes, the JSON file holds,
    in UTF-8, the indented serialization of the tree with its characters
    kept, and reading the file back gives the tree.  The page holds the
    text of the template with its one marker replaced by the
    serialization of the same tree in which [ensure_ascii] escapes every
    character above U+007E; that text decodes to the tree too, and it is
    the text of the JSON file when no string of the tree holds such a
    character. *)
Theorem artifacts_hold_the_tree (writable : str -> bool) (skill_tree : tree)
    (output_json output_html : str) (fs : gmap str file) :
  writable output_json = true ->
  writable output_html = true ->
  output_json <> output_html ->
  Forall (fun s => encodable s = true) (tree_strings skill_tree) ->
  let outcome := save writable skill_tree output_json output_html fs in
  fst outcome = Return skill_tree
  /\ snd outcome !! output_json
     = Some (Text (dumps false (json_of_tree skill_tree)))
  /\ snd outcome !! output_html
     = Some (Text (page_before ++ dumps true (json_of_tree skill_tree)
                   ++ page_after))
  /\ html_template = page_before ++ marker ++ page_after
  /\ count html_template marker = 1
  /\ load_file (snd outcome) output_json = Some (json_of_tree skill_tree)
  /\ loads (dumps true (json_of_tree skill_tree)) = Some (json_of_tree skill_tree)
  /\ (Forall (fun s => printable s = true) (tree_strings skill_tree) ->
      dumps true (json_of_tree skill_tree) = dumps false (json_of_tree skill_tree)).
Proof.
  intros Hj Hh Hne Hs outcome. subst outcome.
  rewrite (save_writes _ _ _ _ _ Hj Hh Hs). cbn [fst snd].
  assert (Hf : (<[output_html := Text (page_before
                                      ++ dumps true (json_of_tree skill_tree)
                                      ++ page_after)]>
                 (<[output_json := Text (dumps false (json_of_tree skill_tree))]> fs))
               !! output_json
               = Some (Text (dumps false (json_of_tree skill_tree)))).
  { rewrite lookup_insert_ne by congruence. apply lookup_insert_eq. }
  refine (conj eq_refl (conj Hf (conj _ (conj _ (conj _ (conj _ (conj _ _))))))).
  - apply lookup_insert_eq.
  - apply template_marker_once.
  - apply template_marker_once.
  - unfold load_file. rewrite Hf, read_text_written by apply json_text_encodable, Hs.
    apply loads_dumps; [apply plain_json_of_tree|].
    apply List.Forall_forall. reflexivity.
  - apply loads_dumps; [apply plain_json_of_tree|].
    apply json_strings_of_tree; try reflexivity. exact Hs.
  - intros Hp. apply encode_printable.
    apply json_strings_of_tree; try reflexivity. exact Hp.
Qed.

Lemma artifacts_hold_the_tree_witness :
  let t := Node (py "Skills") None
             (Some [Node (py "Soft Skills") None
                      (Some [Node (py "Teamwork") (Some (py "skill")) None])]) in
  let outcome := save (fun _ => true) t (py "skill_tree.json") (py "skill_tree.html") ∅ in
  fst outcome = Return t
  /\ snd outcome !! py "skill_tree.json" = Some (Text (dumps false (json_of_tree t)))
  /\ snd outcome !! py "skill_tree.html"
     = Some (Text (page_before ++ dumps false (json_of_tree t) ++ page_after))
  /\ load_file (snd outcome) (py "skill_tree.json") = Some (json_of_tree t).
Proof.
  intros t outcome.
  assert (Hs : Forall (fun s => encodable s = true) (tree_strings t))
    by (repeat constructor).
  assert (Hp : Forall (fun s => printable s = true) (tree_strings t))
    by (repeat constructor).
  destruct (artifacts_hold_the_tree (fun _ => true) t (py "skill_tree.json")
              (py "skill_tree.html") ∅ eq_refl eq_refl ltac:(discriminate) Hs)
    as (H1 & H2 & H3 & _ & _ & H6 & _ & H7).
  rewrite (H7 Hp) in H3. exact (conj H1 (conj H2 (conj H3 H6))).
Defined.

(** C1 as the specification words it fails on a name with an accent:
    the JSON file keeps the letter, the page holds its escape, and the
    text of the file occurs nowhere in the page. *)
Lemma page_text_differs_from_json_file :
  let t := Node (py "Skills") None
             (Some [Node (py "Soft Skills") None
                      (Some [Node (py "Pédagogie") (Some (py "skill")) None])]) in
  let files := snd (save (fun _ => true) t (py "skill_tree.json")
                      (py "skill_tree.html") ∅) in
  exists json_text page_text,
    files !! py "skill_tree.json" = Some (Text json_text)
    /\ files !! py "skill_tree.html" = Some (Text page_text)
    /\ str_in (pyq "@name@: @Pédagogie@") json_text = true
    /\ str_in (pyq "@name@: @P\u00e9dagogie@") page_text = true
    /\ str_in json_text page_text = false.
Proof.
  intros t files. subst files.
  rewrite save_writes; [|reflexivity|reflexivity|repeat constructor].
  eexists _, _. cbn [snd].
  split; [rewrite lookup_insert_ne by discriminate; apply lookup_insert_eq|].
  split; [apply lookup_insert_eq|].
  split; [vm_compute; reflexivity|].
  split; vm_compute; reflexivity.
Qed.

(** ** Trimming *)

Lemma lstrip_app (a b : str) :
  lstrip (a ++ b) = if forallb is_space a then lstrip b else lstrip a ++ b.
Proof.
  induction a as [|c a IH]; [reflexivity|].
  simpl. destruct (is_space c); [exact IH|reflexivity].
Qed.

Lemma lstrip_spaces (s : str) : forallb is_space s = true -> lstrip s = [].
Proof.
  intros H. rewrite <- (app_nil_r s), lstrip_app, H. reflexivity.
Qed.

Lemma lstrip_head (s : str) (c : N) (r : str) :
  lstrip s = c :: r -> is_space c = false.
Proof.
  induction s as [|d s IH]; simpl; [discriminate|].
  destruct (is_space d) eqn:E; [exact IH|]. intros [= <- _]. exact E.
Qed.

Lemma lstrip_fixed (c : N) (s : str) : is_space c = false -> lstrip (c :: s) = c :: s.
Proof. intros H. simpl. rewrite H. reflexivity. Qed.

Lemma lstrip_suffix (s : str) : exists a, s = a ++ lstrip s /\ forallb is_space a = true.
Proof.
  induction s as [|c s (a & E & Ha)].
  - exists []. split; reflexivity.
  - simpl. destruct (is_space c) eqn:Ec.
    + exists (c :: a). simpl. rewrite Ec, Ha. split; [congruence|reflexivity].
    + exists []. split; reflexivity.
Qed.

Lemma rstrip_snoc_space (s : str) (c : N) :
  is_space c = true -> rstrip (s ++ [c]) = rstrip s.
Proof.
  intros H. unfold rstrip. rewrite rev_app_distr. simpl. rewrite H. reflexivity.
Qed.

Lemma rstrip_snoc (s : str) (c : N) :
  is_space c = false -> rstrip (s ++ [c]) = s ++ [c].
Proof.
  intros H. unfold rstrip. rewrite rev_app_distr. simpl. rewrite H.
  simpl. rewrite rev_involutive. reflexivity.
Qed.

Lemma rstrip_prefix (s : str) : exists b, s = rstrip s ++ b /\ forallb is_space b = true.
Proof.
  unfold rstrip. destruct (lstrip_suffix (rev s)) as (a & E & Ha).
  exists (rev a). split.
  - rewrite <- rev_app_distr, <- E, rev_involutive. reflexivity.
  - rewrite forallb_forall in *. intros x Hx. apply Ha, in_rev, Hx.
Qed.

Lemma rstrip_last (s r : str) (c : N) :
  rstrip s = r ++ [c] -> is_space c = false.
Proof.
  unfold rstrip. intros H. apply (f_equal (@rev N)) in H.
  rewrite rev_involutive, rev_app_distr in H. simpl in H.
  apply lstrip_head in H. exact H.
Qed.

(** Trimming a text that ends with a new line is trimming the text. *)
Lemma strip_snoc_space (s : str) (c : N) :
  is_space c = true -> strip (s ++ [c]) = strip s.
Proof.
  intros H. unfold strip. rewrite lstrip_app.
  destruct (forallb is_space s) eqn:E.
  - rewrite (lstrip_spaces s E). simpl. rewrite H. reflexivity.
  - apply rstrip_snoc_space, H.
Qed.

Lemma trimmed_spec (s : str) :
  trimmed s = true <->
  (forall c r, s = c :: r -> is_space c = false)
  /\ (forall r c, s = r ++ [c] -> is_space c = false).
Proof.
  destruct s as [|c s]; cbn [trimmed].
  - split; [|reflexivity]. intros _. split; [discriminate|].
    intros [|] ?; discriminate.
  - rewrite andb_true_iff, !negb_true_iff. split.
    + intros [H1 H2]. split; [intros ? ? [= <- _]; exact H1|].
      intros r d E. rewrite E in H2. rewrite List.last_last in H2. exact H2.
    + intros [H1 H2]. split; [apply (H1 c s eq_refl)|].
      destruct (exists_last (l := c :: s) ltac:(discriminate)) as (r & d & E).
      rewrite E, List.last_last. apply (H2 r d E).
Qed.

Lemma strip_trimmed (s : str) : trimmed (strip s) = true.
Proof.
  apply trimmed_spec. unfold strip. split.
  - intros c r E. destruct (rstrip_prefix (lstrip s)) as (b & Eb & _).
    rewrite E in Eb. simpl in Eb. apply lstrip_head in Eb. exact Eb.
  - intros r c E. apply rstrip_last in E. exact E.
Qed.

Lemma strip_fixed (s : str) : trimmed s = true -> strip s = s.
Proof.
  intros H. apply trimmed_spec in H as [H1 H2]. unfold strip.
  destruct s as [|c s]; [reflexivity|].
  rewrite lstrip_fixed by (apply (H1 c s eq_refl)).
  destruct (exists_last (l := c :: s) ltac:(discriminate)) as (r & d & E).
  rewrite E. apply rstrip_snoc, (H2 r d E).
Qed.

(** ** The pages of a document *)

Lemma read_pages_texts (r : run) (text : str) :
  read_pages r text = text ++ flat_map (fun t => t ++ [0x0A%N]) (page_texts r).
Proof.
  revert text. induction r as [|[[|c t]|] rest IH|e]; intros text;
    cbn [read_pages page_texts truthy flat_map];
    rewrite ?app_nil_r; try reflexivity; try apply IH.
  rewrite IH. change (py _) with [0x0A%N]. rewrite <- !app_assoc. reflexivity.
Qed.

Lemma page_texts_filled (r : run) : Forall (fun t => truthy t = true) (page_texts r).
Proof.
  induction r as [|[[|c t]|] rest IH|e]; simpl; try constructor; auto.
Qed.

Lemma flat_map_newline_join (t : str) (ts : list str) :
  flat_map (fun t => t ++ [0x0A%N]) (t :: ts) = join [0x0A%N] (t :: ts) ++ [0x0A%N].
Proof.
  revert t. induction ts as [|u ts IH]; intros t.
  - simpl. rewrite app_nil_r. reflexivity.
  - change (flat_map (fun t => t ++ [0x0A%N]) (t :: u :: ts))
      with ((t ++ [0x0A%N]) ++ flat_map (fun t => t ++ [0x0A%N]) (u :: ts)).
    rewrite IH. change (join [0x0A%N] (t :: u :: ts))
      with (t ++ [0x0A%N] ++ join [0x0A%N] (u :: ts)).
    rewrite <- !app_assoc. reflexivity.
Qed.

(** The text that a backend gives: empty when no page has text. *)
Lemma read_pages_truthy (r : run) :
  truthy (read_pages r []) = truthy (page_texts r).
Proof.
  rewrite read_pages_texts. simpl.
  pose proof (page_texts_filled r) as F.
  destruct (page_texts r) as [|t ts]; [reflexivity|].
  inversion F as [|? ? Ht _]; subst. destruct t; [discriminate|reflexivity].
Qed.

Lemma read_pages_joined (r : run) (t : str) (ts : list str) :
  page_texts r = t :: ts ->
  strip (read_pages r []) = strip (join [0x0A%N] (t :: ts)).
Proof.
  intros H. rewrite read_pages_texts, H. cbn [app].
  rewrite flat_map_newline_join. apply strip_snoc_space. reflexivity.
Qed.

(** X1. When [pdfplumber] is installed and gives the text of at least one
    page, the result is the texts of its pages that have one, up to the
    page where it raised if it did, joined by new lines and trimmed;
    [PyPDF2] is not consulted. *)
Theorem extract_joins_pdfplumber_pages (w : pdf_world) (pdf_path : str)
    (t : str) (ts : list str) :
  pdfplumber w = true ->
  page_texts (pdfplumber_open w pdf_path) = t :: ts ->
  extract_text_from_pdf w pdf_path = Return (strip (join [0x0A%N] (t :: ts))).
Proof.
  intros Hm Hp.
  assert (T : truthy (read_pages (pdfplumber_open w pdf_path) []) = true)
    by (rewrite read_pages_truthy, Hp; reflexivity).
  unfold extract_text_from_pdf. rewrite Hm. cbv zeta. cbn [negb andb].
  rewrite T. cbn [negb andb]. rewrite T. cbn [negb].
  rewrite (read_pages_joined _ _ _ Hp). reflexivity.
Qed.

(** X2. [PyPDF2] is read when it is installed and [pdfplumber] is not, or
    gave no text; the result is then the texts of its pages, joined and
    trimmed in the same way. *)
Theorem extract_falls_back_to_pypdf2 (w : pdf_world) (pdf_path : str)
    (t : str) (ts : list str) :
  pdfplumber w = false \/ page_texts (pdfplumber_open w pdf_path) = [] ->
  PyPDF2 w = true ->
  page_texts (PyPDF2_open w pdf_path) = t :: ts ->
  extract_text_from_pdf w pdf_path = Return (strip (join [0x0A%N] (t :: ts))).
Proof.
  intros Hm Hi Hp. unfold extract_text_from_pdf. rewrite Hi.
  rewrite andb_false_r, andb_true_r.
  assert (E : (if pdfplumber w then read_pages (pdfplumber_open w pdf_path) []
               else []) = []).
  { destruct Hm as [->|Hm]; [reflexivity|].
    destruct (pdfplumber w); [|reflexivity].
    rewrite read_pages_texts, Hm. reflexivity. }
  assert (T : truthy (read_pages (PyPDF2_open w pdf_path) []) = true)
    by (rewrite read_pages_truthy, Hp; reflexivity).
  cbv zeta. rewrite E. cbn [truthy negb]. rewrite T. cbn [negb].
  rewrite (read_pages_joined _ _ _ Hp). reflexivity.
Qed.

(** X3. The call raises in two cases only: [ImportError] when neither
    module is installed, and [Exception] when no installed backend gave
    the text of a page.  What a backend raises never leaves the
    function. *)
Theorem extract_raises_exactly (w : pdf_world) (pdf_path : str) (e : exn) :
  extract_text_from_pdf w pdf_path = Raise e <->
  (e = ImportError /\ pdfplumber w = false /\ PyPDF2 w = false)
  \/ (e = Exception
      /\ (pdfplumber w = true \/ PyPDF2 w = true)
      /\ (pdfplumber w = true -> page_texts (pdfplumber_open w pdf_path) = [])
      /\ (PyPDF2 w = true -> page_texts (PyPDF2_open w pdf_path) = [])).
Proof.
  unfold extract_text_from_pdf.
  destruct (pdfplumber w) eqn:Hm, (PyPDF2 w) eqn:Hi; cbn [negb andb];
    rewrite ?andb_true_r, ?andb_false_r.
  - destruct (truthy (read_pages (pdfplumber_open w pdf_path) [])) eqn:E1;
      cbn [negb].
    + rewrite E1. cbn [negb]. rewrite read_pages_truthy in E1. split; [discriminate|].
      intros [(_ & [=] & _)|(_ & _ & H & _)]. rewrite H in E1; [discriminate|reflexivity].
    + rewrite read_pages_truthy in E1.
      destruct (read_pages (pdfplumber_open w pdf_path) []) eqn:R;
        [|rewrite read_pages_texts in R;
          destruct (page_texts (pdfplumber_open w pdf_path)); discriminate].
      destruct (truthy (read_pages (PyPDF2_open w pdf_path) [])) eqn:E2; cbn [negb].
      * rewrite read_pages_truthy in E2. split; [discriminate|].
        intros [(_ & [=] & _)|(_ & _ & _ & H)]. rewrite H in E2; [discriminate|reflexivity].
      * rewrite read_pages_truthy in E2. split.
        -- intros [= <-]. right. split; [reflexivity|]. split; [auto|].
           split; intros _.
           ++ destruct (page_texts (pdfplumber_open w pdf_path)); [reflexivity|discriminate].
           ++ destruct (page_texts (PyPDF2_open w pdf_path)); [reflexivity|discriminate].
        -- intros [(_ & [=] & _)|(-> & _)]. reflexivity.
  - destruct (truthy (read_pages (pdfplumber_open w pdf_path) [])) eqn:E1;
      cbn [negb]; rewrite read_pages_truthy in E1.
    + split; [discriminate|].
      intros [(_ & [=] & _)|(_ & _ & H & _)]. rewrite H in E1; [discriminate|reflexivity].
    + split.
      * intros [= <-]. right. split; [reflexivity|]. split; [auto|].
        split; [intros _|discriminate].
        destruct (page_texts (pdfplumber_open w pdf_path)); [reflexivity|discriminate].
      * intros [(_ & [=] & _)|(-> & _)]. reflexivity.
  - cbn [truthy negb].
    destruct (truthy (read_pages (PyPDF2_open w pdf_path) [])) eqn:E2;
      cbn [negb]; rewrite read_pages_truthy in E2.
    + split; [discriminate|].
      intros [(_ & _ & [=])|(_ & _ & _ & H)]. rewrite H in E2; [discriminate|reflexivity].
    + split.
      * intros [= <-]. right. split; [reflexivity|]. split; [auto|].
        split; [discriminate|intros _].
        destruct (page_texts (PyPDF2_open w pdf_path)); [reflexivity|discriminate].
      * intros [(_ & _ & [=])|(-> & _)]. reflexivity.
  - split.
    + intros [= <-]. left. auto.
    + intros [(-> & _)|(_ & [[=]|[=]] & _)]. reflexivity.
Qed.

(** X4. A text that the call returns has no white space at its two ends,
    and trimming it again changes nothing. *)
Theorem extract_result_is_trimmed (w : pdf_world) (pdf_path t : str) :
  extract_text_from_pdf w pdf_path = Return t ->
  trimmed t = true /\ strip t = t.
Proof.
  intros H. pose proof (extract_text_cases w pdf_path) as C. rewrite H in C.
  destruct C as (text & _ & ->).
  split; [apply strip_trimmed|apply strip_fixed, strip_trimmed].
Qed.

(** ** The shape of the tree *)

Section ShapeFacts.
Context {U : UnicodeData}.

Lemma tree_leaves_leaves (tag : string) (l : list str) :
  flat_map tree_leaves (leaves tag l) = map (fun skill => (skill, Some (py tag))) l.
Proof. induction l as [|x l IH]; [reflexivity|]. simpl. rewrite IH. reflexivity. Qed.

Lemma tree_leaves_group (label tag : string) (f : option (list str)) :
  flat_map tree_leaves (group label tag f)
  = map (fun skill => (skill, Some (py tag)))
      (match f with Some l => l | None => [] end).
Proof.
  destruct f as [[|x l]|]; try reflexivity.
  cbn [group flat_map tree_leaves]. rewrite app_nil_r. apply tree_leaves_leaves.
Qed.

Lemma tree_leaves_categories (t : list (str * list str)) :
  flat_map tree_leaves (map category_node (List.filter (fun entry => truthy (snd entry)) t))
  = map (fun skill => (skill, Some (py "skill"))) (flat_map snd t).
Proof.
  induction t as [|[k [|x l]] t IH]; [reflexivity|exact IH|].
  cbn [List.filter snd truthy map flat_map]. rewrite IH, map_app.
  f_equal. unfold category_node. cbn [tree_leaves snd].
  apply tree_leaves_leaves.
Qed.

(** X5. The leaves of the tree are the skills of the record, all of them
    and nothing else, in the order of the fields: the technical
    categories, the soft skills and the domains with the type ["skill"],
    then the certifications with the type ["certification"].  A skill
    listed twice is a leaf twice. *)
Theorem build_keeps_every_skill (d : skill_data) :
  tree_leaves (build_skill_tree d) = record_leaves d.
Proof.
  unfold record_leaves. destruct (skills d) as [s|] eqn:Hs.
  - rewrite (build_skill_tree_shape d s Hs). cbn [tree_leaves].
    rewrite !flat_map_app, !tree_leaves_group, !map_app, <- !app_assoc.
    f_equal. unfold filled_categories.
    destruct (technical s) as [t|]; [|reflexivity].
    rewrite <- tree_leaves_categories.
    destruct (List.filter _ t); [reflexivity|].
    cbn [flat_map tree_leaves]. rewrite app_nil_r. reflexivity.
  - unfold build_skill_tree. rewrite Hs. reflexivity.
Qed.

Lemma proper_leaves (tag : string) (l : list str) : forallb proper (leaves tag l) = true.
Proof. induction l as [|x l IH]; [reflexivity|exact IH]. Qed.

Lemma proper_group (label tag : string) (f : option (list str)) :
  forallb proper (group label tag f) = true.
Proof.
  destruct f as [[|x l]|]; try reflexivity.
  cbn [group forallb proper]. rewrite andb_true_r.
  change (leaves tag (x :: l)) with (Node x (Some (py tag)) None :: leaves tag l).
  cbn [truthy andb forallb proper]. apply proper_leaves.
Qed.

Lemma proper_categories (t : list (str * list str)) :
  forallb proper (map category_node (List.filter (fun entry => truthy (snd entry)) t)) = true.
Proof.
  induction t as [|[k [|x l]] t IH]; [reflexivity|exact IH|].
  cbn [List.filter snd truthy map forallb]. rewrite IH, andb_true_r.
  unfold category_node. cbn [snd proper].
  change (leaves "skill" (x :: l))
    with (Node x (Some (py "skill")) None :: leaves "skill" l).
  cbn [truthy andb forallb proper]. apply proper_leaves.
Qed.

Lemma in_order_group (label tag : string) (f : option (list str))
    (names rest : list str) :
  in_order names rest = true ->
  existsb (str_eqb (py label)) rest = false ->
  in_order (map node_name (group label tag f) ++ names) (py label :: rest) = true.
Proof.
  intros H Hn. destruct f as [[|x l]|]; cbn [group map node_name app].
  - destruct names as [|y names]; [reflexivity|]. cbn [in_order].
    destruct (str_eqb y (py label)) eqn:E; [|exact H].
    apply str_eqb_eq in E as ->. apply in_order_tail in H as H'.
    clear -H Hn. exfalso. revert H Hn.
    induction rest as [|z rest IH]; cbn [in_order existsb]; [discriminate|].
    destruct (str_eqb (py label) z); [discriminate|]. cbn [orb]. apply IH.
  - cbn [in_order]. rewrite str_eqb_refl. exact H.
  - destruct names as [|y names]; [reflexivity|]. cbn [in_order].
    destruct (str_eqb y (py label)) eqn:E; [|exact H].
    apply str_eqb_eq in E as ->. exfalso. revert H Hn. clear.
    induction rest as [|z rest IH]; cbn [in_order existsb]; [discriminate|].
    destruct (str_eqb (py label) z); [discriminate|]. cbn [orb]. apply IH.
Qed.

(** X6. The root is ["Skills"]; its children are some of the four
    branches "Technical Skills", "Soft Skills", "Domain Expertise" and
    "Certifications", each at most once and in that order; every node
    below the root either has a type and no children, or has no type and
    at least one child: no branch of the tree is empty. *)
Theorem build_has_no_empty_branch (d : skill_data) :
  exists branches,
    build_skill_tree d = Node (py "Skills") None (Some branches)
    /\ in_order (map node_name branches)
         [py "Technical Skills"; py "Soft Skills"; py "Domain Expertise";
          py "Certifications"] = true
    /\ forallb proper branches = true.
Proof.
  destruct (skills d) as [s|] eqn:Hs.
  - eexists. split; [apply (build_skill_tree_shape d s Hs)|]. split.
    + rewrite !map_app.
      assert (G : in_order
                    (map node_name (group "Soft Skills" "skill" (soft_skills s))
                     ++ map node_name (group "Domain Expertise" "skill" (domains s))
                     ++ map node_name (group "Certifications" "certification"
                                         (certifications s)))
                    [py "Soft Skills"; py "Domain Expertise"; py "Certifications"]
                  = true).
      { apply in_order_group; [|reflexivity].
        apply in_order_group; [|reflexivity].
        rewrite <- (app_nil_r (map node_name (group _ _ (certifications s)))).
        apply in_order_group; reflexivity. }
      destruct (filled_categories s); cbn [map node_name app in_order].
      * revert G. generalize (map node_name (group "Soft Skills" "skill" (soft_skills s))
                     ++ map node_name (group "Domain Expertise" "skill" (domains s))
                     ++ map node_name (group "Certifications" "certification"
                                         (certifications s))).
        intros [|y names] G; [reflexivity|]. cbn [in_order].
        destruct (str_eqb y (py "Technical Skills")) eqn:E; [|exact G].
        apply str_eqb_eq in E as ->. revert G. vm_compute. discriminate.
      * rewrite str_eqb_refl. exact G.
    + rewrite !forallb_app, !proper_group, !andb_true_r.
      unfold filled_categories. destruct (technical s) as [t|]; [|reflexivity].
      pose proof (proper_categories t) as P.
      destruct (List.filter _ t) as [|e cats]; [reflexivity|].
      cbn [forallb proper truthy map andb]. cbn [map forallb] in P.
      rewrite P. reflexivity.
  - exists []. unfold build_skill_tree. rewrite Hs. split; [reflexivity|].
    split; reflexivity.
Qed.

End ShapeFacts.

(** ** The builder on the decoded answer *)

Lemma traverse_strings (l : list json) (names : list str) :
  traverse string_of_json l = Some names -> l = map JString names.
Proof.
  revert names. induction l as [|x l IH]; intros names; simpl.
  - intros [= <-]. reflexivity.
  - destruct x as [| | |s| |]; try discriminate. simpl.
    destruct (traverse string_of_json l) as [bs|]; [|discriminate].
    intros [= <-]. simpl. rewrite (IH bs eq_refl). reflexivity.
Qed.

Lemma strings_of_json_array (x : json) (names : list str) :
  strings_of_json x = Some names -> x = JArray (map JString names).
Proof.
  destruct x; try discriminate. simpl. intros H.
  rewrite (traverse_strings _ _ H). reflexivity.
Qed.

(** A list field of the decoded ["skills"] dictionary. *)
Lemma list_field_json (sm : list (str * json)) (key : string)
    (f : option (list str)) :
  field sm key strings_of_json = Some f ->
  exists x,
    get (JObject sm) (py key) JNull = Return x /\
    match f with
    | Some (y :: l) =>
        x = JArray (map JString (y :: l)) /\ dict_get sm (py key) = Some x
    | _ => truth x = false
    end.
Proof.
  unfold field, get. destruct (dict_get sm (py key)) as [x|].
  - destruct (strings_of_json x) as [names|] eqn:E; [|discriminate].
    intros [= <-]. exists x. split; [reflexivity|].
    apply strings_of_json_array in E as ->.
    destruct names; [reflexivity|]. split; reflexivity.
  - intros [= <-]. exists JNull. split; reflexivity.
Qed.

Lemma json_of_leaves (tag : string) (l : list str) :
  map (fun skill => JObject [(py "name", skill); (py "type", JString (py tag))])
    (map JString l)
  = map json_of_tree (leaves tag l).
Proof. unfold leaves. rewrite !map_map. reflexivity. Qed.

Section BuilderJsonFacts.
Context {U : UnicodeData}.

(** The loop over the technical categories, on decoded lists of names. *)
Lemma technical_fold_json (tm : list (str * json)) (t : list (str * list str))
    (acc : list json) :
  traverse (fun kv => match strings_of_json (snd kv) with
                      | Some a => Some (fst kv, a)
                      | None => None
                      end) tm = Some t ->
  fold_left
    (fun tech_children entry =>
       let* tech_children := tech_children in
       let (category, skills) := (entry : str * json) in
       if truth skills then
         let* skills := iterate skills in
         Return (tech_children
                 ++ [JObject [(py "name", JString (category_name category));
                              (py "children",
                               JArray (map (fun skill =>
                                              JObject [(py "name", skill);
                                                       (py "type", JString (py "skill"))])
                                         skills))]])
       else Return tech_children)
    tm (Return acc)
  = Return (acc ++ map json_of_tree
                     (map category_node
                        (List.filter (fun entry => truthy (snd entry)) t))).
Proof.
  revert t acc. induction tm as [|[k x] tm IH]; intros t acc.
  - intros [= <-]. simpl. rewrite app_nil_r. reflexivity.
  - cbn [traverse snd fst].
    destruct (strings_of_json x) as [names|] eqn:E; [|discriminate].
    destruct (traverse _ tm) as [t'|] eqn:T; [|discriminate].
    intros [= <-]. apply strings_of_json_array in E as ->.
    cbn [fold_left bind]. destruct names as [|y names].
    + cbn [truth truthy map]. rewrite (IH t' acc eq_refl). reflexivity.
    + cbn [truth truthy map iterate bind].
      rewrite (IH t' _ eq_refl). cbn [List.filter snd truthy map].
      rewrite <- app_assoc. do 2 f_equal. cbn [app]. f_equal.
      unfold category_node. cbn [json_of_tree member app fst snd].
      do 5 f_equal. exact (json_of_leaves "skill" (y :: names)).
Qed.

(** One of the three branches made from a list of names. *)
Lemma list_branch_json (sm : list (str * json)) (key label tag : string)
    (f : option (list str)) (x : json) (children : list json) :
  match f with
  | Some (y :: l) =>
      x = JArray (map JString (y :: l)) /\ dict_get sm (py key) = Some x
  | _ => truth x = false
  end ->
  (if truth x then
     let* field := subscript (JObject sm) (py key) in
     let* field := iterate field in
     Return (children
             ++ [JObject [(py "name", JString (py label));
                          (py "children",
                           JArray (map (fun skill =>
                                          JObject [(py "name", skill);
                                                   (py "type", JString (py tag))])
                                     field))]])
   else Return children)
  = Return (children ++ map json_of_tree (group label tag f)).
Proof.
  intros H. destruct f as [[|y l]|].
  - rewrite H. simpl. rewrite app_nil_r. reflexivity.
  - destruct H as [-> Hk]. unfold subscript. rewrite Hk.
    cbn [truth truthy map bind iterate group json_of_tree member app].
    do 8 f_equal. exact (json_of_leaves tag (y :: l)).
  - rewrite H. simpl. rewrite app_nil_r. reflexivity.
Qed.

(** On a dictionary that reads as a record, the tree is the one built
    from the record. *)
Lemma build_json_of_record (v : json) (d : skill_data) :
  skill_data_of_json v = Some d ->
  build_skill_tree_json v = Return (json_of_tree (build_skill_tree d)).
Proof.
  intros H. destruct v as [| | | | |m]; try discriminate.
  unfold skill_data_of_json in H.
  destruct (field m "skills" skills_of_json) as [so|] eqn:Fs; [|discriminate].
  destruct (field m "experience_levels" _) as [eo|]; [|discriminate].
  destruct (field m "skill_relationships" _) as [ro|]; [|discriminate].
  injection H as <-. unfold field in Fs.
  destruct (dict_get m (py "skills")) as [sv|] eqn:Es.
  - destruct (skills_of_json sv) as [s|] eqn:Ss; [|discriminate].
    injection Fs as <-. destruct sv as [| | | | |sm]; try discriminate.
    rewrite (build_skill_tree_shape {| skills := Some s; experience_levels := eo;
                                       skill_relationships := ro |} s eq_refl).
    unfold skills_of_json in Ss.
    destruct (field sm "technical" _) as [to|] eqn:Ft; [|discriminate].
    destruct (field sm "soft_skills" _) as [fo|] eqn:Fo; [|discriminate].
    destruct (field sm "domains" _) as [fd|] eqn:Fd; [|discriminate].
    destruct (field sm "certifications" _) as [fc|] eqn:Fc; [|discriminate].
    injection Ss as <-. cbn [soft_skills domains certifications].
    unfold filled_categories. cbn [technical].
    assert (Gs : get (JObject m) (py "skills") (JObject []) = Return (JObject sm))
      by (unfold get; rewrite Es; reflexivity).
    assert (Ks : subscript (JObject m) (py "skills") = Return (JObject sm))
      by (unfold subscript; rewrite Es; reflexivity).
    destruct (list_field_json _ _ _ Fo) as (xo & Go & Ho).
    destruct (list_field_json _ _ _ Fd) as (xd & Gd & Hd).
    destruct (list_field_json _ _ _ Fc) as (xc & Gc & Hc).
    unfold build_skill_tree_json. rewrite !Gs, !Ks. cbn [bind].
    rewrite Go, Gd, Gc. cbn [bind].
    assert (Fin : forall tech : list tree,
              (let* children := Return (map json_of_tree tech) in
               let* children :=
                 (if truth xo then
                    let* field := subscript (JObject sm) (py "soft_skills") in
                    let* field := iterate field in
                    Return (children
                            ++ [JObject [(py "name", JString (py "Soft Skills"));
                                         (py "children",
                                          JArray (map (fun skill =>
                                                         JObject [(py "name", skill);
                                                                  (py "type", JString (py "skill"))])
                                                    field))]])
                  else Return children) in
               let* children :=
                 (if truth xd then
                    let* field := subscript (JObject sm) (py "domains") in
                    let* field := iterate field in
                    Return (children
                            ++ [JObject [(py "name", JString (py "Domain Expertise"));
                                         (py "children",
                                          JArray (map (fun skill =>
                                                         JObject [(py "name", skill);
                                                                  (py "type", JString (py "skill"))])
                                                    field))]])
                  else Return children) in
               let* children :=
                 (if truth xc then
                    let* field := subscript (JObject sm) (py "certifications") in
                    let* field := iterate field in
                    Return (children
                            ++ [JObject [(py "name", JString (py "Certifications"));
                                         (py "children",
                                          JArray (map (fun skill =>
                                                         JObject [(py "name", skill);
                                                                  (py "type", JString (py "certification"))])
                                                    field))]])
                  else Return children) in
               Return (JObject [(py "name", JString (py "Skills"));
                                (py "children", JArray children)]))
              = Return (json_of_tree
                          (Node (py "Skills") None
                             (Some (tech
                                    ++ group "Soft Skills" "skill" fo
                                    ++ group "Domain Expertise" "skill" fd
                                    ++ group "Certifications" "certification" fc))))).
    { intros tech. cbn [bind].
      rewrite (list_branch_json sm "soft_skills" "Soft Skills" "skill" fo xo _ Ho).
      cbn [bind].
      rewrite (list_branch_json sm "domains" "Domain Expertise" "skill" fd xd _ Hd).
      cbn [bind].
      rewrite (list_branch_json sm "certifications" "Certifications" "certification"
                 fc xc _ Hc).
      cbn [bind json_of_tree member app]. rewrite !map_app, <- !app_assoc.
      reflexivity. }
    unfold field in Ft.
    destruct (dict_get sm (py "technical")) as [tv|] eqn:Et.
    + destruct (members_of_json strings_of_json tv) as [t|] eqn:Mt; [|discriminate].
      injection Ft as <-. destruct tv as [| | | | |tm]; try discriminate.
      cbn [members_of_json] in Mt.
      cbn [contains]. rewrite Et. cbn [bind]. unfold subscript at 1. rewrite Et.
      cbn [bind items]. rewrite (technical_fold_json tm t [] Mt). cbn [bind app].
      destruct (List.filter _ t) as [|e cats].
      * cbn [map truthy]. exact (Fin []).
      * cbn [map truthy]. exact (Fin [Node (py "Technical Skills") None
                                        (Some (map category_node (e :: cats)))]).
    + injection Ft as <-. cbn [contains]. rewrite Et. cbn [bind]. exact (Fin []).
  - injection Fs as <-. unfold build_skill_tree_json, get. rewrite Es.
    reflexivity.
Qed.

(** X7. On an answer that has the shape of a skill record, whatever other
    keys it holds, the function returns the dictionary of the tree that
    is built from the record: the record is a faithful reading of the
    dictionary. *)
Theorem build_json_on_a_record (v : json) (d : skill_data) :
  skill_data_of_json v = Some d ->
  build_skill_tree_json v = Return (json_of_tree (build_skill_tree d)).
Proof. apply build_json_of_record. Qed.

Lemma bind_raises {A B} (r : outcome A) (f : A -> outcome B) (e : exn) :
  bind r f = Raise e ->
  r = Raise e \/ exists a, r = Return a /\ f a = Raise e.
Proof.
  destruct r as [a|e']; simpl; [right; exists a; auto|].
  intros [= ->]. left. reflexivity.
Qed.

Lemma iterate_raises (v : json) (e : exn) : iterate v = Raise e -> e = TypeError.
Proof. destruct v; simpl; congruence. Qed.

Lemma subscript_raises_on_dict (m : list (str * json)) (k : str) (x : json) :
  dict_get m k = Some x -> subscript (JObject m) k = Return x.
Proof. intros H. unfold subscript. rewrite H. reflexivity. Qed.

Lemma technical_fold_raises (entries : list (str * json))
    (acc : outcome (list json)) (e : exn) :
  fold_left
    (fun tech_children entry =>
       let* tech_children := tech_children in
       let (category, skills) := (entry : str * json) in
       if truth skills then
         let* skills := iterate skills in
         Return (tech_children
                 ++ [JObject [(py "name", JString (category_name category));
                              (py "children",
                               JArray (map (fun skill =>
                                              JObject [(py "name", skill);
                                                       (py "type", JString (py "skill"))])
                                         skills))]])
       else Return tech_children)
    entries acc = Raise e ->
  acc = Raise e \/ e = TypeError.
Proof.
  revert acc. induction entries as [|[k x] entries IH]; intros acc; cbn [fold_left].
  - auto.
  - intros H. apply IH in H as [H|H]; [|auto].
    apply bind_raises in H as [H|(a & -> & H)]; [auto|].
    destruct (truth x); [|discriminate].
    apply bind_raises in H as [H|(l & _ & H)]; [|discriminate].
    right. apply (iterate_raises _ _ H).
Qed.

(** A branch made from a list raises only when its value cannot be
    iterated. *)
Lemma list_branch_raises (sm : list (str * json)) (key label tag : string)
    (x : json) (children : list json) (e : exn) :
  get (JObject sm) (py key) JNull = Return x ->
  (if truth x then
     let* field := subscript (JObject sm) (py key) in
     let* field := iterate field in
     Return (children
             ++ [JObject [(py "name", JString (py label));
                          (py "children",
                           JArray (map (fun skill =>
                                          JObject [(py "name", skill);
                                                   (py "type", JString (py tag))])
                                     field))]])
   else Return children) = Raise e ->
  e = TypeError.
Proof.
  unfold get. intros [= <-]. destruct (dict_get sm (py key)) as [x|] eqn:E.
  - rewrite (subscript_raises_on_dict _ _ _ E). cbn [bind].
    destruct (truth x); [|discriminate]. intros H.
    apply bind_raises in H as [H|(l & _ & H)]; [|discriminate].
    apply (iterate_raises _ _ H).
  - discriminate.
Qed.

(** X8. Whatever the decoded answer is, the function raises nothing but
    [AttributeError] and [TypeError]: every subscript is guarded by a
    test of the key, so that no [KeyError] is raised.  On every answer
    that is not a dictionary it does raise, and raises
    [AttributeError]. *)
Theorem build_json_raises_only (v : json) :
  (forall e, build_skill_tree_json v = Raise e ->
             e = AttributeError \/ e = TypeError)
  /\ ((forall m, v <> JObject m) ->
      build_skill_tree_json v = Raise AttributeError).
Proof.
  split.
  2:{ intros Hv. destruct v; try reflexivity.
      exfalso. apply (Hv _ eq_refl). }
  intros e H.
  destruct v as [| | | | |m]; try (injection H as <-; auto).
  unfold build_skill_tree_json in H.
  destruct (dict_get m (py "skills")) as [sv|] eqn:Es.
  - assert (Gs : get (JObject m) (py "skills") (JObject []) = Return sv)
      by (unfold get; rewrite Es; reflexivity).
    rewrite !Gs, !(subscript_raises_on_dict _ _ _ Es) in H. cbn [bind] in H.
    destruct sv as [|b|literal|s|l|sm]; cbn [contains bind] in H;
      try (injection H as <-; auto).
    + (* a string *)
      destruct (str_in _ s); cbn [subscript get bind] in H; inversion H; auto.
    + (* a list *)
      destruct (existsb _ l); cbn [subscript get bind] in H; inversion H; auto.
    + (* a dictionary *)
      apply bind_raises in H as [H|(children & Hc & H)].
      * destruct (dict_get sm (py "technical")) as [tv|] eqn:Et; [|discriminate].
        rewrite (subscript_raises_on_dict _ _ _ Et) in H. cbn [bind] in H.
        apply bind_raises in H as [H|(entries & _ & H)].
        { destruct tv; try discriminate; injection H as <-; auto. }
        apply bind_raises in H as [H|(tech & _ & H)].
        { apply technical_fold_raises in H as [H|H]; [discriminate|auto]. }
        destruct (truthy tech); discriminate.
      * destruct (get (JObject sm) (py "soft_skills") JNull) as [xo|] eqn:Go;
          [|discriminate].
        cbn [bind] in H. apply bind_raises in H as [H|(c1 & _ & H)].
        { right. apply (list_branch_raises _ _ _ _ _ _ _ Go H). }
        destruct (get (JObject sm) (py "domains") JNull) as [xd|] eqn:Gd;
          [|discriminate].
        cbn [bind] in H. apply bind_raises in H as [H|(c2 & _ & H)].
        { right. apply (list_branch_raises _ _ _ _ _ _ _ Gd H). }
        destruct (get (JObject sm) (py "certifications") JNull) as [xc|] eqn:Gc;
          [|discriminate].
        cbn [bind] in H. apply bind_raises in H as [H|(c3 & _ & H)].
        { right. apply (list_branch_raises _ _ _ _ _ _ _ Gc H). }
        discriminate.
  - assert (Gs : get (JObject m) (py "skills") (JObject []) = Return (JObject []))
      by (unfold get; rewrite Es; reflexivity).
    rewrite !Gs in H. cbn [bind contains get dict_get truth] in H. discriminate.
Qed.

(** X9. A string where a list of names is expected is read character by
    character: the branch has one leaf for each character of the
    string. *)
Theorem build_json_spells_a_string (c : N) (s : str) :
  build_skill_tree_json
    (JObject [(py "skills", JObject [(py "soft_skills", JString (c :: s))])])
  = Return
      (JObject
         [(py "name", JString (py "Skills"));
          (py "children",
           JArray
             [JObject
                [(py "name", JString (py "Soft Skills"));
                 (py "children",
                  JArray (map (fun c => JObject [(py "name", JString [c]);
                                                 (py "type", JString (py "skill"))])
                            (c :: s)))]])]).
Proof.
  unfold build_skill_tree_json. cbv -[map]. do 9 f_equal.
  rewrite map_map. reflexivity.
Qed.

(** X10. Of the decoded answer the function reads the key ["skills"] and
    nothing else: what the answer holds under ["experience_levels"],
    under ["skill_relationships"] or under any other key, well formed or
    not, changes neither the tree nor the exception. *)
Theorem build_json_reads_only_skills (m m' : list (str * json)) :
  dict_get m (py "skills") = dict_get m' (py "skills") ->
  build_skill_tree_json (JObject m) = build_skill_tree_json (JObject m').
Proof.
  intros H. unfold build_skill_tree_json, get, subscript. rewrite H. reflexivity.
Qed.

End BuilderJsonFacts.

(** ** The record and its dictionary *)

Lemma traverse_map {A B} (f : A -> option B) (g : B -> A) (l : list B) :
  (forall b, f (g b) = Some b) -> traverse f (map g l) = Some l.
Proof.
  intros H. induction l as [|b l IH]; [reflexivity|].
  simpl. rewrite H, IH. reflexivity.
Qed.

Lemma strings_of_json_of_strings (l : list str) :
  strings_of_json (json_of_strings l) = Some l.
Proof. apply (traverse_map string_of_json JString). reflexivity. Qed.

Lemma members_of_json_map {A} (read : json -> option A) (write : A -> json)
    (m : list (str * A)) :
  (forall a, read (write a) = Some a) ->
  members_of_json read (JObject (map (fun kv => (fst kv, write (snd kv))) m)) = Some m.
Proof.
  intros H. unfold members_of_json.
  apply (traverse_map _ (fun kv : str * A => (fst kv, write (snd kv)))).
  intros [k a]. cbn [fst snd]. rewrite H. reflexivity.
Qed.

Lemma level_of_json_of_level (l : level) : level_of_json (json_of_level l) = Some l.
Proof. destruct l; vm_compute; reflexivity. Qed.

Lemma relationship_of_json_of_relationship (r : relationship) :
  relationship_of_json (json_of_relationship r) = Some r.
Proof.
  destruct r as [p c k]. unfold json_of_relationship, relationship_of_json.
  cbn [parent child kind].
  change (dict_get _ (py "parent")) with (Some (JString p)).
  change (dict_get _ (py "child")) with (Some (JString c)).
  destruct k; vm_compute; reflexivity.
Qed.

Lemma skills_of_json_of_skills (s : skills_record) :
  skills_of_json (json_of_skills s) = Some s.
Proof.
  destruct s as [t so do ce]. unfold skills_of_json, json_of_skills, field.
  cbn [technical soft_skills domains certifications].
  assert (Ht : forall t : list (str * list str),
             members_of_json strings_of_json
               (JObject (map (fun kv => (fst kv, json_of_strings (snd kv))) t))
             = Some t)
    by (intros; apply members_of_json_map, strings_of_json_of_strings).
  destruct t as [t|], so as [so|], do as [do|], ce as [ce|];
    cbn [member app dict_get];
    repeat match goal with
           | |- context [str_eqb (py ?a) (py ?b)] =>
               let r := eval vm_compute in (str_eqb (py a) (py b)) in
               change (str_eqb (py a) (py b)) with r; cbn iota
           end;
    rewrite ?Ht, ?strings_of_json_of_strings; reflexivity.
Qed.

(** The dictionary of a record is read back as the record. *)
Lemma skill_data_of_json_of_skill_data (d : skill_data) :
  skill_data_of_json (json_of_skill_data d) = Some d.
Proof.
  destruct d as [s e r]. unfold skill_data_of_json, json_of_skill_data, field.
  cbn [skills experience_levels skill_relationships].
  assert (He : forall e : list (str * level),
             members_of_json level_of_json
               (JObject (map (fun kv => (fst kv, json_of_level (snd kv))) e))
             = Some e)
    by (intros; apply members_of_json_map, level_of_json_of_level).
  assert (Hr : forall r : list relationship,
             traverse relationship_of_json (map json_of_relationship r) = Some r)
    by (intros; apply traverse_map, relationship_of_json_of_relationship).
  destruct s as [s|], e as [e|], r as [r|];
    cbn [member app dict_get];
    repeat match goal with
           | |- context [str_eqb (py ?a) (py ?b)] =>
               let r := eval vm_compute in (str_eqb (py a) (py b)) in
               change (str_eqb (py a) (py b)) with r; cbn iota
           end;
    rewrite ?skills_of_json_of_skills, ?He, ?Hr; reflexivity.
Qed.

(** ** The keyword fallback on plain text *)

Section FallbackFacts.
Context {U : UnicodeData}.
Hypothesis HU : basic_latin U.

(** The list of a category, whether the table has the category or not. *)
Lemma found_skills_table (resume_text category : str) :
  found_skills resume_text category
  = match dict_get tech_keywords category with
    | Some keywords => List.filter (mentions resume_text) keywords
    | None => []
    end.
Proof.
  unfold found_skills. rewrite fallback_record. cbn [skills technical].
  rewrite dict_get_map. destruct (dict_get tech_keywords category); reflexivity.
Qed.

(** X11. The matching does not look at the case of the letters: two ASCII
    texts that differ only in the case of their letters give the same
    record. *)
Theorem fallback_ignores_case (text1 text2 : str) :
  is_ascii text1 = true ->
  is_ascii text2 = true ->
  map ascii_lower text1 = map ascii_lower text2 ->
  _fallback_skill_extraction text1 = _fallback_skill_extraction text2.
Proof.
  intros H1 H2 E. rewrite !fallback_record. unfold mentions.
  rewrite (lower_ascii HU text1 H1), (lower_ascii HU text2 H2), E. reflexivity.
Qed.

(** X12. Text around an ASCII text takes no skill away: every keyword
    found in the text is found in any text that holds it, whatever
    stands before and after it. *)
Theorem fallback_is_monotone (before text after category keyword : str) :
  is_ascii text = true ->
  In keyword (found_skills text category) ->
  In keyword (found_skills (before ++ text ++ after) category).
Proof.
  intros Ha. rewrite !found_skills_table.
  destruct (dict_get tech_keywords category) as [keywords|]; [|auto].
  rewrite !filter_In. intros [Hin Hm]. split; [exact Hin|].
  unfold mentions in *. rewrite (lower_ascii HU text Ha) in Hm.
  apply str_in_spec in Hm as (x & y & E).
  destruct (do_lower_around HU [] before text after Ha) as (a' & b' & E').
  unfold lower at 2. rewrite E', E. apply str_in_spec.
  exists (a' ++ x), (y ++ b'). rewrite <- !app_assoc. reflexivity.
Qed.

Lemma category_node_label (label key : string) (l : list str) :
  @category_name basic_latin_ucd (py key) = py label ->
  is_ascii (py key) = true ->
  map category_node (List.filter (fun entry => truthy (snd entry)) [(py key, l)])
  = group label "skill" (Some l).
Proof.
  intros E Ha. destruct l as [|x l]; [reflexivity|].
  cbn [List.filter snd truthy map group]. unfold category_node. cbn [fst snd].
  rewrite (category_name_ascii _ HU Ha), E. reflexivity.
Qed.

(** The tree of the keyword fallback. *)
Lemma fallback_tree_shape (resume_text : str) :
  let categories :=
    group "Programming Languages" "skill"
      (Some (found_skills resume_text (py "programming_languages")))
    ++ group "Frameworks" "skill"
         (Some (found_skills resume_text (py "frameworks")))
    ++ group "Tools" "skill" (Some (found_skills resume_text (py "tools"))) in
  build_skill_tree (_fallback_skill_extraction resume_text)
  = Node (py "Skills") None
      (Some match categories with
            | [] => []
            | _ :: _ => [Node (py "Technical Skills") None (Some categories)]
            end).
Proof.
  intros categories.
  rewrite (build_skill_tree_shape _ _ (f_equal skills (fallback_record resume_text))).
  cbn [skills soft_skills domains certifications].
  change (group _ _ (Some [])) with (@nil tree).
  rewrite !app_nil_r. unfold filled_categories. cbn [technical].
  subst categories. rewrite !found_skills_table.
  change (dict_get tech_keywords (py "programming_languages"))
    with (Some (snd (nth 0 tech_keywords ([], [])))).
  change (dict_get tech_keywords (py "frameworks"))
    with (Some (snd (nth 1 tech_keywords ([], [])))).
  change (dict_get tech_keywords (py "tools"))
    with (Some (snd (nth 2 tech_keywords ([], [])))).
  unfold tech_keywords. cbn [map nth fst snd].
  pose proof (category_node_label "Programming Languages" "programming_languages")
    as C1.
  pose proof (category_node_label "Frameworks" "frameworks") as C2.
  pose proof (category_node_label "Tools" "tools") as C3.
  match goal with
  | |- context [List.filter ?f [(?k1, ?l1); (?k2, ?l2); (?k3, ?l3)]] =>
      assert (A : map category_node (List.filter f [(k1, l1); (k2, l2); (k3, l3)])
                  = group "Programming Languages" "skill" (Some l1)
                    ++ group "Frameworks" "skill" (Some l2)
                    ++ group "Tools" "skill" (Some l3));
      [change [(k1, l1); (k2, l2); (k3, l3)]
         with ([(k1, l1)] ++ [(k2, l2)] ++ [(k3, l3)]);
       rewrite !List.filter_app, !map_app;
       rewrite (C1 l1), (C2 l2), (C3 l3) by reflexivity; reflexivity
      |rewrite <- A; destruct (List.filter f [(k1, l1); (k2, l2); (k3, l3)]);
       reflexivity]
  end.
Qed.

(** X13. The tree of the keyword fallback: below the root there is the one
    branch "Technical Skills", or nothing when no keyword was found;
    below it the categories "Programming Languages", "Frameworks" and
    "Tools", in that order, each with the keywords found for it and
    absent when none was. *)
Theorem fallback_tree (resume_text : str) :
  let categories :=
    group "Programming Languages" "skill"
      (Some (found_skills resume_text (py "programming_languages")))
    ++ group "Frameworks" "skill"
         (Some (found_skills resume_text (py "frameworks")))
    ++ group "Tools" "skill" (Some (found_skills resume_text (py "tools"))) in
  build_skill_tree (_fallback_skill_extraction resume_text)
  = Node (py "Skills") None
      (Some match categories with
            | [] => []
            | _ :: _ => [Node (py "Technical Skills") None (Some categories)]
            end).
Proof. apply fallback_tree_shape. Qed.

End FallbackFacts.

(** ** A run without a credential *)

Lemma printable_encodable (s : str) : printable s = true -> encodable s = true.
Proof.
  unfold printable, encodable. rewrite !forallb_forall. intros H c Hc.
  specialize (H c Hc). apply N.leb_le in H. unfold is_scalar.
  apply orb_true_iff. left. apply N.ltb_lt. lia.
Qed.

Lemma tech_keywords_printable (category : str) (keywords : list str) :
  dict_get tech_keywords category = Some keywords ->
  Forall (fun s => printable s = true) keywords.
Proof.
  unfold tech_keywords. cbn [dict_get].
  repeat match goal with
         | |- context [str_eqb ?k category] => destruct (str_eqb k category)
         end; intros [= <-]; apply List.Forall_forall;
    apply forallb_forall; vm_compute; reflexivity.
Qed.

Section PlainRun.
Context {U : UnicodeData}.
Hypothesis HU : basic_latin U.

Lemma found_skills_printable (resume_text category : str) :
  Forall (fun s => printable s = true) (found_skills resume_text category).
Proof.
  rewrite found_skills_table.
  destruct (dict_get tech_keywords category) as [keywords|] eqn:E; [|constructor].
  apply tech_keywords_printable in E. rewrite List.Forall_forall in *.
  intros x Hx. apply filter_In in Hx as [Hx _]. apply E, Hx.
Qed.

Lemma group_printable (label tag : string) (l : list str) :
  printable (py label) = true -> printable (py tag) = true ->
  Forall (fun s => printable s = true) l ->
  Forall (fun s => printable s = true) (flat_map tree_strings (group label tag (Some l))).
Proof.
  intros Hl Ht H. destruct l as [|x l]; [constructor|].
  cbn [group flat_map tree_strings app]. rewrite app_nil_r.
  constructor; [exact Hl|]. revert H. generalize (x :: l). clear x l.
  intros l H. induction H as [|x l Hx _ IH]; [constructor|].
  cbn [leaves map flat_map tree_strings app]. constructor; [exact Hx|].
  constructor; [exact Ht|]. exact IH.
Qed.

(** The strings of the tree of the fallback are printable ASCII. *)
Lemma fallback_tree_printable (resume_text : str) :
  Forall (fun s => printable s = true)
    (tree_strings (build_skill_tree (_fallback_skill_extraction resume_text))).
Proof.
  rewrite (fallback_tree_shape HU). cbv zeta.
  assert (G : Forall (fun s => printable s = true)
                (flat_map tree_strings
                   (group "Programming Languages" "skill"
                      (Some (found_skills resume_text (py "programming_languages")))
                    ++ group "Frameworks" "skill"
                         (Some (found_skills resume_text (py "frameworks")))
                    ++ group "Tools" "skill"
                         (Some (found_skills resume_text (py "tools")))))).
  { rewrite !flat_map_app, !Forall_app.
    repeat split; apply group_printable; try reflexivity;
      apply found_skills_printable. }
  revert G. generalize (group "Programming Languages" "skill"
                      (Some (found_skills resume_text (py "programming_languages")))
                    ++ group "Frameworks" "skill"
                         (Some (found_skills resume_text (py "frameworks")))
                    ++ group "Tools" "skill"
                         (Some (found_skills resume_text (py "tools")))).
  intros [|c cats] G.
  - repeat constructor.
  - cbn [tree_strings flat_map app]. rewrite app_nil_r.
    constructor; [reflexivity|]. constructor; [reflexivity|]. exact G.
Qed.

(** X14. A run without a credential, on a document that gives text and
    with two files that can be written, never fails after the
    extraction: it returns the tree of the keyword fallback, as the
    dictionary that the builder makes, and leaves the two artifacts.  The
    names of that tree are keywords of the table, so that the page holds,
    in the place of the marker, the very text of the JSON file, and that
    text is read back as the tree. *)
Theorem run_without_credential (w : world) (api_key : option str)
    (pdf_path output_json output_html : str) (fs : gmap str file)
    (resume_text : str) :
  has_credential api_key = false ->
  extract_text_from_pdf (pdf w) pdf_path = Return resume_text ->
  writable w output_json = true ->
  writable w output_html = true ->
  let skill_tree := build_skill_tree (_fallback_skill_extraction resume_text) in
  let text := dumps false (json_of_tree skill_tree) in
  generate_skill_tree w api_key pdf_path output_json output_html fs
  = (Return (json_of_tree skill_tree),
     <[output_html := Text (page_before ++ text ++ page_after)]>
       (<[output_json := Text text]> fs))
  /\ loads text = Some (json_of_tree skill_tree).
Proof.
  intros Hk He Hj Hh skill_tree text. subst text.
  pose proof (fallback_tree_printable resume_text) as Hp. fold skill_tree in Hp.
  split.
  - unfold generate_skill_tree, classify. rewrite He, Hk.
    rewrite (build_json_of_record _ _ (skill_data_of_json_of_skill_data _)).
    fold skill_tree. rewrite save_json_of_tree.
    rewrite (save_writes _ _ _ _ _ Hj Hh); cbn [fst snd].
    + unfold dumps. rewrite (encode_printable (json_of_tree skill_tree)); [reflexivity|].
      apply json_strings_of_tree; try reflexivity. exact Hp.
    + rewrite List.Forall_forall in *. intros s Hs.
      apply printable_encodable, Hp, Hs.
  - apply loads_dumps; [apply plain_json_of_tree|].
    apply List.Forall_forall. reflexivity.
Qed.

End PlainRun.

(** ** The remote analysis *)

Section RemoteFacts.
Context {U : UnicodeData}.

(** X15. The analysis raises in two cases only, both in the handler of
    the exception of the JSON decoder, which prints [content[:500]].
    When the call itself or the decoding of the body of the answer
    raised that exception, nothing was assigned to [content] and
    [UnboundLocalError] leaves the function.  When the content of the
    answer is a text that is not JSON once its fences are removed and
    its first 500 characters hold a code point that the standard output
    does not encode, the print raises [UnicodeEncodeError].  In every
    other case the function returns a value. *)
Theorem analyze_raises_exactly (remote : remote_outcome) (resume_text : str)
    (e : exn) :
  analyze_resume_with_xai remote resume_text = Raise e <->
  (e = UnboundLocalError /\ request remote = Raise JSONDecodeError)
  \/ (e = UnicodeEncodeError
      /\ exists result content,
           request remote = Return result
           /\ message_content result = Return (JString content)
           /\ loads (strip_fences content) = None
           /\ encodable (firstn 500 (strip_fences content)) = false).
Proof.
  unfold analyze_resume_with_xai, try_block.
  destruct (request remote) as [result|e1] eqn:R.
  - destruct (message_content result) as [content|e2] eqn:M.
    + destruct content as [| | |s| |];
        try (split; [discriminate|];
             intros [(_ & [=])|(_ & r & c & [= <-] & Hm & _)];
             rewrite M in Hm; discriminate).
      cbv zeta. destruct (loads (strip_fences s)) as [v|] eqn:L.
      * split; [discriminate|].
        intros [(_ & [=])|(_ & r & c & [= <-] & Hm & Hl & _)].
        rewrite M in Hm. injection Hm as <-. rewrite L in Hl. discriminate.
      * rewrite print_content.
        destruct (encodable (firstn 500 (strip_fences s))) eqn:P; cbn [bind].
        -- split; [discriminate|].
           intros [(_ & [=])|(_ & r & c & [= <-] & Hm & _ & Hp)].
           rewrite M in Hm. injection Hm as <-. rewrite P in Hp. discriminate.
        -- split.
           ++ intros [= <-]. right. split; [reflexivity|]. exists result, s. auto.
           ++ intros [(_ & [=])|(-> & _)]. reflexivity.
    + pose proof (message_content_raises _ _ M) as Hne.
      split.
      * destruct e2; try discriminate. contradiction.
      * intros [(_ & [=])|(_ & r & c & [= <-] & Hm & _)].
        rewrite M in Hm. discriminate.
  - split.
    + destruct e1; try discriminate. intros [= <-]. left. split; reflexivity.
    + intros [[-> [= ->]]|(_ & r & c & [=] & _)]. reflexivity.
Qed.

Lemma lacks_content_default (result : json) :
  lacks_content result -> message_content result = Return (JString (py "{}")).
Proof.
  intros [rm H|rm cm rest H1 H2|rm cm rest mm H1 H2 H3];
    unfold message_content, get at 1; rewrite ?H, ?H1; cbn [bind first_item].
  - reflexivity.
  - unfold get at 1. rewrite H2. reflexivity.
  - unfold get at 1. rewrite H2. cbn [bind]. unfold get. rewrite H3. reflexivity.
Qed.

(** X16. An answer of success in which a key on the way to the content is
    missing is not a failure: the defaults of the three [get] lead to
    the text of an empty dictionary, which is decoded and returned in
    the place of the skill record, and the tree built from it is the
    root without children.  The keyword fallback does not run. *)
Theorem answer_without_content_gives_empty_tree (api_key : option str)
    (status_code : N) (result : json) (resume_text : str) :
  has_credential api_key = true ->
  is_error_status status_code = false ->
  lacks_content result ->
  classify api_key (Answer status_code (Return result)) resume_text
  = Return (JObject [])
  /\ build_skill_tree_json (JObject [])
     = Return (json_of_tree (Node (py "Skills") None (Some []))).
Proof.
  intros Hk Hs Hl. split; [|reflexivity].
  unfold classify, analyze_resume_with_xai, try_block, request.
  rewrite Hk, Hs, (lacks_content_default _ Hl). reflexivity.
Qed.

(** X17. Nothing compares the decoded answer with the shape of a skill
    record, and the tree is built outside the [try] block: an answer
    whose content is JSON but not a dictionary is returned by the
    analysis, and the builder then raises [AttributeError]. *)
Theorem answer_that_is_no_dictionary_raises (api_key : option str)
    (status_code : N) (result : json) (content resume_text : str) (v : json) :
  has_credential api_key = true ->
  is_error_status status_code = false ->
  message_content result = Return (JString content) ->
  loads (strip_fences content) = Some v ->
  (forall m, v <> JObject m) ->
  classify api_key (Answer status_code (Return result)) resume_text = Return v
  /\ build_skill_tree_json v = Raise AttributeError.
Proof.
  intros Hk Hs Hm Hl Hv. split.
  - unfold classify, analyze_resume_with_xai, try_block, request.
    rewrite Hk, Hs, Hm, Hl. reflexivity.
  - destruct v; try reflexivity. exfalso. apply (Hv _ eq_refl).
Qed.

End RemoteFacts.

(** ** Lines and fences *)

Lemma split_filled (s : str) (sep : N) : exists piece pieces, split s sep = piece :: pieces.
Proof.
  induction s as [|c s (p & ps & E)]; simpl; [eauto|].
  rewrite E. destruct (c =? sep)%N; eauto.
Qed.

Lemma split_app_sep (x y : str) (sep : N) :
  split (x ++ sep :: y) sep = split x sep ++ split y sep.
Proof.
  induction x as [|c x IH].
  - simpl. rewrite N.eqb_refl.
    destruct (split_filled y sep) as (p & ps & ->). reflexivity.
  - cbn [app split]. rewrite IH.
    destruct (split_filled x sep) as (p & ps & ->). cbn [app].
    destruct (c =? sep)%N; reflexivity.
Qed.

Lemma split_one_line (s : str) (sep : N) :
  forallb (fun c => negb (c =? sep)%N) s = true -> split s sep = [s].
Proof.
  induction s as [|c s IH]; [reflexivity|]. cbn [forallb split].
  intros H. apply andb_true_iff in H as [Hc Hs]. rewrite (IH Hs).
  apply negb_true_iff in Hc. rewrite Hc. reflexivity.
Qed.

Lemma join_split (s : str) (sep : N) : join [sep] (split s sep) = s.
Proof.
  induction s as [|c s IH]; [reflexivity|]. cbn [split].
  destruct (split_filled s sep) as (p & ps & E). rewrite E in *.
  destruct (N.eqb_spec c sep) as [->|_].
  - change (join [sep] ([] :: p :: ps)) with ([] ++ [sep] ++ join [sep] (p :: ps)).
    rewrite IH. reflexivity.
  - destruct ps as [|q ps]; cbn [join] in *; rewrite <- IH; reflexivity.
Qed.

Lemma filter_all {A} (f : A -> bool) (l : list A) :
  forallb f l = true -> List.filter f l = l.
Proof.
  induction l as [|x l IH]; [reflexivity|]. cbn [forallb List.filter].
  intros H. apply andb_true_iff in H as [-> Hl]. rewrite (IH Hl). reflexivity.
Qed.

(** A line that opens a fence still starts with the fence once trimmed. *)
Lemma strip_fence_line (tag : str) :
  startswith (strip (fence ++ tag)) fence = true.
Proof.
  unfold strip. change (lstrip (fence ++ tag)) with (fence ++ tag).
  unfold rstrip. rewrite rev_app_distr, lstrip_app.
  destruct (forallb is_space (rev tag)); [reflexivity|].
  rewrite rev_app_distr. change (rev (rev fence)) with fence.
  apply startswith_app.
Qed.

Lemma fenced_trimmed (tag body : str) : trimmed (fenced tag body) = true.
Proof.
  apply trimmed_spec. split.
  - intros c r [= <- _]. reflexivity.
  - intros r c E. unfold fenced in E.
    change fence with ([0x60; 0x60] ++ [0x60])%N in E at 2.
    rewrite !app_assoc in E. apply app_inj_tail in E as [_ <-]. reflexivity.
Qed.

Lemma strip_fences_fenced (tag body : str) :
  forallb (fun c => negb (c =? 0x0A)%N) tag = true ->
  forallb (fun line => negb (startswith (strip line) fence)) (split body 0x0A%N) = true ->
  strip_fences (fenced tag body) = body.
Proof.
  intros Ht Hb. unfold strip_fences.
  rewrite (strip_fixed _ (fenced_trimmed tag body)).
  unfold fenced at 1. rewrite startswith_app.
  unfold fenced. rewrite app_assoc. cbn [app]. rewrite !split_app_sep.
  rewrite (split_one_line (fence ++ tag)).
  2:{ rewrite forallb_app, Ht. reflexivity. }
  change (split fence 0x0A%N) with [fence].
  rewrite !List.filter_app. cbn [List.filter].
  rewrite strip_fence_line. change (startswith (strip fence) fence) with true.
  cbn [negb app]. rewrite (filter_all _ _ Hb), app_nil_r. apply join_split.
Qed.

Section FencedFacts.
Context {U : UnicodeData}.

(** X18. An answer whose content is wrapped in a fenced block, with or
    without a language tag after the first fence, is unwrapped: when no
    line of the body starts with a fence, the text that is decoded is
    the body, and the analysis returns what the body decodes to. *)
Theorem fenced_answer_is_unwrapped (tag body : str) :
  forallb (fun c => negb (c =? 0x0A)%N) tag = true ->
  forallb (fun line => negb (startswith (strip line) fence)) (split body 0x0A%N) = true ->
  strip_fences (fenced tag body) = body
  /\ (forall api_key status_code result resume_text v,
        has_credential api_key = true ->
        is_error_status status_code = false ->
        message_content result = Return (JString (fenced tag body)) ->
        loads body = Some v ->
        classify api_key (Answer status_code (Return result)) resume_text
        = Return v).
Proof.
  intros Ht Hb. pose proof (strip_fences_fenced tag body Ht Hb) as E.
  split; [exact E|].
  intros api_key status_code result resume_text v Hk Hs Hm Hl.
  unfold classify, analyze_resume_with_xai, try_block, request.
  rewrite Hk, Hs, Hm, E, Hl. reflexivity.
Qed.

End FencedFacts.

(** ** The files of a run *)

Lemma write_text_frame (writable : str -> bool) (path text p : str)
    (fs : gmap str file) :
  p <> path -> snd (write_text writable path text fs) !! p = fs !! p.
Proof.
  intros H. unfold write_text.
  destruct (writable path); cbn [negb snd]; [|reflexivity].
  destruct (encodable text); cbn [snd]; apply lookup_insert_ne; congruence.
Qed.

Lemma save_frame (writable : str -> bool) (t : tree)
    (output_json output_html p : str) (fs : gmap str file) :
  p <> output_json -> p <> output_html ->
  snd (save writable t output_json output_html fs) !! p = fs !! p.
Proof.
  intros Hj Hh. unfold save, generate_html_visualization.
  pose proof (write_text_frame writable output_json
                (dumps false (json_of_tree t)) p fs Hj) as F1.
  destruct (write_text writable output_json _ fs) as [[u|e] fs1]; [|exact F1].
  pose proof (write_text_frame writable output_html
                (replace html_template marker (dumps true (json_of_tree t)))
                p fs1 Hh) as F2.
  destruct (write_text writable output_html _ fs1) as [[u'|e] fs2];
    cbn [snd] in *; congruence.
Qed.

Section RunFrame.
Context {U : UnicodeData}.

Lemma save_json_frame (writable : str -> bool) (skill_tree : json)
    (output_json output_html p : str) (fs : gmap str file) :
  p <> output_json -> p <> output_html ->
  snd (save_json writable skill_tree output_json output_html fs) !! p = fs !! p.
Proof.
  intros Hj Hh. unfold save_json, generate_html_visualization_json.
  pose proof (write_text_frame writable output_json
                (dumps false skill_tree) p fs Hj) as F1.
  destruct (write_text writable output_json _ fs) as [[u|e] fs1]; [|exact F1].
  pose proof (write_text_frame writable output_html
                (replace html_template marker (dumps true skill_tree))
                p fs1 Hh) as F2.
  destruct (write_text writable output_html _ fs1) as [[u'|e] fs2];
    cbn [snd] in *; congruence.
Qed.

Lemma generate_skill_tree_frame (w : world) (api_key : option str)
    (pdf_path output_json output_html p : str) (fs : gmap str file) :
  p <> output_json -> p <> output_html ->
  snd (generate_skill_tree w api_key pdf_path output_json output_html fs) !! p
  = fs !! p.
Proof.
  unfold generate_skill_tree. intros Hj Hh.
  destruct (extract_text_from_pdf (pdf w) pdf_path) as [text|e]; [|reflexivity].
  destruct (classify api_key (remote w) text) as [answer|e]; [|reflexivity].
  destruct (build_skill_tree_json answer) as [skill_tree|e]; [|reflexivity].
  apply save_json_frame; assumption.
Qed.

(** X19. A run touches no file but the two that it was asked to write:
    whatever the document, the answer of the remote service and the tree
    are, whether the run returns or raises, and wherever it stops, every
    other path holds after the run what it held before. *)
Theorem run_touches_two_files (w : world) (api_key : option str)
    (pdf_path output_json output_html p : str) (fs : gmap str file) :
  p <> output_json -> p <> output_html ->
  snd (generate_skill_tree w api_key pdf_path output_json output_html fs) !! p
  = fs !! p.
Proof. apply generate_skill_tree_frame. Qed.

End RunFrame.

Lemma scan_once_markup (depth : nat) (rest : str) :
  scan_once depth (0x3C%N :: rest) = None.
Proof. destruct depth; reflexivity. Qed.

(** A text that starts with the bracket of a tag is not JSON. *)
Lemma loads_markup (rest : str) : loads (0x3C%N :: rest) = None.
Proof.
  unfold loads. cbn [startswith N.eqb Pos.eqb andb skip_ws is_json_ws orb].
  rewrite scan_once_markup. reflexivity.
Qed.

Lemma page_starts_with_a_tag : exists r, page_before = 0x3C%N :: r.
Proof. exists (tl page_before). vm_compute. reflexivity. Qed.

(** X20. When the two artifacts are given the same path, the JSON file is
    written and then replaced: the file that is left is the page, and
    it cannot be read back as JSON. *)
Theorem same_path_keeps_the_page (writable : str -> bool) (skill_tree : tree)
    (path : str) (fs : gmap str file) :
  writable path = true ->
  Forall (fun s => encodable s = true) (tree_strings skill_tree) ->
  let page := page_before ++ dumps true (json_of_tree skill_tree) ++ page_after in
  save writable skill_tree path path fs
  = (Return skill_tree, <[path := Text page]> fs)
  /\ load_file (<[path := Text page]> fs) path = None.
Proof.
  intros Hw Hs page. split.
  - rewrite (save_writes _ _ _ _ _ Hw Hw Hs). fold page.
    rewrite insert_insert_eq. reflexivity.
  - unfold load_file. rewrite lookup_insert_eq.
    rewrite read_text_written by apply page_encodable.
    subst page. destruct page_starts_with_a_tag as [r ->]. apply loads_markup.
Qed.

(** ** The strings of a value in its text *)

Lemma flat_map_split {A B} (f : A -> list B) (l : list A) (x : A) :
  In x l -> exists pre post, flat_map f l = pre ++ f x ++ post.
Proof.
  intros H. apply in_split in H as (l1 & l2 & ->).
  exists (flat_map f l1), (flat_map f l2). rewrite flat_map_app. reflexivity.
Qed.

(** The text of an element inside the text of its list. *)
Lemma encode_holds_item (ensure_ascii : bool) (level : nat) (l : list json)
    (x : json) :
  In x l ->
  exists a b,
    encode ensure_ascii level (JArray l)
    = a ++ encode ensure_ascii (S level) x ++ b.
Proof.
  destruct l as [|x0 xs]; [intros []|]. intros [<-|H]; cbn [encode].
  - eexists (py "[" ++ newline_indent (S level)), _.
    rewrite <- !app_assoc. reflexivity.
  - destruct (flat_map_split
                (fun y => py "," ++ newline_indent (S level)
                          ++ encode ensure_ascii (S level) y) xs x H)
      as (pre & post & ->).
    eexists (py "[" ++ newline_indent (S level) ++ encode ensure_ascii (S level) x0
             ++ pre ++ py "," ++ newline_indent (S level)), _.
    rewrite <- !app_assoc. reflexivity.
Qed.

(** The texts of a key and of its value inside the text of their
    dictionary. *)
Lemma encode_holds_member (ensure_ascii : bool) (level : nat)
    (m : list (str * json)) (k : str) (x : json) :
  In (k, x) m ->
  exists a b,
    encode ensure_ascii level (JObject m)
    = a ++ encode_string ensure_ascii k ++ py ": "
        ++ encode ensure_ascii (S level) x ++ b.
Proof.
  destruct m as [|[k0 x0] kxs]; [intros []|]. intros [[= <- <-]|H]; cbn [encode].
  - eexists (py "{" ++ newline_indent (S level)), _.
    rewrite <- !app_assoc. reflexivity.
  - destruct (flat_map_split
                (fun ky : str * json =>
                   let '(k', y) := ky in
                   py "," ++ newline_indent (S level)
                   ++ encode_string ensure_ascii k' ++ py ": "
                   ++ encode ensure_ascii (S level) y) kxs (k, x) H)
      as (pre & post & ->).
    eexists (py "{" ++ newline_indent (S level)
             ++ encode_string ensure_ascii k0 ++ py ": "
             ++ encode ensure_ascii (S level) x0
             ++ pre ++ py "," ++ newline_indent (S level)), _.
    rewrite <- !app_assoc. reflexivity.
Qed.

(** Every string of a value without a number stands in the text of the
    value as a JSON string. *)
Lemma encode_holds_string (ensure_ascii : bool) (v : json) (s : str) :
  plain v = true ->
  In s (json_strings v) ->
  forall level, exists a b,
    encode ensure_ascii level v = a ++ encode_string ensure_ascii s ++ b.
Proof.
  induction v as [|b|l|s0|l IH|m IH] using json_ind'; intros Hp Hs level;
    try contradiction; try discriminate.
  - destruct Hs as [<-|[]]. exists [], []. cbn [encode app].
    rewrite app_nil_r. reflexivity.
  - cbn [json_strings] in Hs. apply in_flat_map in Hs as (x & Hx & Hs).
    cbn [plain] in Hp. rewrite forallb_forall in Hp.
    rewrite List.Forall_forall in IH.
    destruct (IH x Hx (Hp x Hx) Hs (S level)) as (a & b & E).
    destruct (encode_holds_item ensure_ascii level l x Hx) as (a' & b' & ->).
    rewrite E. exists (a' ++ a), (b ++ b'). rewrite <- !app_assoc. reflexivity.
  - cbn [json_strings] in Hs. apply in_flat_map in Hs as ([k x] & Hx & Hs).
    cbn [plain] in Hp. apply andb_true_iff in Hp as [_ Hp].
    rewrite forallb_forall in Hp. rewrite List.Forall_forall in IH.
    destruct (encode_holds_member ensure_ascii level m k x Hx) as (a' & b' & ->).
    cbn [fst snd] in Hs. destruct Hs as [<-|Hs].
    + eexists a', _. reflexivity.
    + destruct (IH (k, x) Hx (Hp (k, x) Hx) Hs (S level)) as (a & b & E).
      cbn [snd] in E. rewrite E.
      exists (a' ++ encode_string ensure_ascii k ++ py ": " ++ a), (b ++ b').
      rewrite <- !app_assoc. reflexivity.
Qed.

Lemma tree_strings_in_json (t : tree) (s : str) :
  In s (tree_strings t) -> In s (json_strings (json_of_tree t)).
Proof.
  induction t as [name type children IH] using tree_ind'. intros H.
  assert (G : forall l, Forall (fun t => In s (tree_strings t) ->
                                          In s (json_strings (json_of_tree t))) l ->
              In s (flat_map tree_strings l) ->
              In s (flat_map json_strings (map json_of_tree l))).
  { intros l Hl Hin. apply in_flat_map in Hin as (x & Hx & Hin).
    rewrite List.Forall_forall in Hl. apply in_flat_map.
    exists (json_of_tree x). split; [apply in_map, Hx|apply (Hl x Hx Hin)]. }
  cbn [tree_strings] in H. destruct H as [<-|H].
  - cbn [json_of_tree json_strings flat_map fst snd]. right. left. reflexivity.
  - apply in_app_or in H.
    destruct type as [ty|], children as [l|];
      cbn [json_of_tree member app json_strings flat_map fst snd];
      rewrite ?app_nil_r; cbn [In app];
      destruct H as [H|H]; try contradiction.
    + destruct H as [<-|[]]. tauto.
    + specialize (G l IH H). tauto.
    + destruct H as [<-|[]]. tauto.
    + specialize (G l IH H). tauto.
Qed.

(** ** What the two writers escape *)

Lemma encodable_false_app (a x b : str) :
  encodable x = false -> encodable (a ++ x ++ b) = false.
Proof.
  intros H. rewrite !encodable_app, H. rewrite andb_false_r. reflexivity.
Qed.

Lemma escape_char_surrogate (c : N) : is_scalar c = false -> escape_char c = [c].
Proof.
  intros H. unfold is_scalar in H. apply orb_false_iff in H as [H _].
  apply N.ltb_ge in H. unfold escape_char, short_escape.
  repeat match goal with
         | |- context [(c =? ?b)%N] => destruct (N.eqb_spec c b); [lia|]
         end.
  destruct (N.ltb_spec c 0x20); [lia|reflexivity].
Qed.

(** Without [ensure_ascii] a surrogate goes into the text as it is. *)
Lemma encode_string_keeps_surrogate (s : str) :
  encodable s = false -> encodable (encode_string false s) = false.
Proof.
  intros H. unfold encode_string.
  change (quote :: flat_map escape_char s ++ [quote])
    with ([quote] ++ flat_map escape_char s ++ [quote]).
  apply encodable_false_app.
  induction s as [|c s IH]; [discriminate|].
  cbn [encodable forallb] in H. cbn [flat_map]. rewrite encodable_app.
  destruct (is_scalar c) eqn:Hc.
  - rewrite IH by exact H. apply andb_false_r.
  - rewrite (escape_char_surrogate c Hc). unfold encodable at 1.
    cbn [forallb]. rewrite Hc. reflexivity.
Qed.

(** X21. The JSON file is written with the characters as they are: when a
    name of the tree holds a lone surrogate, which UTF-8 does not
    encode, the write of the JSON file raises [UnicodeEncodeError] and
    leaves the file torn, and the page is not written. *)
Theorem json_file_is_torn_by_a_surrogate (writable : str -> bool)
    (skill_tree : tree) (output_json output_html : str) (fs : gmap str file)
    (s : str) :
  writable output_json = true ->
  In s (tree_strings skill_tree) ->
  encodable s = false ->
  save writable skill_tree output_json output_html fs
  = (Raise UnicodeEncodeError, <[output_json := Torn]> fs).
Proof.
  intros Hw Hs He. unfold save, write_text. rewrite Hw. cbn [negb].
  destruct (encode_holds_string false (json_of_tree skill_tree) s
              (plain_json_of_tree skill_tree) (tree_strings_in_json _ _ Hs) 0)
    as (a & b & E).
  unfold dumps. rewrite E.
  rewrite (encodable_false_app _ _ _ (encode_string_keeps_surrogate s He)).
  reflexivity.
Qed.

Lemma is_ascii_app (a b : str) : is_ascii (a ++ b) = is_ascii a && is_ascii b.
Proof. apply forallb_app. Qed.

Lemma newline_indent_ascii (level : nat) : is_ascii (newline_indent level) = true.
Proof.
  unfold newline_indent, is_ascii. cbn [forallb].
  change (10 <? 128)%N with true. cbn [andb].
  induction (2 * level) as [|n IH]; [reflexivity|exact IH].
Qed.

Lemma encode_string_ascii (s : str) : is_ascii (encode_string true s) = true.
Proof.
  unfold encode_string.
  change (quote :: flat_map escape_char_ascii s ++ [quote])
    with ([quote] ++ flat_map escape_char_ascii s ++ [quote]).
  rewrite !is_ascii_app. change (is_ascii [quote]) with true.
  rewrite andb_true_r. cbn [andb]. apply forallb_flat_map.
  intros c _. apply escape_char_ascii_ascii.
Qed.

(** With [ensure_ascii] the text of a value without a number is ASCII. *)
Lemma encode_ascii (v : json) :
  plain v = true -> forall level, is_ascii (encode true level v) = true.
Proof.
  induction v as [|b|l|s|l IH|m IH] using json_ind'; intros Hp level.
  - reflexivity.
  - destruct b; reflexivity.
  - discriminate.
  - apply encode_string_ascii.
  - destruct l as [|x xs]; [reflexivity|].
    cbn [plain] in Hp. rewrite forallb_forall in Hp.
    rewrite List.Forall_forall in IH.
    cbn [encode]. rewrite !is_ascii_app, !newline_indent_ascii.
    rewrite (IH x (or_introl eq_refl) (Hp x (or_introl eq_refl))).
    match goal with
    | |- context [is_ascii (flat_map ?f xs)] =>
        assert (F : is_ascii (flat_map f xs) = true)
    end.
    { apply forallb_flat_map. intros y Hy.
      fold (is_ascii (py "," ++ newline_indent (S level) ++ encode true (S level) y)).
      rewrite !is_ascii_app, newline_indent_ascii.
      rewrite (IH y (or_intror Hy) (Hp y (or_intror Hy))). reflexivity. }
    rewrite F. reflexivity.
  - destruct m as [|[k x] kxs]; [reflexivity|].
    cbn [plain] in Hp. apply andb_true_iff in Hp as [_ Hp].
    rewrite forallb_forall in Hp. rewrite List.Forall_forall in IH.
    cbn [encode]. rewrite !is_ascii_app, !newline_indent_ascii, encode_string_ascii.
    rewrite (IH (k, x) (or_introl eq_refl) (Hp (k, x) (or_introl eq_refl))).
    match goal with
    | |- context [is_ascii (flat_map ?f kxs)] =>
        assert (F : is_ascii (flat_map f kxs) = true)
    end.
    { apply forallb_flat_map. intros [k' y] Hy.
      fold (is_ascii (py "," ++ newline_indent (S level)
                      ++ encode_string true k' ++ py ": "
                      ++ encode true (S level) y)).
      rewrite !is_ascii_app, newline_indent_ascii, encode_string_ascii.
      rewrite (IH (k', y) (or_intror Hy) (Hp (k', y) (or_intror Hy))). reflexivity. }
    rewrite F. reflexivity.
Qed.

(** X22. The page is written with every character above U+007E escaped:
    whatever the names of the tree hold, lone surrogates included, the
    text put in the place of the marker is ASCII, and on a path that can
    be written the page is written and nothing is raised. *)
Theorem page_is_written_for_every_tree (writable : str -> bool)
    (skill_tree : tree) (output_path : str) (fs : gmap str file) :
  writable output_path = true ->
  generate_html_visualization writable skill_tree output_path fs
  = (Return tt,
     <[output_path := Text (page_before ++ dumps true (json_of_tree skill_tree)
                            ++ page_after)]> fs)
  /\ is_ascii (dumps true (json_of_tree skill_tree)) = true.
Proof.
  intros Hw. split.
  - unfold generate_html_visualization, write_text. rewrite Hw. cbn [negb].
    rewrite replace_template, page_encodable. reflexivity.
  - apply encode_ascii, plain_json_of_tree.
Qed.

Lemma escape_char_literal (ensure_ascii : bool) (c : N) :
  ((0x20 <=? c)%N && (c <=? 0x7E)%N && negb (c =? 0x22)%N && negb (c =? 0x5C)%N) = true ->
  (if ensure_ascii then escape_char_ascii else escape_char) c = [c].
Proof.
  intros H. apply andb_true_iff in H as [H H4]. apply andb_true_iff in H as [H H3].
  apply andb_true_iff in H as [H1 H2].
  apply negb_true_iff in H3, H4.
  assert (E : short_escape c = None).
  { unfold short_escape. rewrite H3, H4. apply N.leb_le in H1.
    repeat match goal with
           | |- context [(c =? ?b)%N] => destruct (N.eqb_spec c b); [lia|]
           end.
    reflexivity. }
  destruct ensure_ascii; unfold escape_char_ascii, escape_char; rewrite E.
  - rewrite H1, H2. reflexivity.
  - apply N.leb_le in H1. destruct (N.ltb_spec c 0x20); [lia|reflexivity].
Qed.

Lemma encode_string_literal (ensure_ascii : bool) (s : str) :
  literal s = true -> encode_string ensure_ascii s = quote :: s ++ [quote].
Proof.
  intros H. unfold encode_string. do 2 f_equal.
  induction s as [|c s IH]; [reflexivity|].
  cbn [literal forallb] in H. apply andb_true_iff in H as [Hc Hs].
  cbn [flat_map]. rewrite (escape_char_literal _ c Hc), (IH Hs). reflexivity.
Qed.

(** X23. The names of the tree are written into the script of the page
    with the escapes of JSON and no other: a name made of printable
    ASCII characters without a quote and without a backslash stands in
    the page between two quotes exactly as it is, whether or not it
    holds characters that have a meaning in HTML. *)
Theorem names_reach_the_page_unescaped (writable : str -> bool)
    (skill_tree : tree) (output_path : str) (fs : gmap str file) (s : str) :
  writable output_path = true ->
  In s (tree_strings skill_tree) ->
  literal s = true ->
  exists page,
    snd (generate_html_visualization writable skill_tree output_path fs)
      !! output_path = Some (Text page)
    /\ str_in (quote :: s ++ [quote]) page = true.
Proof.
  intros Hw Hs Hl.
  exists (page_before ++ dumps true (json_of_tree skill_tree) ++ page_after).
  split.
  - unfold generate_html_visualization, write_text. rewrite Hw. cbn [negb].
    rewrite replace_template, page_encodable. apply lookup_insert_eq.
  - destruct (encode_holds_string true (json_of_tree skill_tree) s
                (plain_json_of_tree skill_tree) (tree_strings_in_json _ _ Hs) 0)
      as (a & b & E).
    unfold dumps. rewrite E, (encode_string_literal true s Hl).
    apply str_in_spec. exists (page_before ++ a), (b ++ page_after).
    rewrite <- !app_assoc. reflexivity.
Qed.

(** ** The generator and the entry point *)

Section MainFacts.
Context {U : UnicodeData}.

(** X24. The key given to the generator wins over the environment; an
    empty key counts as no key, and the variable [XAI_API_KEY] is then
    read.  When neither gives a key that is not empty, the
    classification is the keyword fallback, whatever the remote service
    would answer. *)
Theorem credential_of_the_generator (api_key : option str)
    (environ : gmap str str) :
  (has_credential api_key = true -> __init__ api_key environ = api_key)
  /\ (has_credential api_key = false ->
      __init__ api_key environ = environ !! py "XAI_API_KEY")
  /\ (has_credential api_key = false ->
      has_credential (environ !! py "XAI_API_KEY") = false ->
      forall remote resume_text,
        classify (__init__ api_key environ) remote resume_text
        = Return (json_of_skill_data (_fallback_skill_extraction resume_text))).
Proof.
  unfold __init__. split; [|split].
  - intros ->. reflexivity.
  - intros ->. reflexivity.
  - intros -> He remote resume_text. unfold classify. rewrite He. reflexivity.
Qed.

(** X25. [main] reads the document named by its first argument, or
    [AlbertoMejiaResume.pdf] without one, and ignores the other
    arguments.  When that path does not exist it returns without
    raising and without writing.  When it exists, [main] is the run of a
    generator that was given no key, on that document and on the files
    [skill_tree.json] and [skill_tree.html]: it leaves the files of that
    run, raises what the run raises and returns nothing when the run
    returns.  In every case it leaves untouched every file but those
    two. *)
Theorem main_touches_two_files (argv : list str) (path_exists : str -> bool)
    (environ : gmap str str) (w : world) (fs : gmap str file) :
  let pdf_path := match argv with
                  | _ :: pdf_path :: _ => pdf_path
                  | _ => py "AlbertoMejiaResume.pdf"
                  end in
  let run := generate_skill_tree w (__init__ None environ) pdf_path
               (py "skill_tree.json") (py "skill_tree.html") fs in
  (path_exists pdf_path = false ->
   main argv path_exists environ w fs = (Return tt, fs))
  /\ (path_exists pdf_path = true ->
      main argv path_exists environ w fs
      = (match fst run with
         | Return _ => Return tt
         | Raise e => Raise e
         end, snd run))
  /\ (forall p, p <> py "skill_tree.json" -> p <> py "skill_tree.html" ->
                snd (main argv path_exists environ w fs) !! p = fs !! p).
Proof.
  intros pdf_path run.
  assert (E : main argv path_exists environ w fs
              = if path_exists pdf_path
                then (match fst run with
                      | Return _ => Return tt
                      | Raise e => Raise e
                      end, snd run)
                else (Return tt, fs)).
  { unfold main. cbv zeta.
    replace (if (1 <? length argv)%nat then nth 1 argv []
             else py "AlbertoMejiaResume.pdf") with pdf_path
      by (destruct argv as [|a [|p argv]]; reflexivity).
    destruct (path_exists pdf_path); cbn [negb]; [|reflexivity].
    fold run. destruct run as [[skill_tree|e] fs1]; reflexivity. }
  refine (conj _ (conj _ _)).
  - intros Hp. rewrite E, Hp. reflexivity.
  - intros Hp. rewrite E, Hp. reflexivity.
  - intros p Hj Hh. rewrite E. destruct (path_exists pdf_path); [|reflexivity].
    cbn [snd]. apply generate_skill_tree_frame; assumption.
Qed.

End MainFacts.

(** ** Answers that are and are not JSON *)

Lemma loads_bad_start (c : N) (rest : str) :
  starts_json c = false -> loads (c :: rest) = None.
Proof.
  unfold starts_json. intros H.
  apply orb_false_iff in H as [H H3]. apply orb_false_iff in H as [H1 H2].
  assert (Hne : forall b,
             In b [0x22; 0x7B; 0x5B; 0x2D; 0x6E; 0x74; 0x66; 0x4E; 0x49; 0xFEFF]%N ->
             (c =? b)%N = false).
  { intros b Hb. destruct (c =? b)%N eqn:E; [|reflexivity].
    rewrite <- H3. symmetry. apply existsb_exists. exists b. auto. }
  assert (H0 : (c =? 0x30)%N = false).
  { destruct (N.eqb_spec c 0x30) as [->|]; [discriminate|reflexivity]. }
  unfold loads. cbn [startswith]. rewrite (Hne 0xFEFF%N) by (simpl; tauto).
  cbn [andb skip_ws]. rewrite H1. cbn [length scan_once].
  rewrite (Hne 0x22%N), (Hne 0x7B%N), (Hne 0x5B%N) by (simpl; tauto).
  change (py "null") with [0x6E; 0x75; 0x6C; 0x6C]%N.
  change (py "true") with [0x74; 0x72; 0x75; 0x65]%N.
  change (py "false") with [0x66; 0x61; 0x6C; 0x73; 0x65]%N.
  change (py "NaN") with [0x4E; 0x61; 0x4E]%N.
  change (py "Infinity") with (0x49%N :: py "nfinity").
  change (py "-Infinity") with (0x2D%N :: py "Infinity").
  cbn [startswith].
  rewrite (Hne 0x6E%N), (Hne 0x74%N), (Hne 0x66%N) by (simpl; tauto).
  cbn [andb]. unfold match_number, match_integer.
  rewrite (Hne 0x2D%N) by (simpl; tauto). rewrite H0, H2.
  rewrite (Hne 0x4E%N), (Hne 0x49%N) by (simpl; tauto). cbn [andb].
  unfold match_constant. cbn [startswith].
  rewrite (Hne 0x2D%N) by (simpl; tauto). reflexivity.
Qed.

Lemma dumps_dictionary_trimmed (ensure_ascii : bool) (m : list (str * json)) :
  trimmed (dumps ensure_ascii (JObject m)) = true
  /\ startswith (dumps ensure_ascii (JObject m)) fence = false.
Proof.
  unfold dumps. destruct m as [|[k x] kxs]; [split; reflexivity|].
  cbn [encode]. split; [|reflexivity].
  apply trimmed_spec. split.
  - intros c r [= <- _]. reflexivity.
  - intros r c E. rewrite !app_assoc in E. apply app_inj_tail in E as [_ <-].
    reflexivity.
Qed.

Section AnswerFacts.
Context {U : UnicodeData}.

(** X26. An answer whose content is the JSON text of a skill record, as
    [json.dumps] writes it with either setting of [ensure_ascii], is
    read back as the dictionary of the record, and the tree is the one
    built from the record. *)
Theorem answer_with_a_record (api_key : option str) (status_code : N)
    (result : json) (resume_text : str) (ensure_ascii : bool) (d : skill_data) :
  has_credential api_key = true ->
  is_error_status status_code = false ->
  plain (json_of_skill_data d) = true ->
  Forall (fun s => readable ensure_ascii s = true)
    (json_strings (json_of_skill_data d)) ->
  message_content result
  = Return (JString (dumps ensure_ascii (json_of_skill_data d))) ->
  classify api_key (Answer status_code (Return result)) resume_text
  = Return (json_of_skill_data d)
  /\ build_skill_tree_json (json_of_skill_data d)
     = Return (json_of_tree (build_skill_tree d)).
Proof.
  intros Hk Hs Hp Hr Hm. split.
  - unfold classify, analyze_resume_with_xai, try_block, request.
    rewrite Hk, Hs, Hm.
    assert (E : strip_fences (dumps ensure_ascii (json_of_skill_data d))
                = dumps ensure_ascii (json_of_skill_data d)).
    { unfold json_of_skill_data in *.
      match goal with
      | |- context [JObject ?m] =>
          destruct (dumps_dictionary_trimmed ensure_ascii m) as [T F]
      end.
      unfold strip_fences. rewrite (strip_fixed _ T), F. reflexivity. }
    rewrite E, (loads_dumps _ _ Hp Hr). reflexivity.
  - apply build_json_of_record, skill_data_of_json_of_skill_data.
Qed.

(** X27. The fences are looked for at the start of the content only: a
    content that starts, once trimmed, with anything that is neither a
    fence nor the start of a JSON text, such as a sentence before a
    fenced block, is not decoded.  Its first 500 characters are printed:
    the classification is the keyword fallback when the standard output
    encodes them, and [UnicodeEncodeError] is raised when it does not. *)
Theorem text_before_the_answer_degrades (api_key : option str)
    (status_code : N) (result : json) (content resume_text : str)
    (c : N) (rest : str) :
  has_credential api_key = true ->
  is_error_status status_code = false ->
  message_content result = Return (JString content) ->
  strip content = c :: rest ->
  startswith (c :: rest) fence = false ->
  starts_json c = false ->
  classify api_key (Answer status_code (Return result)) resume_text
  = if encodable (firstn 500 (c :: rest))
    then Return (json_of_skill_data (_fallback_skill_extraction resume_text))
    else Raise UnicodeEncodeError.
Proof.
  intros Hk Hs Hm Hc Hf Hj.
  unfold classify, analyze_resume_with_xai, try_block, request.
  rewrite Hk, Hs, Hm. unfold strip_fences. rewrite Hc, Hf. cbv zeta.
  rewrite (loads_bad_start c rest Hj), print_content.
  destruct (encodable (firstn 500 (c :: rest))); reflexivity.
Qed.

End AnswerFacts.

(** ** The theorems on examples *)

Lemma extract_joins_pdfplumber_pages_witness :
  let w := {| pdfplumber := true;
              PyPDF2 := true;
              pdfplumber_open := fun _ =>
                Page (Some (py "Alice")) (Page None (Page (Some (py "Bob")) Done));
              PyPDF2_open := fun _ => Raises BackendError |} in
  extract_text_from_pdf w (py "resume.pdf") = Return (py "Alice
Bob").
Proof.
  exact (extract_joins_pdfplumber_pages
           {| pdfplumber := true;
              PyPDF2 := true;
              pdfplumber_open := fun _ =>
                Page (Some (py "Alice")) (Page None (Page (Some (py "Bob")) Done));
              PyPDF2_open := fun _ => Raises BackendError |}
           (py "resume.pdf") (py "Alice") [py "Bob"] eq_refl eq_refl).
Defined.

Lemma extract_falls_back_to_pypdf2_witness :
  let w := {| pdfplumber := true;
              PyPDF2 := true;
              pdfplumber_open := fun _ => Raises BackendError;
              PyPDF2_open := fun _ => Page (Some (py "Carol ")) Done |} in
  extract_text_from_pdf w (py "resume.pdf") = Return (py "Carol").
Proof.
  exact (extract_falls_back_to_pypdf2
           {| pdfplumber := true;
              PyPDF2 := true;
              pdfplumber_open := fun _ => Raises BackendError;
              PyPDF2_open := fun _ => Page (Some (py "Carol ")) Done |}
           (py "resume.pdf") (py "Carol ") [] (or_intror eq_refl) eq_refl eq_refl).
Defined.

Lemma extract_result_is_trimmed_witness :
  trimmed (py "Dora") = true /\ strip (py "Dora") = py "Dora".
Proof.
  exact (extract_result_is_trimmed
           {| pdfplumber := true;
              PyPDF2 := false;
              pdfplumber_open := fun _ => Page (Some (py "  Dora ")) Done;
              PyPDF2_open := fun _ => Done |}
           (py "resume.pdf") (py "Dora") eq_refl).
Defined.

Lemma build_json_on_a_record_witness :
  @build_skill_tree_json basic_latin_ucd
    (JObject [(py "model", JString (py "grok-4-latest"));
              (py "skills",
               JObject [(py "soft_skills", JArray [JString (py "Teamwork")])])])
  = Return
      (json_of_tree
         (Node (py "Skills") None
            (Some [Node (py "Soft Skills") None
                     (Some [Node (py "Teamwork") (Some (py "skill")) None])]))).
Proof.
  exact (@build_json_on_a_record basic_latin_ucd
           (JObject [(py "model", JString (py "grok-4-latest"));
                     (py "skills",
                      JObject [(py "soft_skills", JArray [JString (py "Teamwork")])])])
           {| skills := Some {| technical := None;
                                soft_skills := Some [py "Teamwork"];
                                domains := None;
                                certifications := None |};
              experience_levels := None;
              skill_relationships := None |}
           eq_refl).
Defined.

Lemma build_json_raises_only_witness :
  @build_skill_tree_json basic_latin_ucd (JObject [(py "skills", JNull)])
  = Raise TypeError
  /\ (TypeError = AttributeError \/ TypeError = TypeError)
  /\ @build_skill_tree_json basic_latin_ucd
       (JArray [JObject [(py "skills", JObject [])]])
     = Raise AttributeError.
Proof.
  refine (conj eq_refl (conj _ _)).
  - exact (proj1 (@build_json_raises_only basic_latin_ucd
                    (JObject [(py "skills", JNull)])) TypeError eq_refl).
  - apply (proj2 (@build_json_raises_only basic_latin_ucd
                    (JArray [JObject [(py "skills", JObject [])]]))).
    discriminate.
Defined.

Lemma build_json_reads_only_skills_witness :
  @build_skill_tree_json basic_latin_ucd
    (JObject [(py "skills", JObject [(py "domains", JArray [JString (py "Robotics")])]);
              (py "experience_levels", JString (py "unknown"))])
  = @build_skill_tree_json basic_latin_ucd
      (JObject [(py "skills", JObject [(py "domains", JArray [JString (py "Robotics")])])]).
Proof.
  exact (@build_json_reads_only_skills basic_latin_ucd
           [(py "skills", JObject [(py "domains", JArray [JString (py "Robotics")])]);
            (py "experience_levels", JString (py "unknown"))]
           [(py "skills", JObject [(py "domains", JArray [JString (py "Robotics")])])]
           eq_refl).
Defined.

Lemma fallback_ignores_case_witness :
  @_fallback_skill_extraction basic_latin_ucd (py "PYTHON and docker")
  = @_fallback_skill_extraction basic_latin_ucd (py "python AND Docker").
Proof.
  exact (@fallback_ignores_case basic_latin_ucd basic_latin_ucd_ok
           (py "PYTHON and docker") (py "python AND Docker")
           eq_refl eq_refl eq_refl).
Defined.

Lemma fallback_is_monotone_witness :
  In (py "Rust")
    (@found_skills basic_latin_ucd (py "Ten years of " ++ py "Rust" ++ py " and Go")
       (py "programming_languages")).
Proof.
  exact (@fallback_is_monotone basic_latin_ucd basic_latin_ucd_ok
           (py "Ten years of ") (py "Rust") (py " and Go")
           (py "programming_languages") (py "Rust") eq_refl (or_introl eq_refl)).
Defined.

Lemma fallback_tree_witness :
  @build_skill_tree basic_latin_ucd
    (@_fallback_skill_extraction basic_latin_ucd (py "Vue and Git"))
  = Node (py "Skills") None
      (Some [Node (py "Technical Skills") None
               (Some [Node (py "Frameworks") None
                        (Some [Node (py "Vue") (Some (py "skill")) None]);
                      Node (py "Tools") None
                        (Some [Node (py "Git") (Some (py "skill")) None])])]).
Proof.
  exact (@fallback_tree basic_latin_ucd basic_latin_ucd_ok (py "Vue and Git")).
Defined.

Lemma run_without_credential_witness :
  let w := {| pdf := {| pdfplumber := true; PyPDF2 := false;
                        pdfplumber_open := fun _ => Page (Some (py "Vue and Git")) Done;
                        PyPDF2_open := fun _ => Done |};
              remote := PostRaises RequestException;
              writable := fun _ => true |} in
  let skill_tree :=
    @build_skill_tree basic_latin_ucd
      (@_fallback_skill_extraction basic_latin_ucd (py "Vue and Git")) in
  let text := dumps false (json_of_tree skill_tree) in
  @generate_skill_tree basic_latin_ucd w None (py "resume.pdf")
    (py "skill_tree.json") (py "skill_tree.html") ∅
  = (Return (json_of_tree skill_tree),
     <[py "skill_tree.html" := Text (page_before ++ text ++ page_after)]>
       (<[py "skill_tree.json" := Text text]> ∅))
  /\ loads text = Some (json_of_tree skill_tree).
Proof.
  exact (@run_without_credential basic_latin_ucd basic_latin_ucd_ok
           {| pdf := {| pdfplumber := true; PyPDF2 := false;
                        pdfplumber_open := fun _ => Page (Some (py "Vue and Git")) Done;
                        PyPDF2_open := fun _ => Done |};
              remote := PostRaises RequestException;
              writable := fun _ => true |}
           None (py "resume.pdf") (py "skill_tree.json") (py "skill_tree.html") ∅
           (py "Vue and Git") eq_refl eq_refl eq_refl eq_refl).
Defined.

Lemma answer_without_content_gives_empty_tree_witness :
  @classify basic_latin_ucd (Some (py "xai-key"))
    (Answer 200 (Return (JObject [(py "error", JString (py "quota"))])))
    (py "Python developer")
  = Return (JObject []).
Proof.
  exact (proj1 (@answer_without_content_gives_empty_tree basic_latin_ucd
                  (Some (py "xai-key")) 200
                  (JObject [(py "error", JString (py "quota"))])
                  (py "Python developer") eq_refl eq_refl
                  (missing_choices [(py "error", JString (py "quota"))] eq_refl))).
Defined.

Lemma answer_that_is_no_dictionary_raises_witness :
  let answer :=
    JObject [(py "choices",
              JArray [JObject [(py "message",
                                JObject [(py "content",
                                          JString (pyq "[@Python@]"))])]])] in
  @classify basic_latin_ucd (Some (py "xai-key")) (Answer 200 (Return answer))
    (py "Python developer")
  = Return (JArray [JString (py "Python")])
  /\ @build_skill_tree_json basic_latin_ucd (JArray [JString (py "Python")])
     = Raise AttributeError.
Proof.
  intros answer.
  refine (@answer_that_is_no_dictionary_raises basic_latin_ucd
            (Some (py "xai-key")) 200 answer (pyq "[@Python@]") (py "Python developer")
            (JArray [JString (py "Python")]) eq_refl eq_refl eq_refl eq_refl _).
  intros m. discriminate.
Defined.

Lemma fenced_answer_is_unwrapped_witness :
  let body := pyq "{@skills@: {}}" in
  let answer :=
    JObject [(py "choices",
              JArray [JObject [(py "message",
                                JObject [(py "content",
                                          JString (fenced (py "json") body))])]])] in
  strip_fences (fenced (py "json") body) = body
  /\ @classify basic_latin_ucd (Some (py "xai-key")) (Answer 200 (Return answer))
       (py "Python developer")
     = Return (JObject [(py "skills", JObject [])]).
Proof.
  intros body answer.
  pose proof (@fenced_answer_is_unwrapped basic_latin_ucd (py "json") body
                eq_refl eq_refl) as [E C].
  exact (conj E (C (Some (py "xai-key")) 200%N answer (py "Python developer")
                   (JObject [(py "skills", JObject [])])
                   eq_refl eq_refl eq_refl eq_refl)).
Defined.

Lemma same_path_keeps_the_page_witness :
  let t := Node (py "Skills") None (Some []) in
  let page := page_before ++ dumps true (json_of_tree t) ++ page_after in
  save (fun _ => true) t (py "skill_tree") (py "skill_tree") ∅
  = (Return t, <[py "skill_tree" := Text page]> ∅)
  /\ load_file (<[py "skill_tree" := Text page]> ∅) (py "skill_tree") = None.
Proof.
  exact (same_path_keeps_the_page (fun _ => true)
           (Node (py "Skills") None (Some [])) (py "skill_tree") ∅ eq_refl
           (List.Forall_cons _ (py "Skills") [] eq_refl (List.Forall_nil _))).
Defined.

Lemma json_file_is_torn_by_a_surrogate_witness :
  let t := Node (py "Skills") None
             (Some [Node (py "Soft Skills") None
                      (Some [Node [0xD83C%N] (Some (py "skill")) None])]) in
  save (fun _ => true) t (py "skill_tree.json") (py "skill_tree.html") ∅
  = (Raise UnicodeEncodeError, <[py "skill_tree.json" := Torn]> ∅).
Proof.
  exact (json_file_is_torn_by_a_surrogate (fun _ => true)
           (Node (py "Skills") None
              (Some [Node (py "Soft Skills") None
                       (Some [Node [0xD83C%N] (Some (py "skill")) None])]))
           (py "skill_tree.json") (py "skill_tree.html") ∅ [0xD83C%N] eq_refl
           (or_intror (or_intror (or_introl eq_refl))) eq_refl).
Defined.

Lemma page_is_written_for_every_tree_witness :
  let t := Node (py "Skills") None
             (Some [Node (py "Soft Skills") None
                      (Some [Node [0xD83C%N] (Some (py "skill")) None])]) in
  generate_html_visualization (fun _ => true) t (py "skill_tree.html") ∅
  = (Return tt,
     <[py "skill_tree.html" := Text (page_before ++ dumps true (json_of_tree t)
                                     ++ page_after)]> ∅)
  /\ str_in (pyq "@name@: @\ud83c@") (dumps true (json_of_tree t)) = true.
Proof.
  intros t. split; [|vm_compute; reflexivity].
  exact (proj1 (page_is_written_for_every_tree (fun _ => true) t
                  (py "skill_tree.html") ∅ eq_refl)).
Defined.

Lemma names_reach_the_page_unescaped_witness :
  let t := Node (py "Skills") None
             (Some [Node (py "Soft Skills") None
                      (Some [Node (py "</script>") (Some (py "skill")) None])]) in
  exists page,
    snd (generate_html_visualization (fun _ => true) t (py "skill_tree.html") ∅)
      !! py "skill_tree.html" = Some (Text page)
    /\ str_in (pyq "@</script>@") page = true.
Proof.
  exact (names_reach_the_page_unescaped (fun _ => true)
           (Node (py "Skills") None
              (Some [Node (py "Soft Skills") None
                       (Some [Node (py "</script>") (Some (py "skill")) None])]))
           (py "skill_tree.html") ∅ (py "</script>") eq_refl
           (or_intror (or_intror (or_introl eq_refl))) eq_refl).
Defined.

Lemma run_touches_two_files_witness :
  let w := {| pdf := {| pdfplumber := true; PyPDF2 := false;
                        pdfplumber_open := fun _ => Page (Some (py "Vue and Git")) Done;
                        PyPDF2_open := fun _ => Done |};
              remote := PostRaises RequestException;
              writable := fun path => str_eqb path (py "skill_tree.json") |} in
  let fs : gmap str file := {[ py "notes.txt" := Text (py "to do") ]} in
  let run := @generate_skill_tree basic_latin_ucd w None (py "resume.pdf")
               (py "skill_tree.json") (py "skill_tree.html") fs in
  fst run = Raise OSError
  /\ snd run !! py "notes.txt" = Some (Text (py "to do")).
Proof.
  intros w fs run. split; [reflexivity|].
  refine (eq_trans
            (@run_touches_two_files basic_latin_ucd w None (py "resume.pdf")
               (py "skill_tree.json") (py "skill_tree.html") (py "notes.txt")
               fs _ _) _); [discriminate|discriminate|reflexivity].
Defined.

Lemma main_touches_two_files_witness :
  let w := {| pdf := {| pdfplumber := true; PyPDF2 := false;
                        pdfplumber_open := fun _ => Page (Some (py "Vue and Git")) Done;
                        PyPDF2_open := fun _ => Done |};
              remote := PostRaises RequestException;
              writable := fun path => str_eqb path (py "skill_tree.json") |} in
  let fs : gmap str file := {[ py "notes.txt" := Text (py "to do") ]} in
  let argv := [py "skill_tree_generator.py"; py "resume.pdf"; py "more"] in
  @main basic_latin_ucd argv (fun path => str_eqb path (py "resume.pdf")) ∅ w fs
  = (Raise OSError,
     snd (@generate_skill_tree basic_latin_ucd w None (py "resume.pdf")
            (py "skill_tree.json") (py "skill_tree.html") fs))
  /\ @main basic_latin_ucd [py "skill_tree_generator.py"] 
       (fun path => str_eqb path (py "resume.pdf")) ∅ w fs
     = (Return tt, fs)
  /\ snd (@main basic_latin_ucd argv (fun path => str_eqb path (py "resume.pdf"))
            ∅ w fs) !! py "notes.txt"
     = Some (Text (py "to do")).
Proof.
  intros w fs argv. refine (conj _ (conj _ _)).
  - exact (proj1 (proj2 (@main_touches_two_files basic_latin_ucd argv
                           (fun path => str_eqb path (py "resume.pdf")) ∅ w fs))
             eq_refl).
  - exact (proj1 (@main_touches_two_files basic_latin_ucd
                    [py "skill_tree_generator.py"]
                    (fun path => str_eqb path (py "resume.pdf")) ∅ w fs)
             eq_refl).
  - refine (eq_trans
              (proj2 (proj2 (@main_touches_two_files basic_latin_ucd argv
                               (fun path => str_eqb path (py "resume.pdf")) ∅ w fs))
                 (py "notes.txt") _ _) _); [discriminate|discriminate|reflexivity].
Defined.

Lemma answer_with_a_record_witness :
  let d := {| skills := Some {| technical := Some [(py "tools", [py "Git"])];
                                soft_skills := Some [py "Pédagogie"];
                                domains := None;
                                certifications := None |};
              experience_levels := Some [(py "Git", expert)];
              skill_relationships := None |} in
  let answer :=
    JObject [(py "choices",
              JArray [JObject [(py "message",
                                JObject [(py "content",
                                          JString (dumps true (json_of_skill_data d)))])]])] in
  @classify basic_latin_ucd (Some (py "xai-key")) (Answer 200 (Return answer))
    (py "Python developer")
  = Return (json_of_skill_data d)
  /\ @build_skill_tree_json basic_latin_ucd (json_of_skill_data d)
     = Return (json_of_tree (@build_skill_tree basic_latin_ucd d)).
Proof.
  intros d answer.
  refine (@answer_with_a_record basic_latin_ucd (Some (py "xai-key")) 200 answer
            (py "Python developer") true d eq_refl eq_refl eq_refl _ eq_refl).
  repeat constructor.
Defined.

Lemma text_before_the_answer_degrades_witness :
  let content := py "Here is the JSON:
```json
{}
```" in
  let answer :=
    JObject [(py "choices",
              JArray [JObject [(py "message",
                                JObject [(py "content", JString content)])]])] in
  @classify basic_latin_ucd (Some (py "xai-key")) (Answer 200 (Return answer))
    (py "Python developer")
  = Return (json_of_skill_data
              (@_fallback_skill_extraction basic_latin_ucd (py "Python developer"))).
Proof.
  intros content answer.
  exact (@text_before_the_answer_degrades basic_latin_ucd (Some (py "xai-key")) 200
           answer content (py "Python developer") 0x48%N (tl content)
           eq_refl eq_refl eq_refl eq_refl eq_refl eq_refl).
Defined.

(** ** Keywords inside keywords *)

Lemma str_in_trans (a b c : str) :
  str_in a b = true -> str_in b c = true -> str_in a c = true.
Proof.
  rewrite !str_in_spec. intros (x & y & ->) (x' & y' & ->).
  exists (x' ++ x), (y ++ y'). rewrite <- !app_assoc. reflexivity.
Qed.

Section SubsumedKeywords.
Context {U : UnicodeData}.

(** X28. A keyword whose lowered name occurs inside the lowered name of
    another keyword, of the same category or not, is reported whenever
    the other one is: ["Java"] with ["JavaScript"], ["Go"] with
    ["MongoDB"], ["R"] with every keyword that has the letter [r]. *)
Theorem keyword_inside_keyword (resume_text category category' keyword keyword' : str)
    (keywords : list str) :
  In (category, keywords) tech_keywords ->
  In keyword keywords ->
  str_in (lower keyword) (lower keyword') = true ->
  In keyword' (found_skills resume_text category') ->
  In keyword (found_skills resume_text category).
Proof.
  intros Hc Hk Hin H'. rewrite (found_skills_filter _ _ _ Hc).
  apply filter_In. split; [exact Hk|].
  rewrite found_skills_table in H'.
  destruct (dict_get tech_keywords category') as [keywords'|]; [|contradiction].
  apply filter_In in H' as [_ H']. unfold mentions in *.
  apply (str_in_trans _ _ _ Hin H').
Qed.

End SubsumedKeywords.

Lemma keyword_inside_keyword_witness :
  In (py "Go")
    (@found_skills basic_latin_ucd (py "Stored in MongoDB")
       (py "programming_languages")).
Proof.
  exact (@keyword_inside_keyword basic_latin_ucd (py "Stored in MongoDB")
           (py "programming_languages") (py "tools") (py "Go") (py "MongoDB") _
           (or_introl eq_refl)
           (or_intror (or_intror (or_intror (or_intror (or_intror (or_introl eq_refl))))))
           eq_refl (or_introl eq_refl)).
Defined.
